(** * OpenVR-AdvancedSettings: the IVRInput adapter ([namespace input])

    A shallow embedding of [src/ivrinput/ivrinput.cpp] (the revision whose
    member actions are named [...PlayspaceRotate]/[...PlayspaceMove]) and of
    a second revision of the same file (member actions [...RoomTurn],
    [...RoomDrag] and [m_pushToTalk]).

    The C++ code is call-and-return code with three effects: it calls into
    the SteamVR runtime through [vr::VRInput()], it writes lines to the log
    with [LOG( ERROR )], and it throws [std::runtime_error].  All three are
    threaded through one state-and-exception monad whose state is the object
    a function received by reference together with the outside world (the
    runtime's own state, the log, and the trace of runtime calls). *)

From Stdlib Require Import ZArith List String Bool Lia DecimalString.
From ExtLib Require Import Structures.Monad.
Import ListNotations.
Import MonadNotation.

Local Open Scope Z_scope.
Local Open Scope string_scope.
Local Open Scope monad_scope.

Set Implicit Arguments.

(** ** [namespace vr]: what the code uses of [openvr.h]

    [openvr.h] belongs to the SteamVR SDK, not to this repository.  Handles
    are 64-bit unsigned integers and error codes are the integers of the C
    enum [EVRInputError]; both are kept as [Z].  A [float] field is kept as
    its 32-bit pattern, so that [= {}] is the pattern [0]. *)
Module vr.

Definition VRActionHandle_t := Z.
Definition VRActionSetHandle_t := Z.
Definition VRInputValueHandle_t := Z.
Definition float32 := Z.

Definition EVRInputError := Z.
Definition VRInputError_None : EVRInputError := 0.

Record InputDigitalActionData_t := {
  bActive : bool;
  activeOrigin : VRInputValueHandle_t;
  bState : bool;
  bChanged : bool;
  fUpdateTime : float32
}.

(** [vr::InputDigitalActionData_t handleData = {};] *)
Definition InputDigitalActionData_zero : InputDigitalActionData_t :=
  {| bActive := false; activeOrigin := 0; bState := false;
     bChanged := false; fUpdateTime := 0 |}.

Module Analog.
Record InputAnalogActionData_t := {
  bActive : bool;
  activeOrigin : VRInputValueHandle_t;
  x : float32; y : float32; z : float32;
  deltaX : float32; deltaY : float32; deltaZ : float32;
  fUpdateTime : float32
}.

(** [vr::InputAnalogActionData_t handleData = {};] *)
Definition InputAnalogActionData_zero : InputAnalogActionData_t :=
  {| bActive := false; activeOrigin := 0; x := 0; y := 0; z := 0;
     deltaX := 0; deltaY := 0; deltaZ := 0; fUpdateTime := 0 |}.
End Analog.
Abbreviation InputAnalogActionData_t := Analog.InputAnalogActionData_t.
Abbreviation InputAnalogActionData_zero := Analog.InputAnalogActionData_zero.

(** The three fields of the descriptor that the constructor assigns. *)
Record VRActiveActionSet_t := {
  ulActionSet : VRActionSetHandle_t;
  ulRestrictedToDevice : VRInputValueHandle_t;
  nPriority : Z
}.

Definition set_ulActionSet (v : VRActionSetHandle_t) (s : VRActiveActionSet_t) :=
  {| ulActionSet := v;
     ulRestrictedToDevice := ulRestrictedToDevice s;
     nPriority := nPriority s |}.
Definition set_ulRestrictedToDevice (v : VRInputValueHandle_t) (s : VRActiveActionSet_t) :=
  {| ulActionSet := ulActionSet s;
     ulRestrictedToDevice := v;
     nPriority := nPriority s |}.
Definition set_nPriority (v : Z) (s : VRActiveActionSet_t) :=
  {| ulActionSet := ulActionSet s;
     ulRestrictedToDevice := ulRestrictedToDevice s;
     nPriority := v |}.

Definition VRActiveActionSet_zero : VRActiveActionSet_t :=
  {| ulActionSet := 0; ulRestrictedToDevice := 0; nPriority := 0 |}.

(** Constants of the header the code is compiled against: the reserved
    handle and the three [sizeof] values handed to the runtime. *)
Class Header := {
  k_ulInvalidInputValueHandle : VRInputValueHandle_t;
  sizeof_InputDigitalActionData_t : Z;
  sizeof_InputAnalogActionData_t : Z;
  sizeof_VRActiveActionSet_t : Z
}.

(** The interface behind [vr::VRInput()].  [RT] is the runtime's own
    state.  A pointer the runtime fills ([&handleData], [&m_handle]) is an
    in-out argument: the call receives the buffer as the caller prepared
    it and gives back the buffer as it left it, whatever the error code.
    [UpdateActionState] reads the array of descriptors it is given. *)
Class IVRInput (RT : Type) := {
  SetActionManifestPath :
    string -> RT -> EVRInputError * RT;
  GetActionSetHandle :
    string -> VRActionSetHandle_t -> RT ->
    EVRInputError * VRActionSetHandle_t * RT;
  GetActionHandle :
    string -> VRActionHandle_t -> RT ->
    EVRInputError * VRActionHandle_t * RT;
  GetDigitalActionData :
    VRActionHandle_t -> InputDigitalActionData_t -> Z ->
    VRInputValueHandle_t -> RT ->
    EVRInputError * InputDigitalActionData_t * RT;
  GetAnalogActionData :
    VRActionHandle_t -> InputAnalogActionData_t -> Z ->
    VRInputValueHandle_t -> RT ->
    EVRInputError * InputAnalogActionData_t * RT;
  UpdateActionState :
    list VRActiveActionSet_t -> Z -> Z -> RT -> EVRInputError * RT
}.

(** One entry of the trace of calls made through [vr::VRInput()]. *)
Inductive Call :=
| CallSetActionManifestPath (path : string)
| CallGetActionSetHandle (name : string)
| CallGetActionHandle (name : string)
| CallGetDigitalActionData
    (action : VRActionHandle_t) (size : Z) (restrictTo : VRInputValueHandle_t)
| CallGetAnalogActionData
    (action : VRActionHandle_t) (size : Z) (restrictTo : VRInputValueHandle_t)
| CallUpdateActionState
    (pSets : list VRActiveActionSet_t) (size : Z) (unSetCount : Z).

End vr.

(** ** Effects *)
Module Eff.

Inductive Level := ERROR.

Record LogLine := { level : Level; text : string }.

(** [std::runtime_error( what )] is the one exception the code throws. *)
Inductive exn := runtime_error (what : string).

Inductive Outcome (A : Type) :=
| Returned (a : A)
| Thrown (e : exn).
Arguments Thrown {A} e.

(** The world outside the object: the runtime, the log written so far and
    the runtime calls made so far (oldest first). *)
Record World (RT : Type) := {
  runtime : RT;
  logged : list LogLine;
  calls : list vr.Call
}.

(** A computation over the state [S]; a thrown exception keeps the state
    reached when it was thrown. *)
Definition SE (S A : Type) := S -> Outcome A * S.

Section Ops.
Context {S : Type}.

Definition se_ret {A} (a : A) : SE S A := fun s => (Returned a, s).

Definition se_bind {A B} (m : SE S A) (k : A -> SE S B) : SE S B :=
  fun s =>
    match m s with
    | (Returned a, s') => k a s'
    | (Thrown e, s') => (Thrown e, s')
    end.

Definition throw {A} (e : exn) : SE S A := fun s => (Thrown e, s).

Definition gets {A} (f : S -> A) : SE S A := fun s => (Returned (f s), s).

Definition modify (f : S -> S) : SE S unit := fun s => (Returned tt, f s).
End Ops.

#[export] Instance Monad_SE (S : Type) : Monad (SE S) :=
  {| ret := @se_ret S; bind := @se_bind S |}.

(** Run [m], which works on a part [P] of the state, inside the whole
    state: a member passed by reference. *)
Definition zoom {O P W A : Type} (get : O -> P) (set : P -> O -> O)
    (m : SE (P * W) A) : SE (O * W) A :=
  fun s =>
    let '(o, w) := s in
    let '(r, (p', w')) := m (get o, w) in
    (r, (set p' o, w')).

(** Run the body of a constructor on the object [o] under construction and
    hand the finished object to the caller. *)
Definition construct {O W : Type} (o : O) (body : SE (O * W) unit)
    : SE (unit * W) O :=
  fun s =>
    match body (o, snd s) with
    | (Returned _, (o', w')) => (Returned o', (tt, w'))
    | (Thrown e, (_, w')) => (Thrown e, (tt, w'))
    end.

Section WorldOps.
Context {RT O : Type}.

(** [LOG( ERROR ) << msg;] *)
Definition LOG (l : Level) (msg : string) : SE (O * World RT) unit :=
  modify (fun s =>
    (fst s, {| runtime := runtime (snd s);
               logged := (logged (snd s) ++ [{| level := l; text := msg |}])%list;
               calls := calls (snd s) |})).

(** A call through [vr::VRInput()]: the runtime steps, the call is
    appended to the trace. *)
Definition vrcall {A} (c : vr.Call) (f : RT -> A * RT) : SE (O * World RT) A :=
  fun s =>
    let '(a, rt') := f (runtime (snd s)) in
    (Returned a,
     (fst s, {| runtime := rt';
                logged := logged (snd s);
                calls := (calls (snd s) ++ [c])%list |})).
End WorldOps.

(** [<< error]: an unscoped enum is streamed as its integer value. *)
Definition show_error (e : vr.EVRInputError) : string :=
  NilZero.string_of_int (Z.to_int e).

(** [error != vr::EVRInputError::VRInputError_None] *)
Definition is_error (e : vr.EVRInputError) : bool :=
  negb (Z.eqb e vr.VRInputError_None).

End Eff.
Import Eff.

(** ** [ivrinput.h] *)
Module Header.

(** Modelled from the spec: the declaration of [ActionType] in
    [ivrinput.h], which is not among the sources; the data model gives an
    action the type "(Digital | Analog)". *)
Inductive ActionType := Digital | Analog.

Definition ActionType_eqb (a b : ActionType) : bool :=
  match a, b with
  | Digital, Digital | Analog, Analog => true
  | _, _ => false
  end.

(** Modelled from the spec: class [Action] of [ivrinput.h]; the data model
    gives it a name, a type and an opaque handle. *)
Record Action := {
  m_name : string;
  m_type : ActionType;
  m_handle : vr.VRActionHandle_t
}.

(** Modelled from the spec: class [ActionSet] of [ivrinput.h], a grouping
    of actions resolved to an opaque handle. *)
Record ActionSet := {
  set_name : string;
  set_handle : vr.VRActionSetHandle_t
}.

(** Modelled from the spec: class [Manifest] of [ivrinput.h], which stands
    for the action-manifest file that the runtime loads. *)
Record Manifest := { manifest_path : string }.

(** Where the application finds its [action_manifest.json]; the lookup is
    Qt's and outside this code. *)
Class ManifestPath := action_manifest_path : string.

Section Ctors.
Context {RT : Type} {VRInput : vr.IVRInput RT} {manifestPath : ManifestPath}.

(** Modelled from the spec: the constructor of [Action], missing with
    [ivrinput.h]: the handle is "resolved once from the external
    runtime" by name, and an error code of the external API is "logged
    only". *)
Definition Action_ctor (actionName : string) (type : ActionType)
    : SE (unit * World RT) Action :=
  '(error, h) <- vrcall (vr.CallGetActionHandle actionName)
                   (vr.GetActionHandle actionName 0) ;;
  (if is_error error
   then LOG ERROR ("Error getting handle for " ++ actionName
                   ++ ". SteamVR Error: " ++ show_error error)
   else ret tt) ;;
  ret {| m_name := actionName; m_type := type; m_handle := h |}.

(** Modelled from the spec: the constructor of [ActionSet], missing with
    [ivrinput.h]: the set is "also resolved to an opaque external
    handle". *)
Definition ActionSet_ctor (setName : string)
    : SE (unit * World RT) ActionSet :=
  '(error, h) <- vrcall (vr.CallGetActionSetHandle setName)
                   (vr.GetActionSetHandle setName 0) ;;
  (if is_error error
   then LOG ERROR ("Error getting handle for " ++ setName
                   ++ ". SteamVR Error: " ++ show_error error)
   else ret tt) ;;
  ret {| set_name := setName; set_handle := h |}.

(** Modelled from the spec: the constructor of [Manifest], missing with
    [ivrinput.h]: the path of the JSON action manifest is handed to the
    runtime, which loads the file; an error code is logged only. *)
Definition Manifest_ctor : SE (unit * World RT) Manifest :=
  let path := action_manifest_path in
  error <- vrcall (vr.CallSetActionManifestPath path)
             (vr.SetActionManifestPath path) ;;
  (if is_error error
   then LOG ERROR ("Error setting action manifest path: " ++ path
                   ++ ". SteamVR Error: " ++ show_error error)
   else ret tt) ;;
  ret {| manifest_path := path |}.

(** Modelled from the spec: the accessors [name()], [type()] and [handle()]
    of [Action], missing with [ivrinput.h]; an action is "immutable" once
    constructed and its handle "resolved once", so each is a read of the
    field, here on the action a function received by reference. *)
Definition name : SE (Action * World RT) string :=
  gets (fun s => m_name (fst s)).
Definition type : SE (Action * World RT) ActionType :=
  gets (fun s => m_type (fst s)).
Definition handle : SE (Action * World RT) vr.VRActionHandle_t :=
  gets (fun s => m_handle (fst s)).
End Ctors.

End Header.
Import Header.
(** ** [src/ivrinput/ivrinput.cpp], the revision with the playspace rotate and move actions *)
Module Playspace.

(** [namespace input_strings] of [ivrinput.h]: the names of the action set
    and of the actions in the action manifest.  The header is not among
    the sources, so the strings are taken as given. *)
Class input_strings := {
  k_setMain : string;
  k_actionNextTrack : string;
  k_actionPreviousTrack : string;
  k_actionPausePlayTrack : string;
  k_actionStopTrack : string;
  k_actionLeftHandPlayspaceRotate : string;
  k_actionRightHandPlayspaceRotate : string;
  k_actionLeftHandPlayspaceMove : string;
  k_actionRightHandPlayspaceMove : string;
  k_actionOptionalOverrideLeftHandPlayspaceRotate : string;
  k_actionOptionalOverrideRightHandPlayspaceRotate : string;
  k_actionOptionalOverrideLeftHandPlayspaceMove : string;
  k_actionOptionalOverrideRightHandPlayspaceMove : string
}.

(** The data members of [class SteamIVRInput], in the order of the
    constructor's initializer list, then the descriptor that the
    constructor body fills. *)
Record SteamIVRInput := {
  m_manifest : Manifest;
  m_mainSet : ActionSet;
  m_nextTrack : Action;
  m_previousTrack : Action;
  m_pausePlayTrack : Action;
  m_stopTrack : Action;
  m_leftHandPlayspaceRotate : Action;
  m_rightHandPlayspaceRotate : Action;
  m_leftHandPlayspaceMove : Action;
  m_rightHandPlayspaceMove : Action;
  m_optionalOverrideLeftHandPlayspaceRotate : Action;
  m_optionalOverrideRightHandPlayspaceRotate : Action;
  m_optionalOverrideLeftHandPlayspaceMove : Action;
  m_optionalOverrideRightHandPlayspaceMove : Action;
  m_activeActionSet : vr.VRActiveActionSet_t
}.

Definition set_m_nextTrack (v : Action) (self : SteamIVRInput) : SteamIVRInput :=
  {| m_manifest := m_manifest self; m_mainSet := m_mainSet self;
     m_nextTrack := v; m_previousTrack := m_previousTrack self;
     m_pausePlayTrack := m_pausePlayTrack self;
     m_stopTrack := m_stopTrack self;
     m_leftHandPlayspaceRotate := m_leftHandPlayspaceRotate self;
     m_rightHandPlayspaceRotate := m_rightHandPlayspaceRotate self;
     m_leftHandPlayspaceMove := m_leftHandPlayspaceMove self;
     m_rightHandPlayspaceMove := m_rightHandPlayspaceMove self;
     m_optionalOverrideLeftHandPlayspaceRotate := m_optionalOverrideLeftHandPlayspaceRotate self;
     m_optionalOverrideRightHandPlayspaceRotate := m_optionalOverrideRightHandPlayspaceRotate self;
     m_optionalOverrideLeftHandPlayspaceMove := m_optionalOverrideLeftHandPlayspaceMove self;
     m_optionalOverrideRightHandPlayspaceMove := m_optionalOverrideRightHandPlayspaceMove self;
     m_activeActionSet := m_activeActionSet self |}.
Definition set_m_previousTrack (v : Action) (self : SteamIVRInput) : SteamIVRInput :=
  {| m_manifest := m_manifest self; m_mainSet := m_mainSet self;
     m_nextTrack := m_nextTrack self; m_previousTrack := v;
     m_pausePlayTrack := m_pausePlayTrack self;
     m_stopTrack := m_stopTrack self;
     m_leftHandPlayspaceRotate := m_leftHandPlayspaceRotate self;
     m_rightHandPlayspaceRotate := m_rightHandPlayspaceRotate self;
     m_leftHandPlayspaceMove := m_leftHandPlayspaceMove self;
     m_rightHandPlayspaceMove := m_rightHandPlayspaceMove self;
     m_optionalOverrideLeftHandPlayspaceRotate := m_optionalOverrideLeftHandPlayspaceRotate self;
     m_optionalOverrideRightHandPlayspaceRotate := m_optionalOverrideRightHandPlayspaceRotate self;
     m_optionalOverrideLeftHandPlayspaceMove := m_optionalOverrideLeftHandPlayspaceMove self;
     m_optionalOverrideRightHandPlayspaceMove := m_optionalOverrideRightHandPlayspaceMove self;
     m_activeActionSet := m_activeActionSet self |}.
Definition set_m_pausePlayTrack (v : Action) (self : SteamIVRInput) : SteamIVRInput :=
  {| m_manifest := m_manifest self; m_mainSet := m_mainSet self;
     m_nextTrack := m_nextTrack self;
     m_previousTrack := m_previousTrack self; m_pausePlayTrack := v;
     m_stopTrack := m_stopTrack self;
     m_leftHandPlayspaceRotate := m_leftHandPlayspaceRotate self;
     m_rightHandPlayspaceRotate := m_rightHandPlayspaceRotate self;
     m_leftHandPlayspaceMove := m_leftHandPlayspaceMove self;
     m_rightHandPlayspaceMove := m_rightHandPlayspaceMove self;
     m_optionalOverrideLeftHandPlayspaceRotate := m_optionalOverrideLeftHandPlayspaceRotate self;
     m_optionalOverrideRightHandPlayspaceRotate := m_optionalOverrideRightHandPlayspaceRotate self;
     m_optionalOverrideLeftHandPlayspaceMove := m_optionalOverrideLeftHandPlayspaceMove self;
     m_optionalOverrideRightHandPlayspaceMove := m_optionalOverrideRightHandPlayspaceMove self;
     m_activeActionSet := m_activeActionSet self |}.
Definition set_m_stopTrack (v : Action) (self : SteamIVRInput) : SteamIVRInput :=
  {| m_manifest := m_manifest self; m_mainSet := m_mainSet self;
     m_nextTrack := m_nextTrack self;
     m_previousTrack := m_previousTrack self;
     m_pausePlayTrack := m_pausePlayTrack self; m_stopTrack := v;
     m_leftHandPlayspaceRotate := m_leftHandPlayspaceRotate self;
     m_rightHandPlayspaceRotate := m_rightHandPlayspaceRotate self;
     m_leftHandPlayspaceMove := m_leftHandPlayspaceMove self;
     m_rightHandPlayspaceMove := m_rightHandPlayspaceMove self;
     m_optionalOverrideLeftHandPlayspaceRotate := m_optionalOverrideLeftHandPlayspaceRotate self;
     m_optionalOverrideRightHandPlayspaceRotate := m_optionalOverrideRightHandPlayspaceRotate self;
     m_optionalOverrideLeftHandPlayspaceMove := m_optionalOverrideLeftHandPlayspaceMove self;
     m_optionalOverrideRightHandPlayspaceMove := m_optionalOverrideRightHandPlayspaceMove self;
     m_activeActionSet := m_activeActionSet self |}.
Definition set_m_leftHandPlayspaceRotate (v : Action) (self : SteamIVRInput) : SteamIVRInput :=
  {| m_manifest := m_manifest self; m_mainSet := m_mainSet self;
     m_nextTrack := m_nextTrack self;
     m_previousTrack := m_previousTrack self;
     m_pausePlayTrack := m_pausePlayTrack self;
     m_stopTrack := m_stopTrack self; m_leftHandPlayspaceRotate := v;
     m_rightHandPlayspaceRotate := m_rightHandPlayspaceRotate self;
     m_leftHandPlayspaceMove := m_leftHandPlayspaceMove self;
     m_rightHandPlayspaceMove := m_rightHandPlayspaceMove self;
     m_optionalOverrideLeftHandPlayspaceRotate := m_optionalOverrideLeftHandPlayspaceRotate self;
     m_optionalOverrideRightHandPlayspaceRotate := m_optionalOverrideRightHandPlayspaceRotate self;
     m_optionalOverrideLeftHandPlayspaceMove := m_optionalOverrideLeftHandPlayspaceMove self;
     m_optionalOverrideRightHandPlayspaceMove := m_optionalOverrideRightHandPlayspaceMove self;
     m_activeActionSet := m_activeActionSet self |}.
Definition set_m_rightHandPlayspaceRotate (v : Action) (self : SteamIVRInput) : SteamIVRInput :=
  {| m_manifest := m_manifest self; m_mainSet := m_mainSet self;
     m_nextTrack := m_nextTrack self;
     m_previousTrack := m_previousTrack self;
     m_pausePlayTrack := m_pausePlayTrack self;
     m_stopTrack := m_stopTrack self;
     m_leftHandPlayspaceRotate := m_leftHandPlayspaceRotate self;
     m_rightHandPlayspaceRotate := v;
     m_leftHandPlayspaceMove := m_leftHandPlayspaceMove self;
     m_rightHandPlayspaceMove := m_rightHandPlayspaceMove self;
     m_optionalOverrideLeftHandPlayspaceRotate := m_optionalOverrideLeftHandPlayspaceRotate self;
     m_optionalOverrideRightHandPlayspaceRotate := m_optionalOverrideRightHandPlayspaceRotate self;
     m_optionalOverrideLeftHandPlayspaceMove := m_optionalOverrideLeftHandPlayspaceMove self;
     m_optionalOverrideRightHandPlayspaceMove := m_optionalOverrideRightHandPlayspaceMove self;
     m_activeActionSet := m_activeActionSet self |}.
Definition set_m_leftHandPlayspaceMove (v : Action) (self : SteamIVRInput) : SteamIVRInput :=
  {| m_manifest := m_manifest self; m_mainSet := m_mainSet self;
     m_nextTrack := m_nextTrack self;
     m_previousTrack := m_previousTrack self;
     m_pausePlayTrack := m_pausePlayTrack self;
     m_stopTrack := m_stopTrack self;
     m_leftHandPlayspaceRotate := m_leftHandPlayspaceRotate self;
     m_rightHandPlayspaceRotate := m_rightHandPlayspaceRotate self;
     m_leftHandPlayspaceMove := v;
     m_rightHandPlayspaceMove := m_rightHandPlayspaceMove self;
     m_optionalOverrideLeftHandPlayspaceRotate := m_optionalOverrideLeftHandPlayspaceRotate self;
     m_optionalOverrideRightHandPlayspaceRotate := m_optionalOverrideRightHandPlayspaceRotate self;
     m_optionalOverrideLeftHandPlayspaceMove := m_optionalOverrideLeftHandPlayspaceMove self;
     m_optionalOverrideRightHandPlayspaceMove := m_optionalOverrideRightHandPlayspaceMove self;
     m_activeActionSet := m_activeActionSet self |}.
Definition set_m_rightHandPlayspaceMove (v : Action) (self : SteamIVRInput) : SteamIVRInput :=
  {| m_manifest := m_manifest self; m_mainSet := m_mainSet self;
     m_nextTrack := m_nextTrack self;
     m_previousTrack := m_previousTrack self;
     m_pausePlayTrack := m_pausePlayTrack self;
     m_stopTrack := m_stopTrack self;
     m_leftHandPlayspaceRotate := m_leftHandPlayspaceRotate self;
     m_rightHandPlayspaceRotate := m_rightHandPlayspaceRotate self;
     m_leftHandPlayspaceMove := m_leftHandPlayspaceMove self;
     m_rightHandPlayspaceMove := v;
     m_optionalOverrideLeftHandPlayspaceRotate := m_optionalOverrideLeftHandPlayspaceRotate self;
     m_optionalOverrideRightHandPlayspaceRotate := m_optionalOverrideRightHandPlayspaceRotate self;
     m_optionalOverrideLeftHandPlayspaceMove := m_optionalOverrideLeftHandPlayspaceMove self;
     m_optionalOverrideRightHandPlayspaceMove := m_optionalOverrideRightHandPlayspaceMove self;
     m_activeActionSet := m_activeActionSet self |}.
Definition set_m_optionalOverrideLeftHandPlayspaceRotate (v : Action) (self : SteamIVRInput) : SteamIVRInput :=
  {| m_manifest := m_manifest self; m_mainSet := m_mainSet self;
     m_nextTrack := m_nextTrack self;
     m_previousTrack := m_previousTrack self;
     m_pausePlayTrack := m_pausePlayTrack self;
     m_stopTrack := m_stopTrack self;
     m_leftHandPlayspaceRotate := m_leftHandPlayspaceRotate self;
     m_rightHandPlayspaceRotate := m_rightHandPlayspaceRotate self;
     m_leftHandPlayspaceMove := m_leftHandPlayspaceMove self;
     m_rightHandPlayspaceMove := m_rightHandPlayspaceMove self;
     m_optionalOverrideLeftHandPlayspaceRotate := v;
     m_optionalOverrideRightHandPlayspaceRotate := m_optionalOverrideRightHandPlayspaceRotate self;
     m_optionalOverrideLeftHandPlayspaceMove := m_optionalOverrideLeftHandPlayspaceMove self;
     m_optionalOverrideRightHandPlayspaceMove := m_optionalOverrideRightHandPlayspaceMove self;
     m_activeActionSet := m_activeActionSet self |}.
Definition set_m_optionalOverrideRightHandPlayspaceRotate (v : Action) (self : SteamIVRInput) : SteamIVRInput :=
  {| m_manifest := m_manifest self; m_mainSet := m_mainSet self;
     m_nextTrack := m_nextTrack self;
     m_previousTrack := m_previousTrack self;
     m_pausePlayTrack := m_pausePlayTrack self;
     m_stopTrack := m_stopTrack self;
     m_leftHandPlayspaceRotate := m_leftHandPlayspaceRotate self;
     m_rightHandPlayspaceRotate := m_rightHandPlayspaceRotate self;
     m_leftHandPlayspaceMove := m_leftHandPlayspaceMove self;
     m_rightHandPlayspaceMove := m_rightHandPlayspaceMove self;
     m_optionalOverrideLeftHandPlayspaceRotate := m_optionalOverrideLeftHandPlayspaceRotate self;
     m_optionalOverrideRightHandPlayspaceRotate := v;
     m_optionalOverrideLeftHandPlayspaceMove := m_optionalOverrideLeftHandPlayspaceMove self;
     m_optionalOverrideRightHandPlayspaceMove := m_optionalOverrideRightHandPlayspaceMove self;
     m_activeActionSet := m_activeActionSet self |}.
Definition set_m_optionalOverrideLeftHandPlayspaceMove (v : Action) (self : SteamIVRInput) : SteamIVRInput :=
  {| m_manifest := m_manifest self; m_mainSet := m_mainSet self;
     m_nextTrack := m_nextTrack self;
     m_previousTrack := m_previousTrack self;
     m_pausePlayTrack := m_pausePlayTrack self;
     m_stopTrack := m_stopTrack self;
     m_leftHandPlayspaceRotate := m_leftHandPlayspaceRotate self;
     m_rightHandPlayspaceRotate := m_rightHandPlayspaceRotate self;
     m_leftHandPlayspaceMove := m_leftHandPlayspaceMove self;
     m_rightHandPlayspaceMove := m_rightHandPlayspaceMove self;
     m_optionalOverrideLeftHandPlayspaceRotate := m_optionalOverrideLeftHandPlayspaceRotate self;
     m_optionalOverrideRightHandPlayspaceRotate := m_optionalOverrideRightHandPlayspaceRotate self;
     m_optionalOverrideLeftHandPlayspaceMove := v;
     m_optionalOverrideRightHandPlayspaceMove := m_optionalOverrideRightHandPlayspaceMove self;
     m_activeActionSet := m_activeActionSet self |}.
Definition set_m_optionalOverrideRightHandPlayspaceMove (v : Action) (self : SteamIVRInput) : SteamIVRInput :=
  {| m_manifest := m_manifest self; m_mainSet := m_mainSet self;
     m_nextTrack := m_nextTrack self;
     m_previousTrack := m_previousTrack self;
     m_pausePlayTrack := m_pausePlayTrack self;
     m_stopTrack := m_stopTrack self;
     m_leftHandPlayspaceRotate := m_leftHandPlayspaceRotate self;
     m_rightHandPlayspaceRotate := m_rightHandPlayspaceRotate self;
     m_leftHandPlayspaceMove := m_leftHandPlayspaceMove self;
     m_rightHandPlayspaceMove := m_rightHandPlayspaceMove self;
     m_optionalOverrideLeftHandPlayspaceRotate := m_optionalOverrideLeftHandPlayspaceRotate self;
     m_optionalOverrideRightHandPlayspaceRotate := m_optionalOverrideRightHandPlayspaceRotate self;
     m_optionalOverrideLeftHandPlayspaceMove := m_optionalOverrideLeftHandPlayspaceMove self;
     m_optionalOverrideRightHandPlayspaceMove := v;
     m_activeActionSet := m_activeActionSet self |}.
Definition set_m_activeActionSet (v : vr.VRActiveActionSet_t) (self : SteamIVRInput) : SteamIVRInput :=
  {| m_manifest := m_manifest self; m_mainSet := m_mainSet self;
     m_nextTrack := m_nextTrack self;
     m_previousTrack := m_previousTrack self;
     m_pausePlayTrack := m_pausePlayTrack self;
     m_stopTrack := m_stopTrack self;
     m_leftHandPlayspaceRotate := m_leftHandPlayspaceRotate self;
     m_rightHandPlayspaceRotate := m_rightHandPlayspaceRotate self;
     m_leftHandPlayspaceMove := m_leftHandPlayspaceMove self;
     m_rightHandPlayspaceMove := m_rightHandPlayspaceMove self;
     m_optionalOverrideLeftHandPlayspaceRotate := m_optionalOverrideLeftHandPlayspaceRotate self;
     m_optionalOverrideRightHandPlayspaceRotate := m_optionalOverrideRightHandPlayspaceRotate self;
     m_optionalOverrideLeftHandPlayspaceMove := m_optionalOverrideLeftHandPlayspaceMove self;
     m_optionalOverrideRightHandPlayspaceMove := m_optionalOverrideRightHandPlayspaceMove self;
     m_activeActionSet := v |}.

Section Code.
Context {hdr : vr.Header} {RT : Type} {VRInput : vr.IVRInput RT}.
Context {manifestPath : ManifestPath} {strings : input_strings}.

(** [vr::InputDigitalActionData_t getDigitalActionData( Action& action )] *)
Definition getDigitalActionData
    : SE (Action * World RT) vr.InputDigitalActionData_t :=
  t <- type ;;
  (if negb (ActionType_eqb t Digital)
   then
     n <- name ;;
     LOG ERROR ("Action was passed to IVRInput getDigitalActionData without "
                ++ "being a digital type. Action: " ++ n) ;;
     throw (runtime_error
              ("Action was passed to IVRInput getDigitalActionData without being "
               ++ "a digital type. See log for details."))
   else ret tt) ;;
  let handleData := vr.InputDigitalActionData_zero in
  h <- handle ;;
  '(error, handleData) <-
    vrcall
      (vr.CallGetDigitalActionData h vr.sizeof_InputDigitalActionData_t
         vr.k_ulInvalidInputValueHandle)
      (vr.GetDigitalActionData h handleData
         vr.sizeof_InputDigitalActionData_t
         vr.k_ulInvalidInputValueHandle) ;;
  (if is_error error
   then
     n <- name ;;
     LOG ERROR ("Error getting IVRInput Digital Action Data for handle "
                ++ n ++ ". SteamVR Error: " ++ show_error error)
   else ret tt) ;;
  ret handleData.

(** [vr::InputAnalogActionData_t getAnalogActionData( Action& action )] *)
Definition getAnalogActionData
    : SE (Action * World RT) vr.InputAnalogActionData_t :=
  t <- type ;;
  (if negb (ActionType_eqb t Analog)
   then
     n <- name ;;
     LOG ERROR ("Action was passed to IVRInput getAnalogActionData without "
                ++ "being an analog type. Action: " ++ n) ;;
     throw (runtime_error
              ("Action was passed to IVRInput getAnalogActionData without being "
               ++ "an analog type. See log for details."))
   else ret tt) ;;
  let handleData := vr.InputAnalogActionData_zero in
  h <- handle ;;
  '(error, handleData) <-
    vrcall
      (vr.CallGetAnalogActionData h vr.sizeof_InputAnalogActionData_t
         vr.k_ulInvalidInputValueHandle)
      (vr.GetAnalogActionData h handleData
         vr.sizeof_InputAnalogActionData_t
         vr.k_ulInvalidInputValueHandle) ;;
  (if is_error error
   then
     n <- name ;;
     LOG ERROR ("Error getting IVRInput Digital Action Data for handle "
                ++ n ++ ". SteamVR Error: " ++ show_error error)
   else ret tt) ;;
  ret handleData.

(** [bool isDigitalActionActivatedOnce( Action& action )] *)
Definition isDigitalActionActivatedOnce : SE (Action * World RT) bool :=
  handleData <- getDigitalActionData ;;
  ret (vr.bState handleData && vr.bChanged handleData)%bool.

(** [bool isDigitalActionActivatedConstant( Action& action )] *)
Definition isDigitalActionActivatedConstant : SE (Action * World RT) bool :=
  handleData <- getDigitalActionData ;;
  ret (vr.bState handleData).

(** The initializer list of [SteamIVRInput::SteamIVRInput()]: the
    members are constructed one after the other. *)
Definition SteamIVRInput_init : SE (unit * World RT) SteamIVRInput :=
  manifest <- Manifest_ctor ;;
  mainSet <- ActionSet_ctor k_setMain ;;
  nextTrack <- Action_ctor k_actionNextTrack Digital ;;
  previousTrack <- Action_ctor k_actionPreviousTrack Digital ;;
  pausePlayTrack <- Action_ctor k_actionPausePlayTrack Digital ;;
  stopTrack <- Action_ctor k_actionStopTrack Digital ;;
  leftHandPlayspaceRotate <- Action_ctor k_actionLeftHandPlayspaceRotate Digital ;;
  rightHandPlayspaceRotate <- Action_ctor k_actionRightHandPlayspaceRotate Digital ;;
  leftHandPlayspaceMove <- Action_ctor k_actionLeftHandPlayspaceMove Digital ;;
  rightHandPlayspaceMove <- Action_ctor k_actionRightHandPlayspaceMove Digital ;;
  optionalOverrideLeftHandPlayspaceRotate <- Action_ctor k_actionOptionalOverrideLeftHandPlayspaceRotate Digital ;;
  optionalOverrideRightHandPlayspaceRotate <- Action_ctor k_actionOptionalOverrideRightHandPlayspaceRotate Digital ;;
  optionalOverrideLeftHandPlayspaceMove <- Action_ctor k_actionOptionalOverrideLeftHandPlayspaceMove Digital ;;
  optionalOverrideRightHandPlayspaceMove <- Action_ctor k_actionOptionalOverrideRightHandPlayspaceMove Digital ;;
  ret {| m_manifest := manifest;
         m_mainSet := mainSet;
         m_nextTrack := nextTrack;
         m_previousTrack := previousTrack;
         m_pausePlayTrack := pausePlayTrack;
         m_stopTrack := stopTrack;
         m_leftHandPlayspaceRotate := leftHandPlayspaceRotate;
         m_rightHandPlayspaceRotate := rightHandPlayspaceRotate;
         m_leftHandPlayspaceMove := leftHandPlayspaceMove;
         m_rightHandPlayspaceMove := rightHandPlayspaceMove;
         m_optionalOverrideLeftHandPlayspaceRotate := optionalOverrideLeftHandPlayspaceRotate;
         m_optionalOverrideRightHandPlayspaceRotate := optionalOverrideRightHandPlayspaceRotate;
         m_optionalOverrideLeftHandPlayspaceMove := optionalOverrideLeftHandPlayspaceMove;
         m_optionalOverrideRightHandPlayspaceMove := optionalOverrideRightHandPlayspaceMove;
         m_activeActionSet := vr.VRActiveActionSet_zero |}.

(** The body of the constructor: three assignments to the fields of
    [m_activeActionSet]. *)
Definition SteamIVRInput_body : SE (SteamIVRInput * World RT) unit :=
  modify (fun s =>
    (set_m_activeActionSet
       (vr.set_ulActionSet (set_handle (m_mainSet (fst s)))
          (m_activeActionSet (fst s))) (fst s), snd s)) ;;
  modify (fun s =>
    (set_m_activeActionSet
       (vr.set_ulRestrictedToDevice vr.k_ulInvalidInputValueHandle
          (m_activeActionSet (fst s))) (fst s), snd s)) ;;
  modify (fun s =>
    (set_m_activeActionSet
       (vr.set_nPriority 0 (m_activeActionSet (fst s))) (fst s), snd s)).

(** [SteamIVRInput::SteamIVRInput()] *)
Definition SteamIVRInput_ctor : SE (unit * World RT) SteamIVRInput :=
  self <- SteamIVRInput_init ;;
  construct self SteamIVRInput_body.

(** [bool SteamIVRInput::nextSong()] *)
Definition nextSong : SE (SteamIVRInput * World RT) bool :=
  zoom m_nextTrack set_m_nextTrack isDigitalActionActivatedOnce.

(** [bool SteamIVRInput::previousSong()] *)
Definition previousSong : SE (SteamIVRInput * World RT) bool :=
  zoom m_previousTrack set_m_previousTrack isDigitalActionActivatedOnce.

(** [bool SteamIVRInput::pausePlaySong()] *)
Definition pausePlaySong : SE (SteamIVRInput * World RT) bool :=
  zoom m_pausePlayTrack set_m_pausePlayTrack isDigitalActionActivatedOnce.

(** [bool SteamIVRInput::stopSong()] *)
Definition stopSong : SE (SteamIVRInput * World RT) bool :=
  zoom m_stopTrack set_m_stopTrack isDigitalActionActivatedOnce.

(** [bool SteamIVRInput::leftHandPlayspaceRotate()] *)
Definition leftHandPlayspaceRotate : SE (SteamIVRInput * World RT) bool :=
  zoom m_leftHandPlayspaceRotate set_m_leftHandPlayspaceRotate isDigitalActionActivatedConstant.

(** [bool SteamIVRInput::rightHandPlayspaceRotate()] *)
Definition rightHandPlayspaceRotate : SE (SteamIVRInput * World RT) bool :=
  zoom m_rightHandPlayspaceRotate set_m_rightHandPlayspaceRotate isDigitalActionActivatedConstant.

(** [bool SteamIVRInput::leftHandPlayspaceMove()] *)
Definition leftHandPlayspaceMove : SE (SteamIVRInput * World RT) bool :=
  zoom m_leftHandPlayspaceMove set_m_leftHandPlayspaceMove isDigitalActionActivatedConstant.

(** [bool SteamIVRInput::rightHandPlayspaceMove()] *)
Definition rightHandPlayspaceMove : SE (SteamIVRInput * World RT) bool :=
  zoom m_rightHandPlayspaceMove set_m_rightHandPlayspaceMove isDigitalActionActivatedConstant.

(** [bool SteamIVRInput::optionalOverrideLeftHandPlayspaceRotate()] *)
Definition optionalOverrideLeftHandPlayspaceRotate : SE (SteamIVRInput * World RT) bool :=
  zoom m_optionalOverrideLeftHandPlayspaceRotate set_m_optionalOverrideLeftHandPlayspaceRotate isDigitalActionActivatedConstant.

(** [bool SteamIVRInput::optionalOverrideRightHandPlayspaceRotate()] *)
Definition optionalOverrideRightHandPlayspaceRotate : SE (SteamIVRInput * World RT) bool :=
  zoom m_optionalOverrideRightHandPlayspaceRotate set_m_optionalOverrideRightHandPlayspaceRotate isDigitalActionActivatedConstant.

(** [bool SteamIVRInput::optionalOverrideLeftHandPlayspaceMove()] *)
Definition optionalOverrideLeftHandPlayspaceMove : SE (SteamIVRInput * World RT) bool :=
  zoom m_optionalOverrideLeftHandPlayspaceMove set_m_optionalOverrideLeftHandPlayspaceMove isDigitalActionActivatedConstant.

(** [bool SteamIVRInput::optionalOverrideRightHandPlayspaceMove()] *)
Definition optionalOverrideRightHandPlayspaceMove : SE (SteamIVRInput * World RT) bool :=
  zoom m_optionalOverrideRightHandPlayspaceMove set_m_optionalOverrideRightHandPlayspaceMove isDigitalActionActivatedConstant.

(** [void SteamIVRInput::UpdateStates()] *)
Definition UpdateStates : SE (SteamIVRInput * World RT) unit :=
  let numberOfSets := 1 in
  pSets <- gets (fun s => [m_activeActionSet (fst s)]) ;;
  error <- vrcall
             (vr.CallUpdateActionState pSets vr.sizeof_VRActiveActionSet_t
                numberOfSets)
             (vr.UpdateActionState pSets vr.sizeof_VRActiveActionSet_t
                numberOfSets) ;;
  if is_error error
  then LOG ERROR ("Error during IVRInput action state update. OpenVR Error: "
                  ++ show_error error)
  else ret tt.

(** A caller of the public interface: one member function per
    constructor, and the call of each.  A [bool] result is kept, the
    [void] of [UpdateStates] is [None]. *)
Inductive Method :=
| call_nextSong
| call_previousSong
| call_pausePlaySong
| call_stopSong
| call_leftHandPlayspaceRotate
| call_rightHandPlayspaceRotate
| call_leftHandPlayspaceMove
| call_rightHandPlayspaceMove
| call_optionalOverrideLeftHandPlayspaceRotate
| call_optionalOverrideRightHandPlayspaceRotate
| call_optionalOverrideLeftHandPlayspaceMove
| call_optionalOverrideRightHandPlayspaceMove
| call_UpdateStates.

Definition invoke (f : Method) : SE (SteamIVRInput * World RT) (option bool) :=
  match f with
  | call_nextSong => b <- nextSong ;; ret (Some b)
  | call_previousSong => b <- previousSong ;; ret (Some b)
  | call_pausePlaySong => b <- pausePlaySong ;; ret (Some b)
  | call_stopSong => b <- stopSong ;; ret (Some b)
  | call_leftHandPlayspaceRotate => b <- leftHandPlayspaceRotate ;; ret (Some b)
  | call_rightHandPlayspaceRotate => b <- rightHandPlayspaceRotate ;; ret (Some b)
  | call_leftHandPlayspaceMove => b <- leftHandPlayspaceMove ;; ret (Some b)
  | call_rightHandPlayspaceMove => b <- rightHandPlayspaceMove ;; ret (Some b)
  | call_optionalOverrideLeftHandPlayspaceRotate => b <- optionalOverrideLeftHandPlayspaceRotate ;; ret (Some b)
  | call_optionalOverrideRightHandPlayspaceRotate => b <- optionalOverrideRightHandPlayspaceRotate ;; ret (Some b)
  | call_optionalOverrideLeftHandPlayspaceMove => b <- optionalOverrideLeftHandPlayspaceMove ;; ret (Some b)
  | call_optionalOverrideRightHandPlayspaceMove => b <- optionalOverrideRightHandPlayspaceMove ;; ret (Some b)
  | call_UpdateStates => UpdateStates ;; ret None
  end.

(** The member action a query method reads ([None] for
    [UpdateStates]). *)
Definition member (f : Method) : option (SteamIVRInput -> Action) :=
  match f with
  | call_nextSong => Some m_nextTrack
  | call_previousSong => Some m_previousTrack
  | call_pausePlaySong => Some m_pausePlayTrack
  | call_stopSong => Some m_stopTrack
  | call_leftHandPlayspaceRotate => Some m_leftHandPlayspaceRotate
  | call_rightHandPlayspaceRotate => Some m_rightHandPlayspaceRotate
  | call_leftHandPlayspaceMove => Some m_leftHandPlayspaceMove
  | call_rightHandPlayspaceMove => Some m_rightHandPlayspaceMove
  | call_optionalOverrideLeftHandPlayspaceRotate => Some m_optionalOverrideLeftHandPlayspaceRotate
  | call_optionalOverrideRightHandPlayspaceRotate => Some m_optionalOverrideRightHandPlayspaceRotate
  | call_optionalOverrideLeftHandPlayspaceMove => Some m_optionalOverrideLeftHandPlayspaceMove
  | call_optionalOverrideRightHandPlayspaceMove => Some m_optionalOverrideRightHandPlayspaceMove
  | call_UpdateStates => None
  end.

(** A caller making the calls [fs] in turn; an exception ends it, as
    nothing in this module catches one. *)
Fixpoint invoke_all (fs : list Method)
    : SE (SteamIVRInput * World RT) (list (option bool)) :=
  match fs with
  | [] => ret []
  | f :: fs' =>
      r <- invoke f ;;
      rs <- invoke_all fs' ;;
      ret (r :: rs)
  end.

(** The member actions of an object. *)
Definition actions (self : SteamIVRInput) : list Action :=
  [m_nextTrack self; m_previousTrack self; m_pausePlayTrack self;
   m_stopTrack self; m_leftHandPlayspaceRotate self;
   m_rightHandPlayspaceRotate self; m_leftHandPlayspaceMove self;
   m_rightHandPlayspaceMove self;
   m_optionalOverrideLeftHandPlayspaceRotate self;
   m_optionalOverrideRightHandPlayspaceRotate self;
   m_optionalOverrideLeftHandPlayspaceMove self;
   m_optionalOverrideRightHandPlayspaceMove self].
End Code.

End Playspace.

(** ** [ivrinput.cpp], the revision with the room turn and drag actions and push-to-talk *)
Module Room.

(** [namespace input_strings] of [ivrinput.h]: the names of the action set
    and of the actions in the action manifest.  The header is not among
    the sources, so the strings are taken as given. *)
Class input_strings := {
  k_setMain : string;
  k_actionNextTrack : string;
  k_actionPreviousTrack : string;
  k_actionPausePlayTrack : string;
  k_actionStopTrack : string;
  k_actionLeftHandRoomTurn : string;
  k_actionRightHandRoomTurn : string;
  k_actionLeftHandRoomDrag : string;
  k_actionRightHandRoomDrag : string;
  k_actionOptionalOverrideLeftHandRoomTurn : string;
  k_actionOptionalOverrideRightHandRoomTurn : string;
  k_actionOptionalOverrideLeftHandRoomDrag : string;
  k_actionOptionalOverrideRightHandRoomDrag : string;
  k_actionPushToTalk : string
}.

(** The data members of [class SteamIVRInput], in the order of the
    constructor's initializer list, then the descriptor that the
    constructor body fills. *)
Record SteamIVRInput := {
  m_manifest : Manifest;
  m_mainSet : ActionSet;
  m_nextTrack : Action;
  m_previousTrack : Action;
  m_pausePlayTrack : Action;
  m_stopTrack : Action;
  m_leftHandRoomTurn : Action;
  m_rightHandRoomTurn : Action;
  m_leftHandRoomDrag : Action;
  m_rightHandRoomDrag : Action;
  m_optionalOverrideLeftHandRoomTurn : Action;
  m_optionalOverrideRightHandRoomTurn : Action;
  m_optionalOverrideLeftHandRoomDrag : Action;
  m_optionalOverrideRightHandRoomDrag : Action;
  m_pushToTalk : Action;
  m_activeActionSet : vr.VRActiveActionSet_t
}.

Definition set_m_nextTrack (v : Action) (self : SteamIVRInput) : SteamIVRInput :=
  {| m_manifest := m_manifest self; m_mainSet := m_mainSet self;
     m_nextTrack := v; m_previousTrack := m_previousTrack self;
     m_pausePlayTrack := m_pausePlayTrack self;
     m_stopTrack := m_stopTrack self;
     m_leftHandRoomTurn := m_leftHandRoomTurn self;
     m_rightHandRoomTurn := m_rightHandRoomTurn self;
     m_leftHandRoomDrag := m_leftHandRoomDrag self;
     m_rightHandRoomDrag := m_rightHandRoomDrag self;
     m_optionalOverrideLeftHandRoomTurn := m_optionalOverrideLeftHandRoomTurn self;
     m_optionalOverrideRightHandRoomTurn := m_optionalOverrideRightHandRoomTurn self;
     m_optionalOverrideLeftHandRoomDrag := m_optionalOverrideLeftHandRoomDrag self;
     m_optionalOverrideRightHandRoomDrag := m_optionalOverrideRightHandRoomDrag self;
     m_pushToTalk := m_pushToTalk self;
     m_activeActionSet := m_activeActionSet self |}.
Definition set_m_previousTrack (v : Action) (self : SteamIVRInput) : SteamIVRInput :=
  {| m_manifest := m_manifest self; m_mainSet := m_mainSet self;
     m_nextTrack := m_nextTrack self; m_previousTrack := v;
     m_pausePlayTrack := m_pausePlayTrack self;
     m_stopTrack := m_stopTrack self;
     m_leftHandRoomTurn := m_leftHandRoomTurn self;
     m_rightHandRoomTurn := m_rightHandRoomTurn self;
     m_leftHandRoomDrag := m_leftHandRoomDrag self;
     m_rightHandRoomDrag := m_rightHandRoomDrag self;
     m_optionalOverrideLeftHandRoomTurn := m_optionalOverrideLeftHandRoomTurn self;
     m_optionalOverrideRightHandRoomTurn := m_optionalOverrideRightHandRoomTurn self;
     m_optionalOverrideLeftHandRoomDrag := m_optionalOverrideLeftHandRoomDrag self;
     m_optionalOverrideRightHandRoomDrag := m_optionalOverrideRightHandRoomDrag self;
     m_pushToTalk := m_pushToTalk self;
     m_activeActionSet := m_activeActionSet self |}.
Definition set_m_pausePlayTrack (v : Action) (self : SteamIVRInput) : SteamIVRInput :=
  {| m_manifest := m_manifest self; m_mainSet := m_mainSet self;
     m_nextTrack := m_nextTrack self;
     m_previousTrack := m_previousTrack self; m_pausePlayTrack := v;
     m_stopTrack := m_stopTrack self;
     m_leftHandRoomTurn := m_leftHandRoomTurn self;
     m_rightHandRoomTurn := m_rightHandRoomTurn self;
     m_leftHandRoomDrag := m_leftHandRoomDrag self;
     m_rightHandRoomDrag := m_rightHandRoomDrag self;
     m_optionalOverrideLeftHandRoomTurn := m_optionalOverrideLeftHandRoomTurn self;
     m_optionalOverrideRightHandRoomTurn := m_optionalOverrideRightHandRoomTurn self;
     m_optionalOverrideLeftHandRoomDrag := m_optionalOverrideLeftHandRoomDrag self;
     m_optionalOverrideRightHandRoomDrag := m_optionalOverrideRightHandRoomDrag self;
     m_pushToTalk := m_pushToTalk self;
     m_activeActionSet := m_activeActionSet self |}.
Definition set_m_stopTrack (v : Action) (self : SteamIVRInput) : SteamIVRInput :=
  {| m_manifest := m_manifest self; m_mainSet := m_mainSet self;
     m_nextTrack := m_nextTrack self;
     m_previousTrack := m_previousTrack self;
     m_pausePlayTrack := m_pausePlayTrack self; m_stopTrack := v;
     m_leftHandRoomTurn := m_leftHandRoomTurn self;
     m_rightHandRoomTurn := m_rightHandRoomTurn self;
     m_leftHandRoomDrag := m_leftHandRoomDrag self;
     m_rightHandRoomDrag := m_rightHandRoomDrag self;
     m_optionalOverrideLeftHandRoomTurn := m_optionalOverrideLeftHandRoomTurn self;
     m_optionalOverrideRightHandRoomTurn := m_optionalOverrideRightHandRoomTurn self;
     m_optionalOverrideLeftHandRoomDrag := m_optionalOverrideLeftHandRoomDrag self;
     m_optionalOverrideRightHandRoomDrag := m_optionalOverrideRightHandRoomDrag self;
     m_pushToTalk := m_pushToTalk self;
     m_activeActionSet := m_activeActionSet self |}.
Definition set_m_leftHandRoomTurn (v : Action) (self : SteamIVRInput) : SteamIVRInput :=
  {| m_manifest := m_manifest self; m_mainSet := m_mainSet self;
     m_nextTrack := m_nextTrack self;
     m_previousTrack := m_previousTrack self;
     m_pausePlayTrack := m_pausePlayTrack self;
     m_stopTrack := m_stopTrack self; m_leftHandRoomTurn := v;
     m_rightHandRoomTurn := m_rightHandRoomTurn self;
     m_leftHandRoomDrag := m_leftHandRoomDrag self;
     m_rightHandRoomDrag := m_rightHandRoomDrag self;
     m_optionalOverrideLeftHandRoomTurn := m_optionalOverrideLeftHandRoomTurn self;
     m_optionalOverrideRightHandRoomTurn := m_optionalOverrideRightHandRoomTurn self;
     m_optionalOverrideLeftHandRoomDrag := m_optionalOverrideLeftHandRoomDrag self;
     m_optionalOverrideRightHandRoomDrag := m_optionalOverrideRightHandRoomDrag self;
     m_pushToTalk := m_pushToTalk self;
     m_activeActionSet := m_activeActionSet self |}.
Definition set_m_rightHandRoomTurn (v : Action) (self : SteamIVRInput) : SteamIVRInput :=
  {| m_manifest := m_manifest self; m_mainSet := m_mainSet self;
     m_nextTrack := m_nextTrack self;
     m_previousTrack := m_previousTrack self;
     m_pausePlayTrack := m_pausePlayTrack self;
     m_stopTrack := m_stopTrack self;
     m_leftHandRoomTurn := m_leftHandRoomTurn self;
     m_rightHandRoomTurn := v;
     m_leftHandRoomDrag := m_leftHandRoomDrag self;
     m_rightHandRoomDrag := m_rightHandRoomDrag self;
     m_optionalOverrideLeftHandRoomTurn := m_optionalOverrideLeftHandRoomTurn self;
     m_optionalOverrideRightHandRoomTurn := m_optionalOverrideRightHandRoomTurn self;
     m_optionalOverrideLeftHandRoomDrag := m_optionalOverrideLeftHandRoomDrag self;
     m_optionalOverrideRightHandRoomDrag := m_optionalOverrideRightHandRoomDrag self;
     m_pushToTalk := m_pushToTalk self;
     m_activeActionSet := m_activeActionSet self |}.
Definition set_m_leftHandRoomDrag (v : Action) (self : SteamIVRInput) : SteamIVRInput :=
  {| m_manifest := m_manifest self; m_mainSet := m_mainSet self;
     m_nextTrack := m_nextTrack self;
     m_previousTrack := m_previousTrack self;
     m_pausePlayTrack := m_pausePlayTrack self;
     m_stopTrack := m_stopTrack self;
     m_leftHandRoomTurn := m_leftHandRoomTurn self;
     m_rightHandRoomTurn := m_rightHandRoomTurn self;
     m_leftHandRoomDrag := v;
     m_rightHandRoomDrag := m_rightHandRoomDrag self;
     m_optionalOverrideLeftHandRoomTurn := m_optionalOverrideLeftHandRoomTurn self;
     m_optionalOverrideRightHandRoomTurn := m_optionalOverrideRightHandRoomTurn self;
     m_optionalOverrideLeftHandRoomDrag := m_optionalOverrideLeftHandRoomDrag self;
     m_optionalOverrideRightHandRoomDrag := m_optionalOverrideRightHandRoomDrag self;
     m_pushToTalk := m_pushToTalk self;
     m_activeActionSet := m_activeActionSet self |}.
Definition set_m_rightHandRoomDrag (v : Action) (self : SteamIVRInput) : SteamIVRInput :=
  {| m_manifest := m_manifest self; m_mainSet := m_mainSet self;
     m_nextTrack := m_nextTrack self;
     m_previousTrack := m_previousTrack self;
     m_pausePlayTrack := m_pausePlayTrack self;
     m_stopTrack := m_stopTrack self;
     m_leftHandRoomTurn := m_leftHandRoomTurn self;
     m_rightHandRoomTurn := m_rightHandRoomTurn self;
     m_leftHandRoomDrag := m_leftHandRoomDrag self;
     m_rightHandRoomDrag := v;
     m_optionalOverrideLeftHandRoomTurn := m_optionalOverrideLeftHandRoomTurn self;
     m_optionalOverrideRightHandRoomTurn := m_optionalOverrideRightHandRoomTurn self;
     m_optionalOverrideLeftHandRoomDrag := m_optionalOverrideLeftHandRoomDrag self;
     m_optionalOverrideRightHandRoomDrag := m_optionalOverrideRightHandRoomDrag self;
     m_pushToTalk := m_pushToTalk self;
     m_activeActionSet := m_activeActionSet self |}.
Definition set_m_optionalOverrideLeftHandRoomTurn (v : Action) (self : SteamIVRInput) : SteamIVRInput :=
  {| m_manifest := m_manifest self; m_mainSet := m_mainSet self;
     m_nextTrack := m_nextTrack self;
     m_previousTrack := m_previousTrack self;
     m_pausePlayTrack := m_pausePlayTrack self;
     m_stopTrack := m_stopTrack self;
     m_leftHandRoomTurn := m_leftHandRoomTurn self;
     m_rightHandRoomTurn := m_rightHandRoomTurn self;
     m_leftHandRoomDrag := m_leftHandRoomDrag self;
     m_rightHandRoomDrag := m_rightHandRoomDrag self;
     m_optionalOverrideLeftHandRoomTurn := v;
     m_optionalOverrideRightHandRoomTurn := m_optionalOverrideRightHandRoomTurn self;
     m_optionalOverrideLeftHandRoomDrag := m_optionalOverrideLeftHandRoomDrag self;
     m_optionalOverrideRightHandRoomDrag := m_optionalOverrideRightHandRoomDrag self;
     m_pushToTalk := m_pushToTalk self;
     m_activeActionSet := m_activeActionSet self |}.
Definition set_m_optionalOverrideRightHandRoomTurn (v : Action) (self : SteamIVRInput) : SteamIVRInput :=
  {| m_manifest := m_manifest self; m_mainSet := m_mainSet self;
     m_nextTrack := m_nextTrack self;
     m_previousTrack := m_previousTrack self;
     m_pausePlayTrack := m_pausePlayTrack self;
     m_stopTrack := m_stopTrack self;
     m_leftHandRoomTurn := m_leftHandRoomTurn self;
     m_rightHandRoomTurn := m_rightHandRoomTurn self;
     m_leftHandRoomDrag := m_leftHandRoomDrag self;
     m_rightHandRoomDrag := m_rightHandRoomDrag self;
     m_optionalOverrideLeftHandRoomTurn := m_optionalOverrideLeftHandRoomTurn self;
     m_optionalOverrideRightHandRoomTurn := v;
     m_optionalOverrideLeftHandRoomDrag := m_optionalOverrideLeftHandRoomDrag self;
     m_optionalOverrideRightHandRoomDrag := m_optionalOverrideRightHandRoomDrag self;
     m_pushToTalk := m_pushToTalk self;
     m_activeActionSet := m_activeActionSet self |}.
Definition set_m_optionalOverrideLeftHandRoomDrag (v : Action) (self : SteamIVRInput) : SteamIVRInput :=
  {| m_manifest := m_manifest self; m_mainSet := m_mainSet self;
     m_nextTrack := m_nextTrack self;
     m_previousTrack := m_previousTrack self;
     m_pausePlayTrack := m_pausePlayTrack self;
     m_stopTrack := m_stopTrack self;
     m_leftHandRoomTurn := m_leftHandRoomTurn self;
     m_rightHandRoomTurn := m_rightHandRoomTurn self;
     m_leftHandRoomDrag := m_leftHandRoomDrag self;
     m_rightHandRoomDrag := m_rightHandRoomDrag self;
     m_optionalOverrideLeftHandRoomTurn := m_optionalOverrideLeftHandRoomTurn self;
     m_optionalOverrideRightHandRoomTurn := m_optionalOverrideRightHandRoomTurn self;
     m_optionalOverrideLeftHandRoomDrag := v;
     m_optionalOverrideRightHandRoomDrag := m_optionalOverrideRightHandRoomDrag self;
     m_pushToTalk := m_pushToTalk self;
     m_activeActionSet := m_activeActionSet self |}.
Definition set_m_optionalOverrideRightHandRoomDrag (v : Action) (self : SteamIVRInput) : SteamIVRInput :=
  {| m_manifest := m_manifest self; m_mainSet := m_mainSet self;
     m_nextTrack := m_nextTrack self;
     m_previousTrack := m_previousTrack self;
     m_pausePlayTrack := m_pausePlayTrack self;
     m_stopTrack := m_stopTrack self;
     m_leftHandRoomTurn := m_leftHandRoomTurn self;
     m_rightHandRoomTurn := m_rightHandRoomTurn self;
     m_leftHandRoomDrag := m_leftHandRoomDrag self;
     m_rightHandRoomDrag := m_rightHandRoomDrag self;
     m_optionalOverrideLeftHandRoomTurn := m_optionalOverrideLeftHandRoomTurn self;
     m_optionalOverrideRightHandRoomTurn := m_optionalOverrideRightHandRoomTurn self;
     m_optionalOverrideLeftHandRoomDrag := m_optionalOverrideLeftHandRoomDrag self;
     m_optionalOverrideRightHandRoomDrag := v;
     m_pushToTalk := m_pushToTalk self;
     m_activeActionSet := m_activeActionSet self |}.
Definition set_m_pushToTalk (v : Action) (self : SteamIVRInput) : SteamIVRInput :=
  {| m_manifest := m_manifest self; m_mainSet := m_mainSet self;
     m_nextTrack := m_nextTrack self;
     m_previousTrack := m_previousTrack self;
     m_pausePlayTrack := m_pausePlayTrack self;
     m_stopTrack := m_stopTrack self;
     m_leftHandRoomTurn := m_leftHandRoomTurn self;
     m_rightHandRoomTurn := m_rightHandRoomTurn self;
     m_leftHandRoomDrag := m_leftHandRoomDrag self;
     m_rightHandRoomDrag := m_rightHandRoomDrag self;
     m_optionalOverrideLeftHandRoomTurn := m_optionalOverrideLeftHandRoomTurn self;
     m_optionalOverrideRightHandRoomTurn := m_optionalOverrideRightHandRoomTurn self;
     m_optionalOverrideLeftHandRoomDrag := m_optionalOverrideLeftHandRoomDrag self;
     m_optionalOverrideRightHandRoomDrag := m_optionalOverrideRightHandRoomDrag self;
     m_pushToTalk := v; m_activeActionSet := m_activeActionSet self |}.
Definition set_m_activeActionSet (v : vr.VRActiveActionSet_t) (self : SteamIVRInput) : SteamIVRInput :=
  {| m_manifest := m_manifest self; m_mainSet := m_mainSet self;
     m_nextTrack := m_nextTrack self;
     m_previousTrack := m_previousTrack self;
     m_pausePlayTrack := m_pausePlayTrack self;
     m_stopTrack := m_stopTrack self;
     m_leftHandRoomTurn := m_leftHandRoomTurn self;
     m_rightHandRoomTurn := m_rightHandRoomTurn self;
     m_leftHandRoomDrag := m_leftHandRoomDrag self;
     m_rightHandRoomDrag := m_rightHandRoomDrag self;
     m_optionalOverrideLeftHandRoomTurn := m_optionalOverrideLeftHandRoomTurn self;
     m_optionalOverrideRightHandRoomTurn := m_optionalOverrideRightHandRoomTurn self;
     m_optionalOverrideLeftHandRoomDrag := m_optionalOverrideLeftHandRoomDrag self;
     m_optionalOverrideRightHandRoomDrag := m_optionalOverrideRightHandRoomDrag self;
     m_pushToTalk := m_pushToTalk self; m_activeActionSet := v |}.

Section Code.
Context {hdr : vr.Header} {RT : Type} {VRInput : vr.IVRInput RT}.
Context {manifestPath : ManifestPath} {strings : input_strings}.

(** [vr::InputDigitalActionData_t getDigitalActionData( Action& action )] *)
Definition getDigitalActionData
    : SE (Action * World RT) vr.InputDigitalActionData_t :=
  t <- type ;;
  (if negb (ActionType_eqb t Digital)
   then
     n <- name ;;
     LOG ERROR ("Action was passed to IVRInput getDigitalActionData without "
                ++ "being a digital type. Action: " ++ n) ;;
     throw (runtime_error
              ("Action was passed to IVRInput getDigitalActionData without being "
               ++ "a digital type. See log for details."))
   else ret tt) ;;
  let handleData := vr.InputDigitalActionData_zero in
  h <- handle ;;
  '(error, handleData) <-
    vrcall
      (vr.CallGetDigitalActionData h vr.sizeof_InputDigitalActionData_t
         vr.k_ulInvalidInputValueHandle)
      (vr.GetDigitalActionData h handleData
         vr.sizeof_InputDigitalActionData_t
         vr.k_ulInvalidInputValueHandle) ;;
  (if is_error error
   then
     n <- name ;;
     LOG ERROR ("Error getting IVRInput Digital Action Data for handle "
                ++ n ++ ". SteamVR Error: " ++ show_error error)
   else ret tt) ;;
  ret handleData.

(** [vr::InputAnalogActionData_t getAnalogActionData( Action& action )] *)
Definition getAnalogActionData
    : SE (Action * World RT) vr.InputAnalogActionData_t :=
  t <- type ;;
  (if negb (ActionType_eqb t Analog)
   then
     n <- name ;;
     LOG ERROR ("Action was passed to IVRInput getAnalogActionData without "
                ++ "being an analog type. Action: " ++ n) ;;
     throw (runtime_error
              ("Action was passed to IVRInput getAnalogActionData without being "
               ++ "an analog type. See log for details."))
   else ret tt) ;;
  let handleData := vr.InputAnalogActionData_zero in
  h <- handle ;;
  '(error, handleData) <-
    vrcall
      (vr.CallGetAnalogActionData h vr.sizeof_InputAnalogActionData_t
         vr.k_ulInvalidInputValueHandle)
      (vr.GetAnalogActionData h handleData
         vr.sizeof_InputAnalogActionData_t
         vr.k_ulInvalidInputValueHandle) ;;
  (if is_error error
   then
     n <- name ;;
     LOG ERROR ("Error getting IVRInput Digital Action Data for handle "
                ++ n ++ ". SteamVR Error: " ++ show_error error)
   else ret tt) ;;
  ret handleData.

(** [bool isDigitalActionActivatedOnce( Action& action )] *)
Definition isDigitalActionActivatedOnce : SE (Action * World RT) bool :=
  handleData <- getDigitalActionData ;;
  ret (vr.bState handleData && vr.bChanged handleData)%bool.

(** [bool isDigitalActionActivatedConstant( Action& action )] *)
Definition isDigitalActionActivatedConstant : SE (Action * World RT) bool :=
  handleData <- getDigitalActionData ;;
  ret (vr.bState handleData).

(** The initializer list of [SteamIVRInput::SteamIVRInput()]: the
    members are constructed one after the other. *)
Definition SteamIVRInput_init : SE (unit * World RT) SteamIVRInput :=
  manifest <- Manifest_ctor ;;
  mainSet <- ActionSet_ctor k_setMain ;;
  nextTrack <- Action_ctor k_actionNextTrack Digital ;;
  previousTrack <- Action_ctor k_actionPreviousTrack Digital ;;
  pausePlayTrack <- Action_ctor k_actionPausePlayTrack Digital ;;
  stopTrack <- Action_ctor k_actionStopTrack Digital ;;
  leftHandRoomTurn <- Action_ctor k_actionLeftHandRoomTurn Digital ;;
  rightHandRoomTurn <- Action_ctor k_actionRightHandRoomTurn Digital ;;
  leftHandRoomDrag <- Action_ctor k_actionLeftHandRoomDrag Digital ;;
  rightHandRoomDrag <- Action_ctor k_actionRightHandRoomDrag Digital ;;
  optionalOverrideLeftHandRoomTurn <- Action_ctor k_actionOptionalOverrideLeftHandRoomTurn Digital ;;
  optionalOverrideRightHandRoomTurn <- Action_ctor k_actionOptionalOverrideRightHandRoomTurn Digital ;;
  optionalOverrideLeftHandRoomDrag <- Action_ctor k_actionOptionalOverrideLeftHandRoomDrag Digital ;;
  optionalOverrideRightHandRoomDrag <- Action_ctor k_actionOptionalOverrideRightHandRoomDrag Digital ;;
  pushToTalk <- Action_ctor k_actionPushToTalk Digital ;;
  ret {| m_manifest := manifest;
         m_mainSet := mainSet;
         m_nextTrack := nextTrack;
         m_previousTrack := previousTrack;
         m_pausePlayTrack := pausePlayTrack;
         m_stopTrack := stopTrack;
         m_leftHandRoomTurn := leftHandRoomTurn;
         m_rightHandRoomTurn := rightHandRoomTurn;
         m_leftHandRoomDrag := leftHandRoomDrag;
         m_rightHandRoomDrag := rightHandRoomDrag;
         m_optionalOverrideLeftHandRoomTurn := optionalOverrideLeftHandRoomTurn;
         m_optionalOverrideRightHandRoomTurn := optionalOverrideRightHandRoomTurn;
         m_optionalOverrideLeftHandRoomDrag := optionalOverrideLeftHandRoomDrag;
         m_optionalOverrideRightHandRoomDrag := optionalOverrideRightHandRoomDrag;
         m_pushToTalk := pushToTalk;
         m_activeActionSet := vr.VRActiveActionSet_zero |}.

(** The body of the constructor: three assignments to the fields of
    [m_activeActionSet]. *)
Definition SteamIVRInput_body : SE (SteamIVRInput * World RT) unit :=
  modify (fun s =>
    (set_m_activeActionSet
       (vr.set_ulActionSet (set_handle (m_mainSet (fst s)))
          (m_activeActionSet (fst s))) (fst s), snd s)) ;;
  modify (fun s =>
    (set_m_activeActionSet
       (vr.set_ulRestrictedToDevice vr.k_ulInvalidInputValueHandle
          (m_activeActionSet (fst s))) (fst s), snd s)) ;;
  modify (fun s =>
    (set_m_activeActionSet
       (vr.set_nPriority 0 (m_activeActionSet (fst s))) (fst s), snd s)).

(** [SteamIVRInput::SteamIVRInput()] *)
Definition SteamIVRInput_ctor : SE (unit * World RT) SteamIVRInput :=
  self <- SteamIVRInput_init ;;
  construct self SteamIVRInput_body.

(** [bool SteamIVRInput::nextSong()] *)
Definition nextSong : SE (SteamIVRInput * World RT) bool :=
  zoom m_nextTrack set_m_nextTrack isDigitalActionActivatedOnce.

(** [bool SteamIVRInput::previousSong()] *)
Definition previousSong : SE (SteamIVRInput * World RT) bool :=
  zoom m_previousTrack set_m_previousTrack isDigitalActionActivatedOnce.

(** [bool SteamIVRInput::pausePlaySong()] *)
Definition pausePlaySong : SE (SteamIVRInput * World RT) bool :=
  zoom m_pausePlayTrack set_m_pausePlayTrack isDigitalActionActivatedOnce.

(** [bool SteamIVRInput::stopSong()] *)
Definition stopSong : SE (SteamIVRInput * World RT) bool :=
  zoom m_stopTrack set_m_stopTrack isDigitalActionActivatedOnce.

(** [bool SteamIVRInput::leftHandRoomTurn()] *)
Definition leftHandRoomTurn : SE (SteamIVRInput * World RT) bool :=
  zoom m_leftHandRoomTurn set_m_leftHandRoomTurn isDigitalActionActivatedConstant.

(** [bool SteamIVRInput::rightHandRoomTurn()] *)
Definition rightHandRoomTurn : SE (SteamIVRInput * World RT) bool :=
  zoom m_rightHandRoomTurn set_m_rightHandRoomTurn isDigitalActionActivatedConstant.

(** [bool SteamIVRInput::leftHandRoomDrag()] *)
Definition leftHandRoomDrag : SE (SteamIVRInput * World RT) bool :=
  zoom m_leftHandRoomDrag set_m_leftHandRoomDrag isDigitalActionActivatedConstant.

(** [bool SteamIVRInput::rightHandRoomDrag()] *)
Definition rightHandRoomDrag : SE (SteamIVRInput * World RT) bool :=
  zoom m_rightHandRoomDrag set_m_rightHandRoomDrag isDigitalActionActivatedConstant.

(** [bool SteamIVRInput::optionalOverrideLeftHandRoomTurn()] *)
Definition optionalOverrideLeftHandRoomTurn : SE (SteamIVRInput * World RT) bool :=
  zoom m_optionalOverrideLeftHandRoomTurn set_m_optionalOverrideLeftHandRoomTurn isDigitalActionActivatedConstant.

(** [bool SteamIVRInput::optionalOverrideRightHandRoomTurn()] *)
Definition optionalOverrideRightHandRoomTurn : SE (SteamIVRInput * World RT) bool :=
  zoom m_optionalOverrideRightHandRoomTurn set_m_optionalOverrideRightHandRoomTurn isDigitalActionActivatedConstant.

(** [bool SteamIVRInput::optionalOverrideLeftHandRoomDrag()] *)
Definition optionalOverrideLeftHandRoomDrag : SE (SteamIVRInput * World RT) bool :=
  zoom m_optionalOverrideLeftHandRoomDrag set_m_optionalOverrideLeftHandRoomDrag isDigitalActionActivatedConstant.

(** [bool SteamIVRInput::optionalOverrideRightHandRoomDrag()] *)
Definition optionalOverrideRightHandRoomDrag : SE (SteamIVRInput * World RT) bool :=
  zoom m_optionalOverrideRightHandRoomDrag set_m_optionalOverrideRightHandRoomDrag isDigitalActionActivatedConstant.

(** [bool SteamIVRInput::pushToTalk()] *)
Definition pushToTalk : SE (SteamIVRInput * World RT) bool :=
  zoom m_pushToTalk set_m_pushToTalk isDigitalActionActivatedConstant.

(** [void SteamIVRInput::UpdateStates()] *)
Definition UpdateStates : SE (SteamIVRInput * World RT) unit :=
  let numberOfSets := 1 in
  pSets <- gets (fun s => [m_activeActionSet (fst s)]) ;;
  error <- vrcall
             (vr.CallUpdateActionState pSets vr.sizeof_VRActiveActionSet_t
                numberOfSets)
             (vr.UpdateActionState pSets vr.sizeof_VRActiveActionSet_t
                numberOfSets) ;;
  if is_error error
  then LOG ERROR ("Error during IVRInput action state update. OpenVR Error: "
                  ++ show_error error)
  else ret tt.

(** A caller of the public interface: one member function per
    constructor, and the call of each.  A [bool] result is kept, the
    [void] of [UpdateStates] is [None]. *)
Inductive Method :=
| call_nextSong
| call_previousSong
| call_pausePlaySong
| call_stopSong
| call_leftHandRoomTurn
| call_rightHandRoomTurn
| call_leftHandRoomDrag
| call_rightHandRoomDrag
| call_optionalOverrideLeftHandRoomTurn
| call_optionalOverrideRightHandRoomTurn
| call_optionalOverrideLeftHandRoomDrag
| call_optionalOverrideRightHandRoomDrag
| call_pushToTalk
| call_UpdateStates.

Definition invoke (f : Method) : SE (SteamIVRInput * World RT) (option bool) :=
  match f with
  | call_nextSong => b <- nextSong ;; ret (Some b)
  | call_previousSong => b <- previousSong ;; ret (Some b)
  | call_pausePlaySong => b <- pausePlaySong ;; ret (Some b)
  | call_stopSong => b <- stopSong ;; ret (Some b)
  | call_leftHandRoomTurn => b <- leftHandRoomTurn ;; ret (Some b)
  | call_rightHandRoomTurn => b <- rightHandRoomTurn ;; ret (Some b)
  | call_leftHandRoomDrag => b <- leftHandRoomDrag ;; ret (Some b)
  | call_rightHandRoomDrag => b <- rightHandRoomDrag ;; ret (Some b)
  | call_optionalOverrideLeftHandRoomTurn => b <- optionalOverrideLeftHandRoomTurn ;; ret (Some b)
  | call_optionalOverrideRightHandRoomTurn => b <- optionalOverrideRightHandRoomTurn ;; ret (Some b)
  | call_optionalOverrideLeftHandRoomDrag => b <- optionalOverrideLeftHandRoomDrag ;; ret (Some b)
  | call_optionalOverrideRightHandRoomDrag => b <- optionalOverrideRightHandRoomDrag ;; ret (Some b)
  | call_pushToTalk => b <- pushToTalk ;; ret (Some b)
  | call_UpdateStates => UpdateStates ;; ret None
  end.

(** The member action a query method reads ([None] for
    [UpdateStates]). *)
Definition member (f : Method) : option (SteamIVRInput -> Action) :=
  match f with
  | call_nextSong => Some m_nextTrack
  | call_previousSong => Some m_previousTrack
  | call_pausePlaySong => Some m_pausePlayTrack
  | call_stopSong => Some m_stopTrack
  | call_leftHandRoomTurn => Some m_leftHandRoomTurn
  | call_rightHandRoomTurn => Some m_rightHandRoomTurn
  | call_leftHandRoomDrag => Some m_leftHandRoomDrag
  | call_rightHandRoomDrag => Some m_rightHandRoomDrag
  | call_optionalOverrideLeftHandRoomTurn => Some m_optionalOverrideLeftHandRoomTurn
  | call_optionalOverrideRightHandRoomTurn => Some m_optionalOverrideRightHandRoomTurn
  | call_optionalOverrideLeftHandRoomDrag => Some m_optionalOverrideLeftHandRoomDrag
  | call_optionalOverrideRightHandRoomDrag => Some m_optionalOverrideRightHandRoomDrag
  | call_pushToTalk => Some m_pushToTalk
  | call_UpdateStates => None
  end.

(** A caller making the calls [fs] in turn; an exception ends it, as
    nothing in this module catches one. *)
Fixpoint invoke_all (fs : list Method)
    : SE (SteamIVRInput * World RT) (list (option bool)) :=
  match fs with
  | [] => ret []
  | f :: fs' =>
      r <- invoke f ;;
      rs <- invoke_all fs' ;;
      ret (r :: rs)
  end.

(** The member actions of an object. *)
Definition actions (self : SteamIVRInput) : list Action :=
  [m_nextTrack self; m_previousTrack self; m_pausePlayTrack self;
   m_stopTrack self; m_leftHandRoomTurn self; m_rightHandRoomTurn self;
   m_leftHandRoomDrag self; m_rightHandRoomDrag self;
   m_optionalOverrideLeftHandRoomTurn self;
   m_optionalOverrideRightHandRoomTurn self;
   m_optionalOverrideLeftHandRoomDrag self;
   m_optionalOverrideRightHandRoomDrag self; m_pushToTalk self].
End Code.

End Room.

(** ** What the runtime reports

    The answer of the runtime to the one query an accessor makes in the
    world [w]: the error code, the buffer as the runtime left it (it was
    handed in zero-initialized) and the runtime's next state. *)
Section Reports.
Context {hdr : vr.Header} {RT : Type} {VRInput : vr.IVRInput RT}.

Definition digital_report (a : Action) (w : World RT)
    : vr.EVRInputError * vr.InputDigitalActionData_t * RT :=
  vr.GetDigitalActionData (m_handle a) vr.InputDigitalActionData_zero
    vr.sizeof_InputDigitalActionData_t vr.k_ulInvalidInputValueHandle
    (runtime w).

Definition analog_report (a : Action) (w : World RT)
    : vr.EVRInputError * vr.InputAnalogActionData_t * RT :=
  vr.GetAnalogActionData (m_handle a) vr.InputAnalogActionData_zero
    vr.sizeof_InputAnalogActionData_t vr.k_ulInvalidInputValueHandle
    (runtime w).

(** The digital state the runtime reports for [a] in [w]. *)
Definition digital_state (a : Action) (w : World RT)
    : vr.InputDigitalActionData_t :=
  snd (fst (digital_report a w)).

Definition digital_error (a : Action) (w : World RT) : vr.EVRInputError :=
  fst (fst (digital_report a w)).

Definition digital_next (a : Action) (w : World RT) : RT :=
  snd (digital_report a w).

Definition analog_error (a : Action) (w : World RT) : vr.EVRInputError :=
  fst (fst (analog_report a w)).

Definition analog_state (a : Action) (w : World RT)
    : vr.InputAnalogActionData_t :=
  snd (fst (analog_report a w)).

Definition analog_next (a : Action) (w : World RT) : RT :=
  snd (analog_report a w).

(** The query an accessor makes for [a]. *)
Definition digital_call (a : Action) : vr.Call :=
  vr.CallGetDigitalActionData (m_handle a) vr.sizeof_InputDigitalActionData_t
    vr.k_ulInvalidInputValueHandle.

Definition analog_call (a : Action) : vr.Call :=
  vr.CallGetAnalogActionData (m_handle a) vr.sizeof_InputAnalogActionData_t
    vr.k_ulInvalidInputValueHandle.

(** The line logged when a data query for [a] fails with the code [e]; the
    analog accessor logs the same words as the digital one. *)
Definition query_failed (a : Action) (e : vr.EVRInputError) : LogLine :=
  {| level := ERROR;
     text := "Error getting IVRInput Digital Action Data for handle "
             ++ m_name a ++ ". SteamVR Error: " ++ show_error e |}.

(** The lines logged when [a] reaches an accessor of the other type. *)
Definition not_digital (a : Action) : LogLine :=
  {| level := ERROR;
     text := "Action was passed to IVRInput getDigitalActionData without "
             ++ "being a digital type. Action: " ++ m_name a |}.

Definition not_analog (a : Action) : LogLine :=
  {| level := ERROR;
     text := "Action was passed to IVRInput getAnalogActionData without "
             ++ "being an analog type. Action: " ++ m_name a |}.

(** The exceptions thrown with them. *)
Definition not_digital_error : exn :=
  runtime_error
    ("Action was passed to IVRInput getDigitalActionData without being "
     ++ "a digital type. See log for details.").

Definition not_analog_error : exn :=
  runtime_error
    ("Action was passed to IVRInput getAnalogActionData without being "
     ++ "an analog type. See log for details.").

(** The frame update made with the descriptor [d] in [w], and its answer. *)
Definition update_report (d : vr.VRActiveActionSet_t) (w : World RT)
    : vr.EVRInputError * RT :=
  vr.UpdateActionState [d] vr.sizeof_VRActiveActionSet_t 1 (runtime w).

Definition update_error (d : vr.VRActiveActionSet_t) (w : World RT)
    : vr.EVRInputError :=
  fst (update_report d w).

Definition update_next (d : vr.VRActiveActionSet_t) (w : World RT) : RT :=
  snd (update_report d w).

Definition update_call (d : vr.VRActiveActionSet_t) : vr.Call :=
  vr.CallUpdateActionState [d] vr.sizeof_VRActiveActionSet_t 1.

Definition update_failed (e : vr.EVRInputError) : LogLine :=
  {| level := ERROR;
     text := "Error during IVRInput action state update. OpenVR Error: "
             ++ show_error e |}.

(** The lines a call logs for the error code [e] it got: none on success. *)
Definition on_error (e : vr.EVRInputError) (l : LogLine) : list LogLine :=
  if is_error e then [l] else [].

(** The handle the runtime resolves for the action set [n] once the
    manifest path has been handed to it in [w]. *)
Definition resolved_set {manifestPath : ManifestPath} (n : string)
    (w : World RT) : vr.VRActionSetHandle_t :=
  snd (fst (vr.GetActionSetHandle n 0
              (snd (vr.SetActionManifestPath action_manifest_path (runtime w))))).

(** Whether an action is of the digital type, and whether all of a list
    are. *)
Definition is_digital (a : Action) : bool := ActionType_eqb (m_type a) Digital.

Definition all_digital (l : list Action) : bool := forallb is_digital l.

(** The world after one runtime call [c] that led the runtime to [rt'] and
    after the lines [ls] were logged. *)
Definition after_call (w : World RT) (c : vr.Call) (rt' : RT)
    (ls : list LogLine) : World RT :=
  {| runtime := rt';
     logged := (logged w ++ ls)%list;
     calls := (calls w ++ [c])%list |}.

(** The world after the lines [ls] were logged and nothing else happened. *)
Definition after_log (w : World RT) (ls : list LogLine) : World RT :=
  {| runtime := runtime w;
     logged := (logged w ++ ls)%list;
     calls := calls w |}.

(** The world a digital query for [a] leaves behind: after the one runtime
    call when [a] is digital, after the one logged line when it is not. *)
Definition query_world (a : Action) (w : World RT) : World RT :=
  if is_digital a
  then after_call w (digital_call a) (digital_next a w)
         (on_error (digital_error a w) (query_failed a (digital_error a w)))
  else after_log w [not_digital a].

(** The world a frame update with the descriptor [d] leaves behind. *)
Definition update_world (d : vr.VRActiveActionSet_t) (w : World RT)
    : World RT :=
  after_call w (update_call d) (update_next d w)
    (on_error (update_error d w) (update_failed (update_error d w))).

(** The runtime calls open to the public member functions of an object
    with the member actions [acts] and the descriptor [d]: the digital query
    of a member action, or the frame update with the descriptor. *)
Definition member_call (acts : list Action) (d : vr.VRActiveActionSet_t)
    (c : vr.Call) : Prop :=
  (exists a, In a acts /\ c = digital_call a) \/ c = update_call d.
End Reports.

(** ** Test doubles for the runtime *)
Module Bench.

Definition header : vr.Header :=
  {| vr.k_ulInvalidInputValueHandle := 0;
     vr.sizeof_InputDigitalActionData_t := 28;
     vr.sizeof_InputAnalogActionData_t := 40;
     vr.sizeof_VRActiveActionSet_t := 32 |}.

Definition manifest : ManifestPath := "action_manifest.json".

(** A runtime in which every button is in the same state: [(pressed,
    changed)].  Handles are the lengths of the names; a frame update clears
    the change flag. *)
Definition Buttons : vr.IVRInput (bool * bool) :=
  {| vr.SetActionManifestPath := fun _ rt => (vr.VRInputError_None, rt);
     vr.GetActionSetHandle := fun n _ rt =>
       (vr.VRInputError_None, Z.of_nat (String.length n), rt);
     vr.GetActionHandle := fun n _ rt =>
       (vr.VRInputError_None, Z.of_nat (String.length n), rt);
     vr.GetDigitalActionData := fun _ _ _ _ rt =>
       (vr.VRInputError_None,
        {| vr.bActive := true; vr.activeOrigin := 1; vr.bState := fst rt;
           vr.bChanged := snd rt; vr.fUpdateTime := 0 |}, rt);
     vr.GetAnalogActionData := fun _ buf _ _ rt =>
       (vr.VRInputError_None, buf, rt);
     vr.UpdateActionState := fun _ _ _ rt =>
       (vr.VRInputError_None, (fst rt, false)) |}.

(** A runtime in which every call fails with [VRInputError_InvalidHandle]
    (code 3).  Its state says whether a data query fills part of the
    caller's buffer before it fails. *)
Definition Failing : vr.IVRInput bool :=
  {| vr.SetActionManifestPath := fun _ rt => (3, rt);
     vr.GetActionSetHandle := fun _ h rt => (3, h, rt);
     vr.GetActionHandle := fun _ h rt => (3, h, rt);
     vr.GetDigitalActionData := fun _ buf _ _ (rt : bool) =>
       (3,
        if rt
        then {| vr.bActive := vr.bActive buf;
                vr.activeOrigin := vr.activeOrigin buf;
                vr.bState := true;
                vr.bChanged := true;
                vr.fUpdateTime := vr.fUpdateTime buf |}
        else buf,
        rt);
     vr.GetAnalogActionData := fun _ buf _ _ (rt : bool) =>
       (3,
        if rt
        then {| vr.Analog.bActive := vr.Analog.bActive buf;
                vr.Analog.activeOrigin := 7;
                vr.Analog.x := vr.Analog.x buf;
                vr.Analog.y := vr.Analog.y buf;
                vr.Analog.z := vr.Analog.z buf;
                vr.Analog.deltaX := vr.Analog.deltaX buf;
                vr.Analog.deltaY := vr.Analog.deltaY buf;
                vr.Analog.deltaZ := vr.Analog.deltaZ buf;
                vr.Analog.fUpdateTime := vr.Analog.fUpdateTime buf |}
        else buf,
        rt);
     vr.UpdateActionState := fun _ _ _ rt => (3, rt) |}.

(** A runtime in which the digital query fails with
    [VRInputError_InvalidHandle] and leaves the buffer alone, while every
    other call, the analog query among them, succeeds. *)
Definition DigitalDown : vr.IVRInput unit :=
  {| vr.SetActionManifestPath := fun _ rt => (vr.VRInputError_None, rt);
     vr.GetActionSetHandle := fun n _ rt =>
       (vr.VRInputError_None, Z.of_nat (String.length n), rt);
     vr.GetActionHandle := fun n _ rt =>
       (vr.VRInputError_None, Z.of_nat (String.length n), rt);
     vr.GetDigitalActionData := fun _ buf _ _ rt => (3, buf, rt);
     vr.GetAnalogActionData := fun _ buf _ _ rt =>
       (vr.VRInputError_None, buf, rt);
     vr.UpdateActionState := fun _ _ _ rt => (vr.VRInputError_None, rt) |}.

Definition playspace_strings : Playspace.input_strings :=
  {| Playspace.k_setMain := "/actions/main";
     Playspace.k_actionNextTrack := "/actions/main/in/NextTrack";
     Playspace.k_actionPreviousTrack := "/actions/main/in/PreviousTrack";
     Playspace.k_actionPausePlayTrack := "/actions/main/in/PausePlayTrack";
     Playspace.k_actionStopTrack := "/actions/main/in/StopTrack";
     Playspace.k_actionLeftHandPlayspaceRotate :=
       "/actions/main/in/LeftHandPlayspaceRotate";
     Playspace.k_actionRightHandPlayspaceRotate :=
       "/actions/main/in/RightHandPlayspaceRotate";
     Playspace.k_actionLeftHandPlayspaceMove :=
       "/actions/main/in/LeftHandPlayspaceMove";
     Playspace.k_actionRightHandPlayspaceMove :=
       "/actions/main/in/RightHandPlayspaceMove";
     Playspace.k_actionOptionalOverrideLeftHandPlayspaceRotate :=
       "/actions/main/in/OptionalOverrideLeftHandPlayspaceRotate";
     Playspace.k_actionOptionalOverrideRightHandPlayspaceRotate :=
       "/actions/main/in/OptionalOverrideRightHandPlayspaceRotate";
     Playspace.k_actionOptionalOverrideLeftHandPlayspaceMove :=
       "/actions/main/in/OptionalOverrideLeftHandPlayspaceMove";
     Playspace.k_actionOptionalOverrideRightHandPlayspaceMove :=
       "/actions/main/in/OptionalOverrideRightHandPlayspaceMove" |}.

Definition room_strings : Room.input_strings :=
  {| Room.k_setMain := "/actions/main";
     Room.k_actionNextTrack := "/actions/main/in/NextTrack";
     Room.k_actionPreviousTrack := "/actions/main/in/PreviousTrack";
     Room.k_actionPausePlayTrack := "/actions/main/in/PausePlayTrack";
     Room.k_actionStopTrack := "/actions/main/in/StopTrack";
     Room.k_actionLeftHandRoomTurn := "/actions/main/in/LeftHandRoomTurn";
     Room.k_actionRightHandRoomTurn := "/actions/main/in/RightHandRoomTurn";
     Room.k_actionLeftHandRoomDrag := "/actions/main/in/LeftHandRoomDrag";
     Room.k_actionRightHandRoomDrag := "/actions/main/in/RightHandRoomDrag";
     Room.k_actionOptionalOverrideLeftHandRoomTurn :=
       "/actions/main/in/OptionalOverrideLeftHandRoomTurn";
     Room.k_actionOptionalOverrideRightHandRoomTurn :=
       "/actions/main/in/OptionalOverrideRightHandRoomTurn";
     Room.k_actionOptionalOverrideLeftHandRoomDrag :=
       "/actions/main/in/OptionalOverrideLeftHandRoomDrag";
     Room.k_actionOptionalOverrideRightHandRoomDrag :=
       "/actions/main/in/OptionalOverrideRightHandRoomDrag";
     Room.k_actionPushToTalk := "/actions/main/in/PushToTalk" |}.

(** A world in which nothing has happened yet. *)
Definition fresh {RT : Type} (rt : RT) : World RT :=
  {| runtime := rt; logged := []; calls := [] |}.

Definition button : Action :=
  {| m_name := "/actions/main/in/NextTrack"; m_type := Digital; m_handle := 26 |}.

Definition stick : Action :=
  {| m_name := "/actions/main/in/Stick"; m_type := Analog; m_handle := 21 |}.

(** A digital action as the constructor builds it under [Buttons]. *)
Definition digital (n : string) : Action :=
  {| m_name := n; m_type := Digital; m_handle := Z.of_nat (String.length n) |}.

Definition main_set : ActionSet :=
  {| set_name := "/actions/main"; set_handle := 13 |}.

Definition main_active : vr.VRActiveActionSet_t :=
  {| vr.ulActionSet := 13; vr.ulRestrictedToDevice := 0; vr.nPriority := 0 |}.

Definition playspace_object : Playspace.SteamIVRInput :=
  {| Playspace.m_manifest := {| manifest_path := "action_manifest.json" |};
     Playspace.m_mainSet := main_set;
     Playspace.m_nextTrack := digital "/actions/main/in/NextTrack";
     Playspace.m_previousTrack := digital "/actions/main/in/PreviousTrack";
     Playspace.m_pausePlayTrack := digital "/actions/main/in/PausePlayTrack";
     Playspace.m_stopTrack := digital "/actions/main/in/StopTrack";
     Playspace.m_leftHandPlayspaceRotate :=
       digital "/actions/main/in/LeftHandPlayspaceRotate";
     Playspace.m_rightHandPlayspaceRotate :=
       digital "/actions/main/in/RightHandPlayspaceRotate";
     Playspace.m_leftHandPlayspaceMove :=
       digital "/actions/main/in/LeftHandPlayspaceMove";
     Playspace.m_rightHandPlayspaceMove :=
       digital "/actions/main/in/RightHandPlayspaceMove";
     Playspace.m_optionalOverrideLeftHandPlayspaceRotate :=
       digital "/actions/main/in/OptionalOverrideLeftHandPlayspaceRotate";
     Playspace.m_optionalOverrideRightHandPlayspaceRotate :=
       digital "/actions/main/in/OptionalOverrideRightHandPlayspaceRotate";
     Playspace.m_optionalOverrideLeftHandPlayspaceMove :=
       digital "/actions/main/in/OptionalOverrideLeftHandPlayspaceMove";
     Playspace.m_optionalOverrideRightHandPlayspaceMove :=
       digital "/actions/main/in/OptionalOverrideRightHandPlayspaceMove";
     Playspace.m_activeActionSet := main_active |}.

Definition room_object : Room.SteamIVRInput :=
  {| Room.m_manifest := {| manifest_path := "action_manifest.json" |};
     Room.m_mainSet := main_set;
     Room.m_nextTrack := digital "/actions/main/in/NextTrack";
     Room.m_previousTrack := digital "/actions/main/in/PreviousTrack";
     Room.m_pausePlayTrack := digital "/actions/main/in/PausePlayTrack";
     Room.m_stopTrack := digital "/actions/main/in/StopTrack";
     Room.m_leftHandRoomTurn := digital "/actions/main/in/LeftHandRoomTurn";
     Room.m_rightHandRoomTurn := digital "/actions/main/in/RightHandRoomTurn";
     Room.m_leftHandRoomDrag := digital "/actions/main/in/LeftHandRoomDrag";
     Room.m_rightHandRoomDrag := digital "/actions/main/in/RightHandRoomDrag";
     Room.m_optionalOverrideLeftHandRoomTurn :=
       digital "/actions/main/in/OptionalOverrideLeftHandRoomTurn";
     Room.m_optionalOverrideRightHandRoomTurn :=
       digital "/actions/main/in/OptionalOverrideRightHandRoomTurn";
     Room.m_optionalOverrideLeftHandRoomDrag :=
       digital "/actions/main/in/OptionalOverrideLeftHandRoomDrag";
     Room.m_optionalOverrideRightHandRoomDrag :=
       digital "/actions/main/in/OptionalOverrideRightHandRoomDrag";
     Room.m_pushToTalk := digital "/actions/main/in/PushToTalk";
     Room.m_activeActionSet := main_active |}.

(** Objects as no constructor builds them: one member action is analog. *)
Definition miswired_playspace : Playspace.SteamIVRInput :=
  Playspace.set_m_nextTrack stick playspace_object.

Definition miswired_room : Room.SteamIVRInput :=
  Room.set_m_pushToTalk stick room_object.

(** A world with a history: one line logged, one call made. *)
Definition used {RT : Type} (rt : RT) : World RT :=
  {| runtime := rt;
     logged := [{| level := ERROR; text := "earlier" |}];
     calls := [vr.CallGetActionHandle "/actions/main/in/StopTrack"] |}.

End Bench.


(** * Properties *)

(** ** The accessors of [src/ivrinput/ivrinput.cpp], step by step *)
Section Accessors.
Context {hdr : vr.Header} {RT : Type} {VRInput : vr.IVRInput RT}.

Ltac run_accessor a w :=
  destruct a as [n t h]; simpl in *; subst;
  cbv [Playspace.getDigitalActionData Playspace.getAnalogActionData
       Playspace.isDigitalActionActivatedOnce
       Playspace.isDigitalActionActivatedConstant
       digital_report analog_report digital_error digital_state digital_next
       analog_error analog_state analog_next on_error
       bind ret Monad_SE se_bind se_ret type name handle gets throw LOG modify
       vrcall after_call after_log fst snd m_type m_name m_handle
       ActionType_eqb negb runtime logged calls];
  simpl.

Ltac settle_report :=
  repeat match goal with
  | |- context [vr.GetDigitalActionData ?h ?b ?z ?r ?rt] =>
      destruct (vr.GetDigitalActionData h b z r rt) as [[? ?] ?]
  | |- context [vr.GetAnalogActionData ?h ?b ?z ?r ?rt] =>
      destruct (vr.GetAnalogActionData h b z r rt) as [[? ?] ?]
  | |- context [is_error ?e] => destruct (is_error e)
  end;
  rewrite ?app_nil_r; try reflexivity.

Lemma getDigitalActionData_digital (a : Action) (w : World RT) :
  m_type a = Digital ->
  Playspace.getDigitalActionData (a, w)
  = (Returned (digital_state a w),
     (a, after_call w (digital_call a) (digital_next a w)
           (on_error (digital_error a w)
              (query_failed a (digital_error a w))))).
Proof. intros Ht. run_accessor a w. settle_report. Qed.

Lemma getDigitalActionData_mismatch (a : Action) (w : World RT) :
  m_type a <> Digital ->
  Playspace.getDigitalActionData (a, w)
  = (Thrown not_digital_error, (a, after_log w [not_digital a])).
Proof.
  intros Ht. destruct a as [n [|] h]; [now elim Ht|]. reflexivity.
Qed.

Lemma getAnalogActionData_analog (a : Action) (w : World RT) :
  m_type a = Analog ->
  Playspace.getAnalogActionData (a, w)
  = (Returned (analog_state a w),
     (a, after_call w (analog_call a) (analog_next a w)
           (on_error (analog_error a w)
              (query_failed a (analog_error a w))))).
Proof. intros Ht. run_accessor a w. settle_report. Qed.

Lemma getAnalogActionData_mismatch (a : Action) (w : World RT) :
  m_type a <> Analog ->
  Playspace.getAnalogActionData (a, w)
  = (Thrown not_analog_error, (a, after_log w [not_analog a])).
Proof.
  intros Ht. destruct a as [n [|] h]; [|now elim Ht]. reflexivity.
Qed.

Lemma once_digital (a : Action) (w : World RT) :
  m_type a = Digital ->
  Playspace.isDigitalActionActivatedOnce (a, w)
  = (Returned (vr.bState (digital_state a w)
               && vr.bChanged (digital_state a w))%bool,
     (a, after_call w (digital_call a) (digital_next a w)
           (on_error (digital_error a w)
              (query_failed a (digital_error a w))))).
Proof. intros Ht. run_accessor a w. settle_report. Qed.

Lemma constant_digital (a : Action) (w : World RT) :
  m_type a = Digital ->
  Playspace.isDigitalActionActivatedConstant (a, w)
  = (Returned (vr.bState (digital_state a w)),
     (a, after_call w (digital_call a) (digital_next a w)
           (on_error (digital_error a w)
              (query_failed a (digital_error a w))))).
Proof. intros Ht. run_accessor a w. settle_report. Qed.

Lemma once_mismatch (a : Action) (w : World RT) :
  m_type a <> Digital ->
  Playspace.isDigitalActionActivatedOnce (a, w)
  = (Thrown not_digital_error, (a, after_log w [not_digital a])).
Proof.
  intros Ht. destruct a as [n [|] h]; [now elim Ht|]. reflexivity.
Qed.

Lemma constant_mismatch (a : Action) (w : World RT) :
  m_type a <> Digital ->
  Playspace.isDigitalActionActivatedConstant (a, w)
  = (Thrown not_digital_error, (a, after_log w [not_digital a])).
Proof.
  intros Ht. destruct a as [n [|] h]; [now elim Ht|]. reflexivity.
Qed.

(** The action an accessor received by reference is the action it leaves. *)
Lemma digital_or_not (a : Action) : {m_type a = Digital} + {m_type a <> Digital}.
Proof. destruct (m_type a); [left | right]; congruence. Qed.

Lemma analog_or_not (a : Action) : {m_type a = Analog} + {m_type a <> Analog}.
Proof. destruct (m_type a); [right | left]; congruence. Qed.

Lemma getDigitalActionData_frame (a : Action) (w : World RT) :
  fst (snd (Playspace.getDigitalActionData (a, w))) = a.
Proof.
  destruct (digital_or_not a) as [Ht | Ht];
    [rewrite getDigitalActionData_digital | rewrite getDigitalActionData_mismatch];
    auto.
Qed.

Lemma getAnalogActionData_frame (a : Action) (w : World RT) :
  fst (snd (Playspace.getAnalogActionData (a, w))) = a.
Proof.
  destruct (analog_or_not a) as [Ht | Ht];
    [rewrite getAnalogActionData_analog | rewrite getAnalogActionData_mismatch];
    auto.
Qed.

Lemma once_frame (a : Action) (w : World RT) :
  fst (snd (Playspace.isDigitalActionActivatedOnce (a, w))) = a.
Proof.
  destruct (digital_or_not a) as [Ht | Ht];
    [rewrite once_digital | rewrite once_mismatch]; auto.
Qed.

Lemma constant_frame (a : Action) (w : World RT) :
  fst (snd (Playspace.isDigitalActionActivatedConstant (a, w))) = a.
Proof.
  destruct (digital_or_not a) as [Ht | Ht];
    [rewrite constant_digital | rewrite constant_mismatch]; auto.
Qed.

(** The second revision has the same four functions, word for word. *)
Lemma room_getDigitalActionData :
  @Room.getDigitalActionData hdr RT VRInput = Playspace.getDigitalActionData.
Proof. reflexivity. Qed.

Lemma room_getAnalogActionData :
  @Room.getAnalogActionData hdr RT VRInput = Playspace.getAnalogActionData.
Proof. reflexivity. Qed.

Lemma room_once :
  @Room.isDigitalActionActivatedOnce hdr RT VRInput
  = Playspace.isDigitalActionActivatedOnce.
Proof. reflexivity. Qed.

Lemma room_constant :
  @Room.isDigitalActionActivatedConstant hdr RT VRInput
  = Playspace.isDigitalActionActivatedConstant.
Proof. reflexivity. Qed.

Lemma is_digital_true (a : Action) :
  is_digital a = true <-> m_type a = Digital.
Proof. unfold is_digital. destruct (m_type a); simpl; split; congruence. Qed.

(** A member passed by reference to a function that leaves it as it was:
    the object is left as it was. *)
Lemma zoom_frame {O P W A : Type} (get : O -> P) (set : P -> O -> O)
    (m : SE (P * W) A) (o : O) (w : W) :
  fst (snd (m (get o, w))) = get o ->
  set (get o) o = o ->
  zoom get set m (o, w)
  = (fst (m (get o, w)), (o, snd (snd (m (get o, w))))).
Proof.
  intros Hp Hs. unfold zoom.
  destruct (m (get o, w)) as [r [p' w']]. simpl in *. subst p'.
  now rewrite Hs.
Qed.

End Accessors.

(** The free functions of the second revision, read as those of the first
    one. *)
Ltac to_playspace :=
  repeat change (@Room.getDigitalActionData ?h ?R ?V)
    with (@Playspace.getDigitalActionData h R V) in *;
  repeat change (@Room.getAnalogActionData ?h ?R ?V)
    with (@Playspace.getAnalogActionData h R V) in *;
  repeat change (@Room.isDigitalActionActivatedOnce ?h ?R ?V)
    with (@Playspace.isDigitalActionActivatedOnce h R V) in *;
  repeat change (@Room.isDigitalActionActivatedConstant ?h ?R ?V)
    with (@Playspace.isDigitalActionActivatedConstant h R V) in *.

(** A member of an object all of whose actions are digital is digital. *)
Ltac digital_member H :=
  apply is_digital_true; revert H;
  unfold all_digital, Playspace.actions, Room.actions; cbn [forallb];
  rewrite !andb_true_iff; tauto.

(** ** The constructors of [ivrinput.h] *)
Section HeaderFacts.
Context {RT : Type} {VRInput : vr.IVRInput RT} {manifestPath : ManifestPath}.

Lemma Manifest_ctor_run (w : World RT) :
  Manifest_ctor (tt, w)
  = (Returned {| manifest_path := action_manifest_path |},
     (tt, after_call w (vr.CallSetActionManifestPath action_manifest_path)
            (snd (vr.SetActionManifestPath action_manifest_path (runtime w)))
            (on_error
               (fst (vr.SetActionManifestPath action_manifest_path (runtime w)))
               {| level := ERROR;
                  text := "Error setting action manifest path: "
                          ++ action_manifest_path ++ ". SteamVR Error: "
                          ++ show_error
                               (fst (vr.SetActionManifestPath
                                       action_manifest_path (runtime w))) |}))).
Proof.
  cbv [Manifest_ctor on_error bind ret Monad_SE se_bind se_ret LOG modify
       vrcall after_call fst snd runtime logged calls].
  destruct (vr.SetActionManifestPath _ _) as [e rt'].
  destruct (is_error e); rewrite ?app_nil_r; reflexivity.
Qed.

Lemma ActionSet_ctor_run (n : string) (w : World RT) :
  ActionSet_ctor n (tt, w)
  = (Returned {| set_name := n;
                 set_handle := snd (fst (vr.GetActionSetHandle n 0 (runtime w))) |},
     (tt, after_call w (vr.CallGetActionSetHandle n)
            (snd (vr.GetActionSetHandle n 0 (runtime w)))
            (on_error (fst (fst (vr.GetActionSetHandle n 0 (runtime w))))
               {| level := ERROR;
                  text := "Error getting handle for " ++ n
                          ++ ". SteamVR Error: "
                          ++ show_error
                               (fst (fst (vr.GetActionSetHandle n 0
                                            (runtime w)))) |}))).
Proof.
  cbv [ActionSet_ctor on_error bind ret Monad_SE se_bind se_ret LOG modify
       vrcall after_call fst snd runtime logged calls].
  destruct (vr.GetActionSetHandle _ _ _) as [[e h] rt'].
  destruct (is_error e); rewrite ?app_nil_r; reflexivity.
Qed.

Lemma Action_ctor_run (n : string) (t : ActionType) (w : World RT) :
  Action_ctor n t (tt, w)
  = (Returned {| m_name := n; m_type := t;
                 m_handle := snd (fst (vr.GetActionHandle n 0 (runtime w))) |},
     (tt, after_call w (vr.CallGetActionHandle n)
            (snd (vr.GetActionHandle n 0 (runtime w)))
            (on_error (fst (fst (vr.GetActionHandle n 0 (runtime w))))
               {| level := ERROR;
                  text := "Error getting handle for " ++ n
                          ++ ". SteamVR Error: "
                          ++ show_error
                               (fst (fst (vr.GetActionHandle n 0
                                            (runtime w)))) |}))).
Proof.
  cbv [Action_ctor on_error bind ret Monad_SE se_bind se_ret LOG modify
       vrcall after_call fst snd runtime logged calls].
  destruct (vr.GetActionHandle _ _ _) as [[e h] rt'].
  destruct (is_error e); rewrite ?app_nil_r; reflexivity.
Qed.

(** The same three facts with the world after the call left abstract, as the
    constructor of [SteamIVRInput] needs them. *)
Lemma Manifest_ctor_ok (w : World RT) :
  exists w',
    Manifest_ctor (tt, w)
    = (Returned {| manifest_path := action_manifest_path |}, (tt, w'))
    /\ runtime w'
       = snd (vr.SetActionManifestPath action_manifest_path (runtime w)).
Proof. rewrite Manifest_ctor_run. eexists. split; reflexivity. Qed.

Lemma ActionSet_ctor_ok (n : string) (w : World RT) :
  exists w',
    ActionSet_ctor n (tt, w)
    = (Returned {| set_name := n;
                   set_handle :=
                     snd (fst (vr.GetActionSetHandle n 0 (runtime w))) |},
       (tt, w')).
Proof. rewrite ActionSet_ctor_run. eexists. reflexivity. Qed.

Lemma Action_ctor_ok (n : string) (t : ActionType) (w : World RT) :
  exists h w',
    Action_ctor n t (tt, w)
    = (Returned {| m_name := n; m_type := t; m_handle := h |}, (tt, w')).
Proof. rewrite Action_ctor_run. do 2 eexists. reflexivity. Qed.
End HeaderFacts.

(** ** The member functions of [Playspace.SteamIVRInput] *)
Section PlayspaceFacts.
Context {hdr : vr.Header} {RT : Type} {VRInput : vr.IVRInput RT}.

Lemma playspace_nextSong_run (self : Playspace.SteamIVRInput) (w : World RT) :
  Playspace.nextSong (self, w)
  = (fst (Playspace.isDigitalActionActivatedOnce (Playspace.m_nextTrack self, w)),
     (self, snd (snd (Playspace.isDigitalActionActivatedOnce (Playspace.m_nextTrack self, w))))).
Proof.
  unfold Playspace.nextSong.
  apply (zoom_frame Playspace.m_nextTrack Playspace.set_m_nextTrack);
    [exact (once_frame _ _) | now destruct self].
Qed.

Lemma playspace_previousSong_run (self : Playspace.SteamIVRInput) (w : World RT) :
  Playspace.previousSong (self, w)
  = (fst (Playspace.isDigitalActionActivatedOnce (Playspace.m_previousTrack self, w)),
     (self, snd (snd (Playspace.isDigitalActionActivatedOnce (Playspace.m_previousTrack self, w))))).
Proof.
  unfold Playspace.previousSong.
  apply (zoom_frame Playspace.m_previousTrack Playspace.set_m_previousTrack);
    [exact (once_frame _ _) | now destruct self].
Qed.

Lemma playspace_pausePlaySong_run (self : Playspace.SteamIVRInput) (w : World RT) :
  Playspace.pausePlaySong (self, w)
  = (fst (Playspace.isDigitalActionActivatedOnce (Playspace.m_pausePlayTrack self, w)),
     (self, snd (snd (Playspace.isDigitalActionActivatedOnce (Playspace.m_pausePlayTrack self, w))))).
Proof.
  unfold Playspace.pausePlaySong.
  apply (zoom_frame Playspace.m_pausePlayTrack Playspace.set_m_pausePlayTrack);
    [exact (once_frame _ _) | now destruct self].
Qed.

Lemma playspace_stopSong_run (self : Playspace.SteamIVRInput) (w : World RT) :
  Playspace.stopSong (self, w)
  = (fst (Playspace.isDigitalActionActivatedOnce (Playspace.m_stopTrack self, w)),
     (self, snd (snd (Playspace.isDigitalActionActivatedOnce (Playspace.m_stopTrack self, w))))).
Proof.
  unfold Playspace.stopSong.
  apply (zoom_frame Playspace.m_stopTrack Playspace.set_m_stopTrack);
    [exact (once_frame _ _) | now destruct self].
Qed.

Lemma playspace_leftHandPlayspaceRotate_run (self : Playspace.SteamIVRInput) (w : World RT) :
  Playspace.leftHandPlayspaceRotate (self, w)
  = (fst (Playspace.isDigitalActionActivatedConstant (Playspace.m_leftHandPlayspaceRotate self, w)),
     (self, snd (snd (Playspace.isDigitalActionActivatedConstant (Playspace.m_leftHandPlayspaceRotate self, w))))).
Proof.
  unfold Playspace.leftHandPlayspaceRotate.
  apply (zoom_frame Playspace.m_leftHandPlayspaceRotate Playspace.set_m_leftHandPlayspaceRotate);
    [exact (constant_frame _ _) | now destruct self].
Qed.

Lemma playspace_rightHandPlayspaceRotate_run (self : Playspace.SteamIVRInput) (w : World RT) :
  Playspace.rightHandPlayspaceRotate (self, w)
  = (fst (Playspace.isDigitalActionActivatedConstant (Playspace.m_rightHandPlayspaceRotate self, w)),
     (self, snd (snd (Playspace.isDigitalActionActivatedConstant (Playspace.m_rightHandPlayspaceRotate self, w))))).
Proof.
  unfold Playspace.rightHandPlayspaceRotate.
  apply (zoom_frame Playspace.m_rightHandPlayspaceRotate Playspace.set_m_rightHandPlayspaceRotate);
    [exact (constant_frame _ _) | now destruct self].
Qed.

Lemma playspace_leftHandPlayspaceMove_run (self : Playspace.SteamIVRInput) (w : World RT) :
  Playspace.leftHandPlayspaceMove (self, w)
  = (fst (Playspace.isDigitalActionActivatedConstant (Playspace.m_leftHandPlayspaceMove self, w)),
     (self, snd (snd (Playspace.isDigitalActionActivatedConstant (Playspace.m_leftHandPlayspaceMove self, w))))).
Proof.
  unfold Playspace.leftHandPlayspaceMove.
  apply (zoom_frame Playspace.m_leftHandPlayspaceMove Playspace.set_m_leftHandPlayspaceMove);
    [exact (constant_frame _ _) | now destruct self].
Qed.

Lemma playspace_rightHandPlayspaceMove_run (self : Playspace.SteamIVRInput) (w : World RT) :
  Playspace.rightHandPlayspaceMove (self, w)
  = (fst (Playspace.isDigitalActionActivatedConstant (Playspace.m_rightHandPlayspaceMove self, w)),
     (self, snd (snd (Playspace.isDigitalActionActivatedConstant (Playspace.m_rightHandPlayspaceMove self, w))))).
Proof.
  unfold Playspace.rightHandPlayspaceMove.
  apply (zoom_frame Playspace.m_rightHandPlayspaceMove Playspace.set_m_rightHandPlayspaceMove);
    [exact (constant_frame _ _) | now destruct self].
Qed.

Lemma playspace_optionalOverrideLeftHandPlayspaceRotate_run (self : Playspace.SteamIVRInput) (w : World RT) :
  Playspace.optionalOverrideLeftHandPlayspaceRotate (self, w)
  = (fst (Playspace.isDigitalActionActivatedConstant (Playspace.m_optionalOverrideLeftHandPlayspaceRotate self, w)),
     (self, snd (snd (Playspace.isDigitalActionActivatedConstant (Playspace.m_optionalOverrideLeftHandPlayspaceRotate self, w))))).
Proof.
  unfold Playspace.optionalOverrideLeftHandPlayspaceRotate.
  apply (zoom_frame Playspace.m_optionalOverrideLeftHandPlayspaceRotate Playspace.set_m_optionalOverrideLeftHandPlayspaceRotate);
    [exact (constant_frame _ _) | now destruct self].
Qed.

Lemma playspace_optionalOverrideRightHandPlayspaceRotate_run (self : Playspace.SteamIVRInput) (w : World RT) :
  Playspace.optionalOverrideRightHandPlayspaceRotate (self, w)
  = (fst (Playspace.isDigitalActionActivatedConstant (Playspace.m_optionalOverrideRightHandPlayspaceRotate self, w)),
     (self, snd (snd (Playspace.isDigitalActionActivatedConstant (Playspace.m_optionalOverrideRightHandPlayspaceRotate self, w))))).
Proof.
  unfold Playspace.optionalOverrideRightHandPlayspaceRotate.
  apply (zoom_frame Playspace.m_optionalOverrideRightHandPlayspaceRotate Playspace.set_m_optionalOverrideRightHandPlayspaceRotate);
    [exact (constant_frame _ _) | now destruct self].
Qed.

Lemma playspace_optionalOverrideLeftHandPlayspaceMove_run (self : Playspace.SteamIVRInput) (w : World RT) :
  Playspace.optionalOverrideLeftHandPlayspaceMove (self, w)
  = (fst (Playspace.isDigitalActionActivatedConstant (Playspace.m_optionalOverrideLeftHandPlayspaceMove self, w)),
     (self, snd (snd (Playspace.isDigitalActionActivatedConstant (Playspace.m_optionalOverrideLeftHandPlayspaceMove self, w))))).
Proof.
  unfold Playspace.optionalOverrideLeftHandPlayspaceMove.
  apply (zoom_frame Playspace.m_optionalOverrideLeftHandPlayspaceMove Playspace.set_m_optionalOverrideLeftHandPlayspaceMove);
    [exact (constant_frame _ _) | now destruct self].
Qed.

Lemma playspace_optionalOverrideRightHandPlayspaceMove_run (self : Playspace.SteamIVRInput) (w : World RT) :
  Playspace.optionalOverrideRightHandPlayspaceMove (self, w)
  = (fst (Playspace.isDigitalActionActivatedConstant (Playspace.m_optionalOverrideRightHandPlayspaceMove self, w)),
     (self, snd (snd (Playspace.isDigitalActionActivatedConstant (Playspace.m_optionalOverrideRightHandPlayspaceMove self, w))))).
Proof.
  unfold Playspace.optionalOverrideRightHandPlayspaceMove.
  apply (zoom_frame Playspace.m_optionalOverrideRightHandPlayspaceMove Playspace.set_m_optionalOverrideRightHandPlayspaceMove);
    [exact (constant_frame _ _) | now destruct self].
Qed.

Lemma playspace_UpdateStates_run (self : Playspace.SteamIVRInput) (w : World RT) :
  Playspace.UpdateStates (self, w)
  = (Returned tt,
     (self, after_call w (update_call (Playspace.m_activeActionSet self))
              (update_next (Playspace.m_activeActionSet self) w)
              (on_error (update_error (Playspace.m_activeActionSet self) w)
                 (update_failed (update_error (Playspace.m_activeActionSet self) w))))).
Proof.
  cbv [Playspace.UpdateStates update_call update_next update_error update_report
       on_error bind ret Monad_SE se_bind se_ret gets LOG modify vrcall
       after_call fst snd runtime logged calls].
  destruct (vr.UpdateActionState _ _ _ _) as [e rt'].
  destruct (is_error e); rewrite ?app_nil_r; reflexivity.
Qed.

(** Every member action of an object all of whose actions are digital is
    digital. *)
Lemma playspace_member_digital (f : Playspace.Method) (m : Playspace.SteamIVRInput -> Action)
    (self : Playspace.SteamIVRInput) :
  all_digital (Playspace.actions self) = true ->
  Playspace.member f = Some m ->
  m_type (m self) = Digital.
Proof.
  unfold all_digital, Playspace.actions. cbn [forallb].
  rewrite !andb_true_iff. intros H Hm.
  destruct f; cbn in Hm; inversion Hm; subst m;
    apply is_digital_true; tauto.
Qed.

Ltac playspace_run :=
  cbv [Playspace.invoke bind ret Monad_SE se_bind se_ret];
  rewrite ?playspace_UpdateStates_run,
    ?playspace_nextSong_run,
    ?playspace_previousSong_run,
    ?playspace_pausePlaySong_run,
    ?playspace_stopSong_run,
    ?playspace_leftHandPlayspaceRotate_run,
    ?playspace_rightHandPlayspaceRotate_run,
    ?playspace_leftHandPlayspaceMove_run,
    ?playspace_rightHandPlayspaceMove_run,
    ?playspace_optionalOverrideLeftHandPlayspaceRotate_run,
    ?playspace_optionalOverrideRightHandPlayspaceRotate_run,
    ?playspace_optionalOverrideLeftHandPlayspaceMove_run,
    ?playspace_optionalOverrideRightHandPlayspaceMove_run.

(** A call of a public member function leaves the object as it was. *)
Lemma playspace_invoke_frame (f : Playspace.Method) (self : Playspace.SteamIVRInput)
    (w : World RT) :
  fst (snd (Playspace.invoke f (self, w))) = self.
Proof.
  destruct f; playspace_run;
    match goal with
    | |- context [fst ?r] => destruct (fst r); reflexivity
    | _ => reflexivity
    end.
Qed.

(** On an object whose actions are all digital, a call of a public member
    function returns. *)
Lemma playspace_invoke_returns (f : Playspace.Method) (self : Playspace.SteamIVRInput)
    (w : World RT) :
  all_digital (Playspace.actions self) = true ->
  exists r, fst (Playspace.invoke f (self, w)) = Returned r.
Proof.
  intros H.
  destruct f; playspace_run;
    try (rewrite once_digital by digital_member H);
    try (rewrite constant_digital by digital_member H);
    eexists; reflexivity.
Qed.

Lemma playspace_invoke_all_cons (f : Playspace.Method) (fs : list Playspace.Method)
    (self : Playspace.SteamIVRInput) (w : World RT) :
  Playspace.invoke_all (f :: fs) (self, w)
  = match Playspace.invoke f (self, w) with
    | (Returned r, s') =>
        match Playspace.invoke_all fs s' with
        | (Returned rs, s'') => (Returned (r :: rs), s'')
        | (Thrown e, s'') => (Thrown e, s'')
        end
    | (Thrown e, s') => (Thrown e, s')
    end.
Proof. reflexivity. Qed.

Lemma playspace_invoke_all_frame (fs : list Playspace.Method)
    (self : Playspace.SteamIVRInput) (w : World RT) :
  fst (snd (Playspace.invoke_all fs (self, w))) = self.
Proof.
  revert w. induction fs as [|f fs IH]; intros w; [reflexivity|].
  rewrite playspace_invoke_all_cons.
  pose proof (playspace_invoke_frame f self w) as Hf.
  destruct (Playspace.invoke f (self, w)) as [[r|e] [self' w']];
    simpl in Hf; subst self'; [|reflexivity].
  specialize (IH w').
  destruct (Playspace.invoke_all fs (self, w')) as [[rs|e] s'']; exact IH.
Qed.

Lemma playspace_invoke_all_returns (fs : list Playspace.Method)
    (self : Playspace.SteamIVRInput) (w : World RT) :
  all_digital (Playspace.actions self) = true ->
  exists rs, fst (Playspace.invoke_all fs (self, w)) = Returned rs.
Proof.
  intros H. revert w. induction fs as [|f fs IH]; intros w.
  - exists []. reflexivity.
  - rewrite playspace_invoke_all_cons.
    destruct (playspace_invoke_returns f self w H) as [r Hr].
    pose proof (playspace_invoke_frame f self w) as Hf.
    destruct (Playspace.invoke f (self, w)) as [[r'|e] [self' w']];
      simpl in Hr, Hf; [subst self' | discriminate].
    destruct (IH w') as [rs Hrs].
    destruct (Playspace.invoke_all fs (self, w')) as [[rs'|e] s''];
      simpl in Hrs; [|discriminate].
    eexists; reflexivity.
Qed.

End PlayspaceFacts.

(** ** The member functions of [Room.SteamIVRInput] *)
Section RoomFacts.
Context {hdr : vr.Header} {RT : Type} {VRInput : vr.IVRInput RT}.

Lemma room_nextSong_run (self : Room.SteamIVRInput) (w : World RT) :
  Room.nextSong (self, w)
  = (fst (Playspace.isDigitalActionActivatedOnce (Room.m_nextTrack self, w)),
     (self, snd (snd (Playspace.isDigitalActionActivatedOnce (Room.m_nextTrack self, w))))).
Proof.
  unfold Room.nextSong.
  apply (zoom_frame Room.m_nextTrack Room.set_m_nextTrack);
    [exact (once_frame _ _) | now destruct self].
Qed.

Lemma room_previousSong_run (self : Room.SteamIVRInput) (w : World RT) :
  Room.previousSong (self, w)
  = (fst (Playspace.isDigitalActionActivatedOnce (Room.m_previousTrack self, w)),
     (self, snd (snd (Playspace.isDigitalActionActivatedOnce (Room.m_previousTrack self, w))))).
Proof.
  unfold Room.previousSong.
  apply (zoom_frame Room.m_previousTrack Room.set_m_previousTrack);
    [exact (once_frame _ _) | now destruct self].
Qed.

Lemma room_pausePlaySong_run (self : Room.SteamIVRInput) (w : World RT) :
  Room.pausePlaySong (self, w)
  = (fst (Playspace.isDigitalActionActivatedOnce (Room.m_pausePlayTrack self, w)),
     (self, snd (snd (Playspace.isDigitalActionActivatedOnce (Room.m_pausePlayTrack self, w))))).
Proof.
  unfold Room.pausePlaySong.
  apply (zoom_frame Room.m_pausePlayTrack Room.set_m_pausePlayTrack);
    [exact (once_frame _ _) | now destruct self].
Qed.

Lemma room_stopSong_run (self : Room.SteamIVRInput) (w : World RT) :
  Room.stopSong (self, w)
  = (fst (Playspace.isDigitalActionActivatedOnce (Room.m_stopTrack self, w)),
     (self, snd (snd (Playspace.isDigitalActionActivatedOnce (Room.m_stopTrack self, w))))).
Proof.
  unfold Room.stopSong.
  apply (zoom_frame Room.m_stopTrack Room.set_m_stopTrack);
    [exact (once_frame _ _) | now destruct self].
Qed.

Lemma room_leftHandRoomTurn_run (self : Room.SteamIVRInput) (w : World RT) :
  Room.leftHandRoomTurn (self, w)
  = (fst (Playspace.isDigitalActionActivatedConstant (Room.m_leftHandRoomTurn self, w)),
     (self, snd (snd (Playspace.isDigitalActionActivatedConstant (Room.m_leftHandRoomTurn self, w))))).
Proof.
  unfold Room.leftHandRoomTurn.
  apply (zoom_frame Room.m_leftHandRoomTurn Room.set_m_leftHandRoomTurn);
    [exact (constant_frame _ _) | now destruct self].
Qed.

Lemma room_rightHandRoomTurn_run (self : Room.SteamIVRInput) (w : World RT) :
  Room.rightHandRoomTurn (self, w)
  = (fst (Playspace.isDigitalActionActivatedConstant (Room.m_rightHandRoomTurn self, w)),
     (self, snd (snd (Playspace.isDigitalActionActivatedConstant (Room.m_rightHandRoomTurn self, w))))).
Proof.
  unfold Room.rightHandRoomTurn.
  apply (zoom_frame Room.m_rightHandRoomTurn Room.set_m_rightHandRoomTurn);
    [exact (constant_frame _ _) | now destruct self].
Qed.

Lemma room_leftHandRoomDrag_run (self : Room.SteamIVRInput) (w : World RT) :
  Room.leftHandRoomDrag (self, w)
  = (fst (Playspace.isDigitalActionActivatedConstant (Room.m_leftHandRoomDrag self, w)),
     (self, snd (snd (Playspace.isDigitalActionActivatedConstant (Room.m_leftHandRoomDrag self, w))))).
Proof.
  unfold Room.leftHandRoomDrag.
  apply (zoom_frame Room.m_leftHandRoomDrag Room.set_m_leftHandRoomDrag);
    [exact (constant_frame _ _) | now destruct self].
Qed.

Lemma room_rightHandRoomDrag_run (self : Room.SteamIVRInput) (w : World RT) :
  Room.rightHandRoomDrag (self, w)
  = (fst (Playspace.isDigitalActionActivatedConstant (Room.m_rightHandRoomDrag self, w)),
     (self, snd (snd (Playspace.isDigitalActionActivatedConstant (Room.m_rightHandRoomDrag self, w))))).
Proof.
  unfold Room.rightHandRoomDrag.
  apply (zoom_frame Room.m_rightHandRoomDrag Room.set_m_rightHandRoomDrag);
    [exact (constant_frame _ _) | now destruct self].
Qed.

Lemma room_optionalOverrideLeftHandRoomTurn_run (self : Room.SteamIVRInput) (w : World RT) :
  Room.optionalOverrideLeftHandRoomTurn (self, w)
  = (fst (Playspace.isDigitalActionActivatedConstant (Room.m_optionalOverrideLeftHandRoomTurn self, w)),
     (self, snd (snd (Playspace.isDigitalActionActivatedConstant (Room.m_optionalOverrideLeftHandRoomTurn self, w))))).
Proof.
  unfold Room.optionalOverrideLeftHandRoomTurn.
  apply (zoom_frame Room.m_optionalOverrideLeftHandRoomTurn Room.set_m_optionalOverrideLeftHandRoomTurn);
    [exact (constant_frame _ _) | now destruct self].
Qed.

Lemma room_optionalOverrideRightHandRoomTurn_run (self : Room.SteamIVRInput) (w : World RT) :
  Room.optionalOverrideRightHandRoomTurn (self, w)
  = (fst (Playspace.isDigitalActionActivatedConstant (Room.m_optionalOverrideRightHandRoomTurn self, w)),
     (self, snd (snd (Playspace.isDigitalActionActivatedConstant (Room.m_optionalOverrideRightHandRoomTurn self, w))))).
Proof.
  unfold Room.optionalOverrideRightHandRoomTurn.
  apply (zoom_frame Room.m_optionalOverrideRightHandRoomTurn Room.set_m_optionalOverrideRightHandRoomTurn);
    [exact (constant_frame _ _) | now destruct self].
Qed.

Lemma room_optionalOverrideLeftHandRoomDrag_run (self : Room.SteamIVRInput) (w : World RT) :
  Room.optionalOverrideLeftHandRoomDrag (self, w)
  = (fst (Playspace.isDigitalActionActivatedConstant (Room.m_optionalOverrideLeftHandRoomDrag self, w)),
     (self, snd (snd (Playspace.isDigitalActionActivatedConstant (Room.m_optionalOverrideLeftHandRoomDrag self, w))))).
Proof.
  unfold Room.optionalOverrideLeftHandRoomDrag.
  apply (zoom_frame Room.m_optionalOverrideLeftHandRoomDrag Room.set_m_optionalOverrideLeftHandRoomDrag);
    [exact (constant_frame _ _) | now destruct self].
Qed.

Lemma room_optionalOverrideRightHandRoomDrag_run (self : Room.SteamIVRInput) (w : World RT) :
  Room.optionalOverrideRightHandRoomDrag (self, w)
  = (fst (Playspace.isDigitalActionActivatedConstant (Room.m_optionalOverrideRightHandRoomDrag self, w)),
     (self, snd (snd (Playspace.isDigitalActionActivatedConstant (Room.m_optionalOverrideRightHandRoomDrag self, w))))).
Proof.
  unfold Room.optionalOverrideRightHandRoomDrag.
  apply (zoom_frame Room.m_optionalOverrideRightHandRoomDrag Room.set_m_optionalOverrideRightHandRoomDrag);
    [exact (constant_frame _ _) | now destruct self].
Qed.

Lemma room_pushToTalk_run (self : Room.SteamIVRInput) (w : World RT) :
  Room.pushToTalk (self, w)
  = (fst (Playspace.isDigitalActionActivatedConstant (Room.m_pushToTalk self, w)),
     (self, snd (snd (Playspace.isDigitalActionActivatedConstant (Room.m_pushToTalk self, w))))).
Proof.
  unfold Room.pushToTalk.
  apply (zoom_frame Room.m_pushToTalk Room.set_m_pushToTalk);
    [exact (constant_frame _ _) | now destruct self].
Qed.

Lemma room_UpdateStates_run (self : Room.SteamIVRInput) (w : World RT) :
  Room.UpdateStates (self, w)
  = (Returned tt,
     (self, after_call w (update_call (Room.m_activeActionSet self))
              (update_next (Room.m_activeActionSet self) w)
              (on_error (update_error (Room.m_activeActionSet self) w)
                 (update_failed (update_error (Room.m_activeActionSet self) w))))).
Proof.
  cbv [Room.UpdateStates update_call update_next update_error update_report
       on_error bind ret Monad_SE se_bind se_ret gets LOG modify vrcall
       after_call fst snd runtime logged calls].
  destruct (vr.UpdateActionState _ _ _ _) as [e rt'].
  destruct (is_error e); rewrite ?app_nil_r; reflexivity.
Qed.

(** Every member action of an object all of whose actions are digital is
    digital. *)
Lemma room_member_digital (f : Room.Method) (m : Room.SteamIVRInput -> Action)
    (self : Room.SteamIVRInput) :
  all_digital (Room.actions self) = true ->
  Room.member f = Some m ->
  m_type (m self) = Digital.
Proof.
  unfold all_digital, Room.actions. cbn [forallb].
  rewrite !andb_true_iff. intros H Hm.
  destruct f; cbn in Hm; inversion Hm; subst m;
    apply is_digital_true; tauto.
Qed.

Ltac room_run :=
  cbv [Room.invoke bind ret Monad_SE se_bind se_ret];
  rewrite ?room_UpdateStates_run,
    ?room_nextSong_run,
    ?room_previousSong_run,
    ?room_pausePlaySong_run,
    ?room_stopSong_run,
    ?room_leftHandRoomTurn_run,
    ?room_rightHandRoomTurn_run,
    ?room_leftHandRoomDrag_run,
    ?room_rightHandRoomDrag_run,
    ?room_optionalOverrideLeftHandRoomTurn_run,
    ?room_optionalOverrideRightHandRoomTurn_run,
    ?room_optionalOverrideLeftHandRoomDrag_run,
    ?room_optionalOverrideRightHandRoomDrag_run,
    ?room_pushToTalk_run.

(** A call of a public member function leaves the object as it was. *)
Lemma room_invoke_frame (f : Room.Method) (self : Room.SteamIVRInput)
    (w : World RT) :
  fst (snd (Room.invoke f (self, w))) = self.
Proof.
  destruct f; room_run;
    match goal with
    | |- context [fst ?r] => destruct (fst r); reflexivity
    | _ => reflexivity
    end.
Qed.

(** On an object whose actions are all digital, a call of a public member
    function returns. *)
Lemma room_invoke_returns (f : Room.Method) (self : Room.SteamIVRInput)
    (w : World RT) :
  all_digital (Room.actions self) = true ->
  exists r, fst (Room.invoke f (self, w)) = Returned r.
Proof.
  intros H.
  destruct f; room_run;
    try (rewrite once_digital by digital_member H);
    try (rewrite constant_digital by digital_member H);
    eexists; reflexivity.
Qed.

Lemma room_invoke_all_cons (f : Room.Method) (fs : list Room.Method)
    (self : Room.SteamIVRInput) (w : World RT) :
  Room.invoke_all (f :: fs) (self, w)
  = match Room.invoke f (self, w) with
    | (Returned r, s') =>
        match Room.invoke_all fs s' with
        | (Returned rs, s'') => (Returned (r :: rs), s'')
        | (Thrown e, s'') => (Thrown e, s'')
        end
    | (Thrown e, s') => (Thrown e, s')
    end.
Proof. reflexivity. Qed.

Lemma room_invoke_all_frame (fs : list Room.Method)
    (self : Room.SteamIVRInput) (w : World RT) :
  fst (snd (Room.invoke_all fs (self, w))) = self.
Proof.
  revert w. induction fs as [|f fs IH]; intros w; [reflexivity|].
  rewrite room_invoke_all_cons.
  pose proof (room_invoke_frame f self w) as Hf.
  destruct (Room.invoke f (self, w)) as [[r|e] [self' w']];
    simpl in Hf; subst self'; [|reflexivity].
  specialize (IH w').
  destruct (Room.invoke_all fs (self, w')) as [[rs|e] s'']; exact IH.
Qed.

Lemma room_invoke_all_returns (fs : list Room.Method)
    (self : Room.SteamIVRInput) (w : World RT) :
  all_digital (Room.actions self) = true ->
  exists rs, fst (Room.invoke_all fs (self, w)) = Returned rs.
Proof.
  intros H. revert w. induction fs as [|f fs IH]; intros w.
  - exists []. reflexivity.
  - rewrite room_invoke_all_cons.
    destruct (room_invoke_returns f self w H) as [r Hr].
    pose proof (room_invoke_frame f self w) as Hf.
    destruct (Room.invoke f (self, w)) as [[r'|e] [self' w']];
      simpl in Hr, Hf; [subst self' | discriminate].
    destruct (IH w') as [rs Hrs].
    destruct (Room.invoke_all fs (self, w')) as [[rs'|e] s''];
      simpl in Hrs; [|discriminate].
    eexists; reflexivity.
Qed.

End RoomFacts.

(** ** Construction *)
Section Construction.
Context {hdr : vr.Header} {RT : Type} {VRInput : vr.IVRInput RT}.
Context {manifestPath : ManifestPath}.

Ltac run_ctor :=
  cbv [bind Monad_SE se_bind];
  match goal with
  | |- context [Manifest_ctor (tt, ?w)] =>
      let w' := fresh "w" in
      let E := fresh "E" in
      let Hrt := fresh "Hrt" in
      destruct (Manifest_ctor_ok w) as (w' & E & Hrt);
      rewrite E; clear E; cbv beta iota;
      match goal with
      | |- context [ActionSet_ctor ?n (tt, w')] =>
          let w'' := fresh "w" in
          destruct (ActionSet_ctor_ok n w') as (w'' & E);
          rewrite E; clear E; cbv beta iota; rewrite Hrt
      end
  end;
  repeat match goal with
  | |- context [Action_ctor ?n ?t (tt, ?w)] =>
      let h := fresh "h" in
      let w' := fresh "w" in
      let E := fresh "E" in
      destruct (Action_ctor_ok n t w) as (h & w' & E);
      rewrite E; clear E; cbv beta iota
  end.

Lemma playspace_ctor_spec {strings : Playspace.input_strings} (w0 : World RT) :
  exists self w1,
    Playspace.SteamIVRInput_ctor (tt, w0) = (Returned self, (tt, w1))
    /\ all_digital (Playspace.actions self) = true
    /\ set_handle (Playspace.m_mainSet self)
       = resolved_set Playspace.k_setMain w0
    /\ Playspace.m_activeActionSet self
       = {| vr.ulActionSet := set_handle (Playspace.m_mainSet self);
            vr.ulRestrictedToDevice := vr.k_ulInvalidInputValueHandle;
            vr.nPriority := 0 |}.
Proof.
  unfold Playspace.SteamIVRInput_ctor, Playspace.SteamIVRInput_init.
  run_ctor.
  do 2 eexists. split; [reflexivity|]. repeat split.
Qed.

Lemma room_ctor_spec {strings : Room.input_strings} (w0 : World RT) :
  exists self w1,
    Room.SteamIVRInput_ctor (tt, w0) = (Returned self, (tt, w1))
    /\ all_digital (Room.actions self) = true
    /\ set_handle (Room.m_mainSet self) = resolved_set Room.k_setMain w0
    /\ Room.m_activeActionSet self
       = {| vr.ulActionSet := set_handle (Room.m_mainSet self);
            vr.ulRestrictedToDevice := vr.k_ulInvalidInputValueHandle;
            vr.nPriority := 0 |}.
Proof.
  unfold Room.SteamIVRInput_ctor, Room.SteamIVRInput_init.
  run_ctor.
  do 2 eexists. split; [reflexivity|]. repeat split.
Qed.
End Construction.


(** ** The sample runtime builds the sample objects *)
Example bench_playspace_ctor :
  fst (@Playspace.SteamIVRInput_ctor Bench.header _ Bench.Buttons Bench.manifest
         Bench.playspace_strings (tt, Bench.fresh (true, true)))
  = Returned Bench.playspace_object.
Proof. reflexivity. Qed.

Example bench_room_ctor :
  fst (@Room.SteamIVRInput_ctor Bench.header _ Bench.Buttons Bench.manifest
         Bench.room_strings (tt, Bench.fresh (true, true)))
  = Returned Bench.room_object.
Proof. reflexivity. Qed.

Example bench_failed_update :
  snd (snd (@Room.UpdateStates Bench.header _ Bench.Failing
              (Bench.room_object, Bench.fresh false)))
  = {| runtime := false;
       logged := [update_failed 3];
       calls := [vr.CallUpdateActionState [Bench.main_active] 32 1] |}.
Proof. reflexivity. Qed.

Example bench_mismatch :
  @Playspace.isDigitalActionActivatedConstant Bench.header _ Bench.Buttons
    (Bench.stick, Bench.fresh (true, true))
  = (Thrown not_digital_error,
     (Bench.stick,
      {| runtime := (true, true);
         logged := [not_digital Bench.stick];
         calls := [] |})).
Proof. reflexivity. Qed.

(** ** The digital activation rules *)
Section Activation.
Context {hdr : vr.Header} {RT : Type} {VRInput : vr.IVRInput RT}.

Lemma is_error_true (e : vr.EVRInputError) :
  e <> vr.VRInputError_None -> is_error e = true.
Proof.
  intros He. unfold is_error. apply negb_true_iff. now apply Z.eqb_neq.
Qed.

Lemma on_error_failed (e : vr.EVRInputError) (l : LogLine) :
  e <> vr.VRInputError_None -> on_error e l = [l].
Proof. intros He. unfold on_error. now rewrite is_error_true. Qed.

(** C1.  For a digital action, [isDigitalActionActivatedOnce] returns
    [bState && bChanged] of the digital state the runtime reports, in both
    revisions; so do [nextSong], [previousSong], [pausePlaySong] and
    [stopSong] for their member actions, when these are digital. *)
Theorem activated_once_is_pressed_and_changed
    (a : Action) (p : Playspace.SteamIVRInput) (r : Room.SteamIVRInput)
    (w : World RT)
    (Ha : m_type a = Digital)
    (Hp : all_digital
            [Playspace.m_nextTrack p; Playspace.m_previousTrack p;
             Playspace.m_pausePlayTrack p; Playspace.m_stopTrack p] = true)
    (Hr : all_digital
            [Room.m_nextTrack r; Room.m_previousTrack r;
             Room.m_pausePlayTrack r; Room.m_stopTrack r] = true) :
  let once (x : Action) :=
    (vr.bState (digital_state x w) && vr.bChanged (digital_state x w))%bool in
  fst (Playspace.isDigitalActionActivatedOnce (a, w)) = Returned (once a)
  /\ fst (Room.isDigitalActionActivatedOnce (a, w)) = Returned (once a)
  /\ fst (Playspace.nextSong (p, w))
     = Returned (once (Playspace.m_nextTrack p))
  /\ fst (Playspace.previousSong (p, w))
     = Returned (once (Playspace.m_previousTrack p))
  /\ fst (Playspace.pausePlaySong (p, w))
     = Returned (once (Playspace.m_pausePlayTrack p))
  /\ fst (Playspace.stopSong (p, w))
     = Returned (once (Playspace.m_stopTrack p))
  /\ fst (Room.nextSong (r, w))
     = Returned (once (Room.m_nextTrack r))
  /\ fst (Room.previousSong (r, w))
     = Returned (once (Room.m_previousTrack r))
  /\ fst (Room.pausePlaySong (r, w))
     = Returned (once (Room.m_pausePlayTrack r))
  /\ fst (Room.stopSong (r, w))
     = Returned (once (Room.m_stopTrack r)).
Proof.
  intros once. subst once. cbv beta.
  to_playspace.
  rewrite playspace_nextSong_run, playspace_previousSong_run,
    playspace_pausePlaySong_run, playspace_stopSong_run,
    room_nextSong_run, room_previousSong_run,
    room_pausePlaySong_run, room_stopSong_run.
  rewrite !once_digital by (assumption || digital_member Hp || digital_member Hr).
  repeat split.
Qed.

(** C4.  For a digital action, [isDigitalActionActivatedConstant] returns
    the [bState] of the digital state the runtime reports, whatever
    [bChanged] is, in both revisions; so does every hold-style accessor for
    its member action, when these are digital. *)
Theorem activated_constant_is_pressed
    (a : Action) (p : Playspace.SteamIVRInput) (r : Room.SteamIVRInput)
    (w : World RT)
    (Ha : m_type a = Digital)
    (Hp : all_digital
            [Playspace.m_leftHandPlayspaceRotate p;
             Playspace.m_rightHandPlayspaceRotate p;
             Playspace.m_leftHandPlayspaceMove p;
             Playspace.m_rightHandPlayspaceMove p;
             Playspace.m_optionalOverrideLeftHandPlayspaceRotate p;
             Playspace.m_optionalOverrideRightHandPlayspaceRotate p;
             Playspace.m_optionalOverrideLeftHandPlayspaceMove p;
             Playspace.m_optionalOverrideRightHandPlayspaceMove p] = true)
    (Hr : all_digital
            [Room.m_leftHandRoomTurn r; Room.m_rightHandRoomTurn r;
             Room.m_leftHandRoomDrag r; Room.m_rightHandRoomDrag r;
             Room.m_optionalOverrideLeftHandRoomTurn r;
             Room.m_optionalOverrideRightHandRoomTurn r;
             Room.m_optionalOverrideLeftHandRoomDrag r;
             Room.m_optionalOverrideRightHandRoomDrag r; Room.m_pushToTalk r] = true) :
  let held (x : Action) := vr.bState (digital_state x w) in
  fst (Playspace.isDigitalActionActivatedConstant (a, w)) = Returned (held a)
  /\ fst (Room.isDigitalActionActivatedConstant (a, w)) = Returned (held a)
  /\ fst (Playspace.leftHandPlayspaceRotate (p, w))
     = Returned (held (Playspace.m_leftHandPlayspaceRotate p))
  /\ fst (Playspace.rightHandPlayspaceRotate (p, w))
     = Returned (held (Playspace.m_rightHandPlayspaceRotate p))
  /\ fst (Playspace.leftHandPlayspaceMove (p, w))
     = Returned (held (Playspace.m_leftHandPlayspaceMove p))
  /\ fst (Playspace.rightHandPlayspaceMove (p, w))
     = Returned (held (Playspace.m_rightHandPlayspaceMove p))
  /\ fst (Playspace.optionalOverrideLeftHandPlayspaceRotate (p, w))
     = Returned (held (Playspace.m_optionalOverrideLeftHandPlayspaceRotate p))
  /\ fst (Playspace.optionalOverrideRightHandPlayspaceRotate (p, w))
     = Returned (held (Playspace.m_optionalOverrideRightHandPlayspaceRotate p))
  /\ fst (Playspace.optionalOverrideLeftHandPlayspaceMove (p, w))
     = Returned (held (Playspace.m_optionalOverrideLeftHandPlayspaceMove p))
  /\ fst (Playspace.optionalOverrideRightHandPlayspaceMove (p, w))
     = Returned (held (Playspace.m_optionalOverrideRightHandPlayspaceMove p))
  /\ fst (Room.leftHandRoomTurn (r, w))
     = Returned (held (Room.m_leftHandRoomTurn r))
  /\ fst (Room.rightHandRoomTurn (r, w))
     = Returned (held (Room.m_rightHandRoomTurn r))
  /\ fst (Room.leftHandRoomDrag (r, w))
     = Returned (held (Room.m_leftHandRoomDrag r))
  /\ fst (Room.rightHandRoomDrag (r, w))
     = Returned (held (Room.m_rightHandRoomDrag r))
  /\ fst (Room.optionalOverrideLeftHandRoomTurn (r, w))
     = Returned (held (Room.m_optionalOverrideLeftHandRoomTurn r))
  /\ fst (Room.optionalOverrideRightHandRoomTurn (r, w))
     = Returned (held (Room.m_optionalOverrideRightHandRoomTurn r))
  /\ fst (Room.optionalOverrideLeftHandRoomDrag (r, w))
     = Returned (held (Room.m_optionalOverrideLeftHandRoomDrag r))
  /\ fst (Room.optionalOverrideRightHandRoomDrag (r, w))
     = Returned (held (Room.m_optionalOverrideRightHandRoomDrag r))
  /\ fst (Room.pushToTalk (r, w))
     = Returned (held (Room.m_pushToTalk r)).
Proof.
  intros held. subst held. cbv beta.
  to_playspace.
  rewrite playspace_leftHandPlayspaceRotate_run,
    playspace_rightHandPlayspaceRotate_run,
    playspace_leftHandPlayspaceMove_run,
    playspace_rightHandPlayspaceMove_run,
    playspace_optionalOverrideLeftHandPlayspaceRotate_run,
    playspace_optionalOverrideRightHandPlayspaceRotate_run,
    playspace_optionalOverrideLeftHandPlayspaceMove_run,
    playspace_optionalOverrideRightHandPlayspaceMove_run,
    room_leftHandRoomTurn_run,
    room_rightHandRoomTurn_run,
    room_leftHandRoomDrag_run,
    room_rightHandRoomDrag_run,
    room_optionalOverrideLeftHandRoomTurn_run,
    room_optionalOverrideRightHandRoomTurn_run,
    room_optionalOverrideLeftHandRoomDrag_run,
    room_optionalOverrideRightHandRoomDrag_run,
    room_pushToTalk_run.
  rewrite !constant_digital
    by (assumption || digital_member Hp || digital_member Hr).
  repeat split.
Qed.


End Activation.

(** ** Errors *)
Section Errors.
Context {hdr : vr.Header} {RT : Type} {VRInput : vr.IVRInput RT}.

(** C2.  An action that is not digital makes [getDigitalActionData] log the
    mismatch and throw [std::runtime_error]; an action that is not analog
    does the same to [getAnalogActionData].  Nothing is returned, the
    runtime is not called, and the action is left as it was.  The two
    callers of [getDigitalActionData] catch nothing: the exception leaves
    them as it was thrown. *)
Theorem type_mismatch_is_logged_and_thrown (a b : Action) (w : World RT)
    (Ha : m_type a <> Digital) (Hb : m_type b <> Analog) :
  Playspace.getDigitalActionData (a, w)
  = (Thrown not_digital_error, (a, after_log w [not_digital a]))
  /\ Room.getDigitalActionData (a, w)
     = (Thrown not_digital_error, (a, after_log w [not_digital a]))
  /\ Playspace.getAnalogActionData (b, w)
     = (Thrown not_analog_error, (b, after_log w [not_analog b]))
  /\ Room.getAnalogActionData (b, w)
     = (Thrown not_analog_error, (b, after_log w [not_analog b]))
  /\ Playspace.isDigitalActionActivatedOnce (a, w)
     = (Thrown not_digital_error, (a, after_log w [not_digital a]))
  /\ Playspace.isDigitalActionActivatedConstant (a, w)
     = (Thrown not_digital_error, (a, after_log w [not_digital a]))
  /\ Room.isDigitalActionActivatedOnce (a, w)
     = (Thrown not_digital_error, (a, after_log w [not_digital a]))
  /\ Room.isDigitalActionActivatedConstant (a, w)
     = (Thrown not_digital_error, (a, after_log w [not_digital a])).
Proof.
  to_playspace.
  rewrite getDigitalActionData_mismatch by exact Ha.
  rewrite getAnalogActionData_mismatch by exact Hb.
  rewrite once_mismatch by exact Ha.
  rewrite constant_mismatch by exact Ha.
  repeat split.
Qed.

(** C3, as the code has it.  When the runtime answers the query of a
    digital action with an error code, [getDigitalActionData] makes that one
    call, logs one line and returns the buffer as the runtime left it; the
    buffer was zero-initialized before the call, so the result is the zeroed
    struct when the runtime has left the buffer alone.  The same holds, on
    its own, of [getAnalogActionData] and an analog action. *)
Theorem failed_query_returns_the_buffer (a b : Action) (w : World RT) :
  (m_type a = Digital ->
   digital_error a w <> vr.VRInputError_None ->
   Playspace.getDigitalActionData (a, w)
   = (Returned (digital_state a w),
      (a, after_call w (digital_call a) (digital_next a w)
            [query_failed a (digital_error a w)]))
   /\ Room.getDigitalActionData (a, w)
      = (Returned (digital_state a w),
         (a, after_call w (digital_call a) (digital_next a w)
               [query_failed a (digital_error a w)]))
   /\ (digital_state a w = vr.InputDigitalActionData_zero ->
       fst (Playspace.getDigitalActionData (a, w))
       = Returned vr.InputDigitalActionData_zero))
  /\ (m_type b = Analog ->
      analog_error b w <> vr.VRInputError_None ->
      Playspace.getAnalogActionData (b, w)
      = (Returned (analog_state b w),
         (b, after_call w (analog_call b) (analog_next b w)
               [query_failed b (analog_error b w)]))
      /\ Room.getAnalogActionData (b, w)
         = (Returned (analog_state b w),
            (b, after_call w (analog_call b) (analog_next b w)
                  [query_failed b (analog_error b w)]))
      /\ (analog_state b w = vr.InputAnalogActionData_zero ->
          fst (Playspace.getAnalogActionData (b, w))
          = Returned vr.InputAnalogActionData_zero)).
Proof.
  to_playspace. split.
  - intros Ha Hea.
    rewrite getDigitalActionData_digital by exact Ha.
    rewrite on_error_failed by exact Hea.
    repeat split. cbn [fst]. intros ->. reflexivity.
  - intros Hb Heb.
    rewrite getAnalogActionData_analog by exact Hb.
    rewrite on_error_failed by exact Heb.
    repeat split. cbn [fst]. intros ->. reflexivity.
Qed.

(** C5.  [UpdateStates] makes one call of [UpdateActionState], with the
    array of the one descriptor [m_activeActionSet], its size and the count
    1; it logs one line when the call fails and nothing otherwise, returns,
    and leaves the object as it was. *)
Theorem UpdateStates_forwards_once
    (p : Playspace.SteamIVRInput) (r : Room.SteamIVRInput) (w : World RT) :
  Playspace.UpdateStates (p, w)
  = (Returned tt,
     (p, after_call w
           (vr.CallUpdateActionState [Playspace.m_activeActionSet p]
              vr.sizeof_VRActiveActionSet_t 1)
           (update_next (Playspace.m_activeActionSet p) w)
           (if is_error (update_error (Playspace.m_activeActionSet p) w)
            then [update_failed (update_error (Playspace.m_activeActionSet p) w)]
            else [])))
  /\ Room.UpdateStates (r, w)
     = (Returned tt,
        (r, after_call w
              (vr.CallUpdateActionState [Room.m_activeActionSet r]
                 vr.sizeof_VRActiveActionSet_t 1)
              (update_next (Room.m_activeActionSet r) w)
              (if is_error (update_error (Room.m_activeActionSet r) w)
               then [update_failed (update_error (Room.m_activeActionSet r) w)]
               else []))).
Proof.
  rewrite playspace_UpdateStates_run, room_UpdateStates_run. split; reflexivity.
Qed.

End Errors.

(** ** The object after construction *)
Section Objects.
Context {hdr : vr.Header} {RT : Type} {VRInput : vr.IVRInput RT}.
Context {manifestPath : ManifestPath}.
Context {playspace : Playspace.input_strings} {room : Room.input_strings}.

(** C6.  The constructor returns an object whose [m_activeActionSet] holds
    the handle resolved for the main action set, the reserved handle
    [k_ulInvalidInputValueHandle] and the priority 0.  Whatever public
    member functions are called on the object afterwards, in whatever world,
    the descriptor stays the same, and a call of [UpdateStates] passes
    exactly this descriptor to the runtime. *)
Theorem active_action_set_is_fixed (w0 : World RT) :
  (exists self w1,
     Playspace.SteamIVRInput_ctor (tt, w0) = (Returned self, (tt, w1))
     /\ set_handle (Playspace.m_mainSet self)
        = resolved_set Playspace.k_setMain w0
     /\ Playspace.m_activeActionSet self
        = {| vr.ulActionSet := set_handle (Playspace.m_mainSet self);
             vr.ulRestrictedToDevice := vr.k_ulInvalidInputValueHandle;
             vr.nPriority := 0 |}
     /\ (forall fs w,
           Playspace.m_activeActionSet
             (fst (snd (Playspace.invoke_all fs (self, w))))
           = Playspace.m_activeActionSet self)
     /\ (forall w,
           calls (snd (snd (Playspace.UpdateStates (self, w))))
           = (calls w
              ++ [vr.CallUpdateActionState [Playspace.m_activeActionSet self]
                    vr.sizeof_VRActiveActionSet_t 1])%list))
  /\ (exists self w1,
        Room.SteamIVRInput_ctor (tt, w0) = (Returned self, (tt, w1))
        /\ set_handle (Room.m_mainSet self) = resolved_set Room.k_setMain w0
        /\ Room.m_activeActionSet self
           = {| vr.ulActionSet := set_handle (Room.m_mainSet self);
                vr.ulRestrictedToDevice := vr.k_ulInvalidInputValueHandle;
                vr.nPriority := 0 |}
        /\ (forall fs w,
              Room.m_activeActionSet (fst (snd (Room.invoke_all fs (self, w))))
              = Room.m_activeActionSet self)
        /\ (forall w,
              calls (snd (snd (Room.UpdateStates (self, w))))
              = (calls w
                 ++ [vr.CallUpdateActionState [Room.m_activeActionSet self]
                       vr.sizeof_VRActiveActionSet_t 1])%list)).
Proof.
  split.
  - destruct (playspace_ctor_spec w0) as (self & w1 & Hc & _ & Hh & Hd).
    exists self, w1. repeat split; try assumption.
    + intros fs w. now rewrite playspace_invoke_all_frame.
    + intros w. now rewrite playspace_UpdateStates_run.
  - destruct (room_ctor_spec w0) as (self & w1 & Hc & _ & Hh & Hd).
    exists self, w1. repeat split; try assumption.
    + intros fs w. now rewrite room_invoke_all_frame.
    + intros w. now rewrite room_UpdateStates_run.
Qed.

(** C9.  The constructor returns an object all of whose member actions are
    digital, and on it no sequence of calls of the public member functions
    throws, in whatever world the calls are made: the branch of
    [getDigitalActionData] that throws is never taken. *)
Theorem queries_never_hit_type_mismatch (w0 : World RT) :
  (exists self w1,
     Playspace.SteamIVRInput_ctor (tt, w0) = (Returned self, (tt, w1))
     /\ Forall (fun a => m_type a = Digital) (Playspace.actions self)
     /\ (forall fs w, exists rs,
           fst (Playspace.invoke_all fs (self, w)) = Returned rs))
  /\ (exists self w1,
        Room.SteamIVRInput_ctor (tt, w0) = (Returned self, (tt, w1))
        /\ Forall (fun a => m_type a = Digital) (Room.actions self)
        /\ (forall fs w, exists rs,
              fst (Room.invoke_all fs (self, w)) = Returned rs)).
Proof.
  split.
  - destruct (playspace_ctor_spec w0) as (self & w1 & Hc & Hall & _).
    exists self, w1. repeat split; try assumption.
    + apply Forall_forall. intros a Hin. apply is_digital_true.
      unfold all_digital in Hall. rewrite forallb_forall in Hall. auto.
    + intros fs w. now apply playspace_invoke_all_returns.
  - destruct (room_ctor_spec w0) as (self & w1 & Hc & Hall & _).
    exists self, w1. repeat split; try assumption.
    + apply Forall_forall. intros a Hin. apply is_digital_true.
      unfold all_digital in Hall. rewrite forallb_forall in Hall. auto.
    + intros fs w. now apply room_invoke_all_returns.
Qed.

End Objects.

(** ** Frames and the two revisions *)
Section Frames.
Context {hdr : vr.Header} {RT : Type} {VRInput : vr.IVRInput RT}.

(** C7.  The four free functions leave the action they received by
    reference as it was, whatever its type and whatever the runtime
    answers; a call of a public member function, and any sequence of such
    calls, leaves the whole object as it was, and with it every member
    action. *)
Theorem actions_are_never_modified
    (a : Action) (p : Playspace.SteamIVRInput) (r : Room.SteamIVRInput)
    (fp : Playspace.Method) (fr : Room.Method)
    (fsp : list Playspace.Method) (fsr : list Room.Method) (w : World RT) :
  fst (snd (Playspace.getDigitalActionData (a, w))) = a
  /\ fst (snd (Playspace.getAnalogActionData (a, w))) = a
  /\ fst (snd (Playspace.isDigitalActionActivatedOnce (a, w))) = a
  /\ fst (snd (Playspace.isDigitalActionActivatedConstant (a, w))) = a
  /\ fst (snd (Room.getDigitalActionData (a, w))) = a
  /\ fst (snd (Room.getAnalogActionData (a, w))) = a
  /\ fst (snd (Room.isDigitalActionActivatedOnce (a, w))) = a
  /\ fst (snd (Room.isDigitalActionActivatedConstant (a, w))) = a
  /\ fst (snd (Playspace.invoke fp (p, w))) = p
  /\ fst (snd (Room.invoke fr (r, w))) = r
  /\ fst (snd (Playspace.invoke_all fsp (p, w))) = p
  /\ fst (snd (Room.invoke_all fsr (r, w))) = r
  /\ Playspace.actions (fst (snd (Playspace.invoke_all fsp (p, w))))
     = Playspace.actions p
  /\ Room.actions (fst (snd (Room.invoke_all fsr (r, w)))) = Room.actions r.
Proof.
  to_playspace.
  rewrite playspace_invoke_frame, room_invoke_frame,
    !playspace_invoke_all_frame, !room_invoke_all_frame.
  rewrite getDigitalActionData_frame, getAnalogActionData_frame, once_frame,
    constant_frame.
  repeat split.
Qed.

(** C10.  The functions [getDigitalActionData], [getAnalogActionData],
    [isDigitalActionActivatedOnce] and [isDigitalActionActivatedConstant] of
    the two revisions give the same outcome and the same final state for
    every action and every world. *)
Theorem revisions_agree_on_free_functions (a : Action) (w : World RT) :
  Room.getDigitalActionData (a, w) = Playspace.getDigitalActionData (a, w)
  /\ Room.getAnalogActionData (a, w) = Playspace.getAnalogActionData (a, w)
  /\ Room.isDigitalActionActivatedOnce (a, w)
     = Playspace.isDigitalActionActivatedOnce (a, w)
  /\ Room.isDigitalActionActivatedConstant (a, w)
     = Playspace.isDigitalActionActivatedConstant (a, w).
Proof.
  to_playspace.
  repeat split.
Qed.

End Frames.

(** ** The theorems at sample inputs *)

(** Both buttons pressed and changed: the once-queries answer true. *)
Lemma activated_once_sample :
  m_type Bench.button = Digital
  /\ fst (@Playspace.isDigitalActionActivatedOnce Bench.header _ Bench.Buttons
            (Bench.button, Bench.fresh (true, true)))
     = Returned true.
Proof.
  split; [reflexivity|].
  exact (proj1 (@activated_once_is_pressed_and_changed Bench.header _
                  Bench.Buttons Bench.button Bench.playspace_object
                  Bench.room_object (Bench.fresh (true, true))
                  eq_refl eq_refl eq_refl)).
Defined.

(** A button held since an earlier poll: the hold-queries answer true. *)
Lemma activated_constant_sample :
  m_type Bench.button = Digital
  /\ fst (@Playspace.isDigitalActionActivatedConstant Bench.header _
            Bench.Buttons (Bench.button, Bench.fresh (true, false)))
     = Returned true.
Proof.
  split; [reflexivity|].
  exact (proj1 (@activated_constant_is_pressed Bench.header _
                  Bench.Buttons Bench.button Bench.playspace_object
                  Bench.room_object (Bench.fresh (true, false))
                  eq_refl eq_refl eq_refl)).
Defined.


(** An analog action in the digital accessor, a digital one in the analog
    accessor. *)
Lemma type_mismatch_sample :
  m_type Bench.stick <> Digital
  /\ m_type Bench.button <> Analog
  /\ fst (@Playspace.getDigitalActionData Bench.header _ Bench.Buttons
            (Bench.stick, Bench.fresh (true, true)))
     = Thrown not_digital_error.
Proof.
  assert (Ha : m_type Bench.stick <> Digital) by (simpl; discriminate).
  assert (Hb : m_type Bench.button <> Analog) by (simpl; discriminate).
  split; [exact Ha|]. split; [exact Hb|].
  exact (f_equal fst
           (proj1 (@type_mismatch_is_logged_and_thrown Bench.header _
                     Bench.Buttons Bench.stick Bench.button
                     (Bench.fresh (true, true)) Ha Hb))).
Defined.

(** The digital query fails under a runtime whose analog query succeeds;
    the analog query fails under a runtime in which every call fails.  Both
    runtimes leave the buffer alone, and the zeroed struct comes back. *)
Lemma failed_query_sample :
  (m_type Bench.button = Digital
   /\ @digital_error Bench.header _ Bench.DigitalDown Bench.button
        (Bench.fresh tt) <> vr.VRInputError_None
   /\ @analog_error Bench.header _ Bench.DigitalDown Bench.stick
        (Bench.fresh tt) = vr.VRInputError_None
   /\ fst (@Playspace.getDigitalActionData Bench.header _ Bench.DigitalDown
             (Bench.button, Bench.fresh tt))
      = Returned vr.InputDigitalActionData_zero)
  /\ (m_type Bench.stick = Analog
      /\ @analog_error Bench.header _ Bench.Failing Bench.stick
           (Bench.fresh false) <> vr.VRInputError_None
      /\ fst (@Playspace.getAnalogActionData Bench.header _ Bench.Failing
                (Bench.stick, Bench.fresh false))
         = Returned vr.InputAnalogActionData_zero).
Proof.
  assert (Hea : @digital_error Bench.header _ Bench.DigitalDown Bench.button
                  (Bench.fresh tt) <> vr.VRInputError_None)
    by (vm_compute; discriminate).
  assert (Heb : @analog_error Bench.header _ Bench.Failing Bench.stick
                  (Bench.fresh false) <> vr.VRInputError_None)
    by (vm_compute; discriminate).
  split.
  - split; [reflexivity|]. split; [exact Hea|]. split; [reflexivity|].
    exact (f_equal fst
             (proj1 (proj1 (@failed_query_returns_the_buffer Bench.header _
                              Bench.DigitalDown Bench.button Bench.stick
                              (Bench.fresh tt))
                       eq_refl Hea))).
  - split; [reflexivity|]. split; [exact Heb|].
    exact (f_equal fst
             (proj1 (proj2 (@failed_query_returns_the_buffer Bench.header _
                              Bench.Failing Bench.button Bench.stick
                              (Bench.fresh false))
                       eq_refl Heb))).
Defined.

(** C3 as it is written fails: a runtime that fills part of the buffer and
    then reports [VRInputError_InvalidHandle] for a digital action makes
    [getDigitalActionData] return a struct with [bState] and [bChanged] set,
    not the zeroed one. *)
Lemma failed_query_result_not_zeroed :
  m_type Bench.button = Digital
  /\ @digital_error Bench.header _ Bench.Failing Bench.button (Bench.fresh true)
     = 3
  /\ 3 <> vr.VRInputError_None
  /\ fst (@Playspace.getDigitalActionData Bench.header _ Bench.Failing
            (Bench.button, Bench.fresh true))
     = Returned {| vr.bActive := false; vr.activeOrigin := 0;
                   vr.bState := true; vr.bChanged := true;
                   vr.fUpdateTime := 0 |}
  /\ fst (@Playspace.getDigitalActionData Bench.header _ Bench.Failing
            (Bench.button, Bench.fresh true))
     <> Returned vr.InputDigitalActionData_zero.
Proof.
  repeat split; try reflexivity; vm_compute; discriminate.
Qed.

(** * Further properties of the module *)

(** ** One query, whatever the type of the action *)
Section Queries.
Context {hdr : vr.Header} {RT : Type} {VRInput : vr.IVRInput RT}.

Lemma getDigitalActionData_state (a : Action) (w : World RT) :
  snd (Playspace.getDigitalActionData (a, w)) = (a, query_world a w).
Proof.
  unfold query_world.
  destruct (digital_or_not a) as [Ht | Ht].
  - rewrite getDigitalActionData_digital by exact Ht.
    rewrite (proj2 (is_digital_true a) Ht). reflexivity.
  - rewrite getDigitalActionData_mismatch by exact Ht.
    destruct (is_digital a) eqn:E; [|reflexivity].
    apply is_digital_true in E. contradiction.
Qed.

Lemma once_state (a : Action) (w : World RT) :
  snd (Playspace.isDigitalActionActivatedOnce (a, w)) = (a, query_world a w).
Proof.
  rewrite <- getDigitalActionData_state.
  destruct (digital_or_not a) as [Ht | Ht].
  - now rewrite once_digital, getDigitalActionData_digital.
  - now rewrite once_mismatch, getDigitalActionData_mismatch.
Qed.

Lemma constant_state (a : Action) (w : World RT) :
  snd (Playspace.isDigitalActionActivatedConstant (a, w))
  = (a, query_world a w).
Proof.
  rewrite <- getDigitalActionData_state.
  destruct (digital_or_not a) as [Ht | Ht].
  - now rewrite constant_digital, getDigitalActionData_digital.
  - now rewrite constant_mismatch, getDigitalActionData_mismatch.
Qed.

(** A query appends at most one call, the query of [a], and at most one
    line. *)
Lemma query_world_trace (a : Action) (w : World RT) :
  exists cs ls,
    calls (query_world a w) = (calls w ++ cs)%list
    /\ logged (query_world a w) = (logged w ++ ls)%list
    /\ (List.length cs <= 1)%nat /\ (List.length ls <= 1)%nat
    /\ Forall (fun c => c = digital_call a) cs.
Proof.
  unfold query_world, on_error.
  destruct (is_digital a).
  - exists [digital_call a]. destruct (is_error (digital_error a w));
      eexists; cbn; repeat split; auto.
  - exists [], [not_digital a]. cbn. rewrite app_nil_r. repeat split; auto.
Qed.

Lemma update_world_trace (d : vr.VRActiveActionSet_t) (w : World RT) :
  exists ls,
    calls (update_world d w) = (calls w ++ [update_call d])%list
    /\ logged (update_world d w) = (logged w ++ ls)%list
    /\ (List.length ls <= 1)%nat.
Proof.
  unfold update_world, on_error.
  destruct (is_error (update_error d w)); eexists; cbn; repeat split; auto.
Qed.

End Queries.


Ltac playspace_step :=
  cbv [Playspace.invoke bind ret Monad_SE se_bind se_ret];
  rewrite ?playspace_UpdateStates_run,
    ?playspace_nextSong_run,
    ?playspace_previousSong_run,
    ?playspace_pausePlaySong_run,
    ?playspace_stopSong_run,
    ?playspace_leftHandPlayspaceRotate_run,
    ?playspace_rightHandPlayspaceRotate_run,
    ?playspace_leftHandPlayspaceMove_run,
    ?playspace_rightHandPlayspaceMove_run,
    ?playspace_optionalOverrideLeftHandPlayspaceRotate_run,
    ?playspace_optionalOverrideRightHandPlayspaceRotate_run,
    ?playspace_optionalOverrideLeftHandPlayspaceMove_run,
    ?playspace_optionalOverrideRightHandPlayspaceMove_run.

(** ** Calls of the member functions of [Playspace.SteamIVRInput] *)
Section PlayspaceCalls.
Context {hdr : vr.Header} {RT : Type} {VRInput : vr.IVRInput RT}.

(** The state a public call leaves: the object as it was, and the world of
    the one query or of the one frame update. *)
Lemma playspace_invoke_state (f : Playspace.Method) (self : Playspace.SteamIVRInput)
    (w : World RT) :
  snd (Playspace.invoke f (self, w))
  = (self,
     match Playspace.member f with
     | Some m => query_world (m self) w
     | None => update_world (Playspace.m_activeActionSet self) w
     end).
Proof.
  destruct f; playspace_step; cbn [Playspace.member];
    try (match goal with
         | |- context [Playspace.isDigitalActionActivatedOnce ?s] =>
             pose proof (once_state (fst s) (snd s)) as E; cbn [fst snd] in E;
             destruct (Playspace.isDigitalActionActivatedOnce s)
               as [[b|e] [a' w']]
         | |- context [Playspace.isDigitalActionActivatedConstant ?s] =>
             pose proof (constant_state (fst s) (snd s)) as E;
             cbn [fst snd] in E;
             destruct (Playspace.isDigitalActionActivatedConstant s)
               as [[b|e] [a' w']]
         end;
         cbn [fst snd] in *; injection E as _ E; now subst);
    reflexivity.
Qed.

Lemma playspace_member_in (f : Playspace.Method) (m : Playspace.SteamIVRInput -> Action)
    (self : Playspace.SteamIVRInput) :
  Playspace.member f = Some m -> In (m self) (Playspace.actions self).
Proof.
  destruct f; cbn; intros E; inversion E; subst; cbn; tauto.
Qed.

(** The outcome of a query method on a member that is not digital. *)
Lemma playspace_invoke_thrown (f : Playspace.Method) (m : Playspace.SteamIVRInput -> Action)
    (self : Playspace.SteamIVRInput) (w : World RT) :
  Playspace.member f = Some m ->
  m_type (m self) <> Digital ->
  fst (Playspace.invoke f (self, w)) = Thrown not_digital_error.
Proof.
  intros Hm Ht.
  destruct f; cbn in Hm; inversion Hm; subst m; playspace_step;
    first [rewrite once_mismatch by exact Ht
          | rewrite constant_mismatch by exact Ht];
    reflexivity.
Qed.

Lemma playspace_invoke_trace (f : Playspace.Method) (self : Playspace.SteamIVRInput)
    (w : World RT) :
  exists cs ls,
    calls (snd (snd (Playspace.invoke f (self, w)))) = (calls w ++ cs)%list
    /\ logged (snd (snd (Playspace.invoke f (self, w)))) = (logged w ++ ls)%list
    /\ (List.length cs <= 1)%nat /\ (List.length ls <= 1)%nat
    /\ Forall (member_call (Playspace.actions self) (Playspace.m_activeActionSet self))
         cs.
Proof.
  rewrite playspace_invoke_state. cbn [snd].
  destruct (Playspace.member f) as [m|] eqn:Hm.
  - destruct (query_world_trace (m self) w) as (cs & ls & Hc & Hl & Hn & Hk & Hq).
    exists cs, ls. repeat split; try assumption.
    eapply Forall_impl; [|exact Hq]. intros c ->. left.
    exists (m self). split; [now apply playspace_member_in with (f := f)|reflexivity].
  - destruct (update_world_trace (Playspace.m_activeActionSet self) w)
      as (ls & Hc & Hl & Hk).
    exists [update_call (Playspace.m_activeActionSet self)], ls.
    repeat split; try assumption; auto.
    constructor; [now right | constructor].
Qed.

(** The state after a sequence of calls is the state after its last executed
    call; in particular after the whole sequence when its head returns. *)
Lemma playspace_invoke_all_state (f : Playspace.Method) (fs : list Playspace.Method)
    (self : Playspace.SteamIVRInput) (w : World RT) :
  snd (Playspace.invoke_all (f :: fs) (self, w))
  = match fst (Playspace.invoke f (self, w)) with
    | Returned _ => snd (Playspace.invoke_all fs (snd (Playspace.invoke f (self, w))))
    | Thrown _ => snd (Playspace.invoke f (self, w))
    end.
Proof.
  rewrite playspace_invoke_all_cons.
  destruct (Playspace.invoke f (self, w)) as [[r|e] s']; cbn [fst snd];
    [|reflexivity].
  destruct (Playspace.invoke_all fs s') as [[rs|e] s'']; reflexivity.
Qed.

Lemma playspace_invoke_all_trace (fs : list Playspace.Method)
    (self : Playspace.SteamIVRInput) (w : World RT) :
  exists cs ls,
    calls (snd (snd (Playspace.invoke_all fs (self, w)))) = (calls w ++ cs)%list
    /\ logged (snd (snd (Playspace.invoke_all fs (self, w))))
       = (logged w ++ ls)%list
    /\ (List.length cs <= List.length fs)%nat /\ (List.length ls <= List.length fs)%nat
    /\ Forall (member_call (Playspace.actions self) (Playspace.m_activeActionSet self))
         cs.
Proof.
  revert w. induction fs as [|f fs IH]; intros w.
  - exists [], []. cbn. rewrite !app_nil_r. repeat split; auto.
  - rewrite playspace_invoke_all_state.
    destruct (playspace_invoke_trace f self w)
      as (cs1 & ls1 & Hc1 & Hl1 & Hn1 & Hk1 & Hq1).
    pose proof (playspace_invoke_frame f self w) as Hf.
    destruct (Playspace.invoke f (self, w)) as [[r|e] [self' w']];
      cbn [fst snd] in *; subst self'.
    + destruct (IH w') as (cs2 & ls2 & Hc2 & Hl2 & Hn2 & Hk2 & Hq2).
      exists (cs1 ++ cs2)%list, (ls1 ++ ls2)%list.
      rewrite Hc2, Hl2, Hc1, Hl1, <- !app_assoc, !length_app.
      cbn [List.length].
      repeat split; try lia. apply Forall_app. now split.
    + exists cs1, ls1. cbn [List.length].
      repeat split; try assumption; lia.
Qed.

(** On an object whose actions are all digital, a call makes exactly one
    runtime call. *)
Lemma playspace_invoke_one_call (f : Playspace.Method) (self : Playspace.SteamIVRInput)
    (w : World RT) :
  all_digital (Playspace.actions self) = true ->
  exists c ls,
    calls (snd (snd (Playspace.invoke f (self, w)))) = (calls w ++ [c])%list
    /\ logged (snd (snd (Playspace.invoke f (self, w)))) = (logged w ++ ls)%list
    /\ (is_error (match Playspace.member f with
                   | Some m => digital_error (m self) w
                   | None => update_error (Playspace.m_activeActionSet self) w
                   end) = false -> ls = []).
Proof.
  intros H. rewrite playspace_invoke_state. cbn [snd].
  destruct (Playspace.member f) as [m|] eqn:Hm.
  - unfold query_world.
    rewrite (proj2 (is_digital_true (m self))
               (playspace_member_digital f self H Hm)).
    do 2 eexists. cbn. repeat split.
    unfold on_error. now intros ->.
  - unfold update_world. do 2 eexists. cbn. repeat split.
    unfold on_error. now intros ->.
Qed.

End PlayspaceCalls.


Ltac room_step :=
  cbv [Room.invoke bind ret Monad_SE se_bind se_ret];
  rewrite ?room_UpdateStates_run,
    ?room_nextSong_run,
    ?room_previousSong_run,
    ?room_pausePlaySong_run,
    ?room_stopSong_run,
    ?room_leftHandRoomTurn_run,
    ?room_rightHandRoomTurn_run,
    ?room_leftHandRoomDrag_run,
    ?room_rightHandRoomDrag_run,
    ?room_optionalOverrideLeftHandRoomTurn_run,
    ?room_optionalOverrideRightHandRoomTurn_run,
    ?room_optionalOverrideLeftHandRoomDrag_run,
    ?room_optionalOverrideRightHandRoomDrag_run,
    ?room_pushToTalk_run.

(** ** Calls of the member functions of [Room.SteamIVRInput] *)
Section RoomCalls.
Context {hdr : vr.Header} {RT : Type} {VRInput : vr.IVRInput RT}.

(** The state a public call leaves: the object as it was, and the world of
    the one query or of the one frame update. *)
Lemma room_invoke_state (f : Room.Method) (self : Room.SteamIVRInput)
    (w : World RT) :
  snd (Room.invoke f (self, w))
  = (self,
     match Room.member f with
     | Some m => query_world (m self) w
     | None => update_world (Room.m_activeActionSet self) w
     end).
Proof.
  destruct f; room_step; cbn [Room.member];
    try (match goal with
         | |- context [Playspace.isDigitalActionActivatedOnce ?s] =>
             pose proof (once_state (fst s) (snd s)) as E; cbn [fst snd] in E;
             destruct (Playspace.isDigitalActionActivatedOnce s)
               as [[b|e] [a' w']]
         | |- context [Playspace.isDigitalActionActivatedConstant ?s] =>
             pose proof (constant_state (fst s) (snd s)) as E;
             cbn [fst snd] in E;
             destruct (Playspace.isDigitalActionActivatedConstant s)
               as [[b|e] [a' w']]
         end;
         cbn [fst snd] in *; injection E as _ E; now subst);
    reflexivity.
Qed.

Lemma room_member_in (f : Room.Method) (m : Room.SteamIVRInput -> Action)
    (self : Room.SteamIVRInput) :
  Room.member f = Some m -> In (m self) (Room.actions self).
Proof.
  destruct f; cbn; intros E; inversion E; subst; cbn; tauto.
Qed.

(** The outcome of a query method on a member that is not digital. *)
Lemma room_invoke_thrown (f : Room.Method) (m : Room.SteamIVRInput -> Action)
    (self : Room.SteamIVRInput) (w : World RT) :
  Room.member f = Some m ->
  m_type (m self) <> Digital ->
  fst (Room.invoke f (self, w)) = Thrown not_digital_error.
Proof.
  intros Hm Ht.
  destruct f; cbn in Hm; inversion Hm; subst m; room_step;
    first [rewrite once_mismatch by exact Ht
          | rewrite constant_mismatch by exact Ht];
    reflexivity.
Qed.

Lemma room_invoke_trace (f : Room.Method) (self : Room.SteamIVRInput)
    (w : World RT) :
  exists cs ls,
    calls (snd (snd (Room.invoke f (self, w)))) = (calls w ++ cs)%list
    /\ logged (snd (snd (Room.invoke f (self, w)))) = (logged w ++ ls)%list
    /\ (List.length cs <= 1)%nat /\ (List.length ls <= 1)%nat
    /\ Forall (member_call (Room.actions self) (Room.m_activeActionSet self))
         cs.
Proof.
  rewrite room_invoke_state. cbn [snd].
  destruct (Room.member f) as [m|] eqn:Hm.
  - destruct (query_world_trace (m self) w) as (cs & ls & Hc & Hl & Hn & Hk & Hq).
    exists cs, ls. repeat split; try assumption.
    eapply Forall_impl; [|exact Hq]. intros c ->. left.
    exists (m self). split; [now apply room_member_in with (f := f)|reflexivity].
  - destruct (update_world_trace (Room.m_activeActionSet self) w)
      as (ls & Hc & Hl & Hk).
    exists [update_call (Room.m_activeActionSet self)], ls.
    repeat split; try assumption; auto.
    constructor; [now right | constructor].
Qed.

(** The state after a sequence of calls is the state after its last executed
    call; in particular after the whole sequence when its head returns. *)
Lemma room_invoke_all_state (f : Room.Method) (fs : list Room.Method)
    (self : Room.SteamIVRInput) (w : World RT) :
  snd (Room.invoke_all (f :: fs) (self, w))
  = match fst (Room.invoke f (self, w)) with
    | Returned _ => snd (Room.invoke_all fs (snd (Room.invoke f (self, w))))
    | Thrown _ => snd (Room.invoke f (self, w))
    end.
Proof.
  rewrite room_invoke_all_cons.
  destruct (Room.invoke f (self, w)) as [[r|e] s']; cbn [fst snd];
    [|reflexivity].
  destruct (Room.invoke_all fs s') as [[rs|e] s'']; reflexivity.
Qed.

Lemma room_invoke_all_trace (fs : list Room.Method)
    (self : Room.SteamIVRInput) (w : World RT) :
  exists cs ls,
    calls (snd (snd (Room.invoke_all fs (self, w)))) = (calls w ++ cs)%list
    /\ logged (snd (snd (Room.invoke_all fs (self, w))))
       = (logged w ++ ls)%list
    /\ (List.length cs <= List.length fs)%nat /\ (List.length ls <= List.length fs)%nat
    /\ Forall (member_call (Room.actions self) (Room.m_activeActionSet self))
         cs.
Proof.
  revert w. induction fs as [|f fs IH]; intros w.
  - exists [], []. cbn. rewrite !app_nil_r. repeat split; auto.
  - rewrite room_invoke_all_state.
    destruct (room_invoke_trace f self w)
      as (cs1 & ls1 & Hc1 & Hl1 & Hn1 & Hk1 & Hq1).
    pose proof (room_invoke_frame f self w) as Hf.
    destruct (Room.invoke f (self, w)) as [[r|e] [self' w']];
      cbn [fst snd] in *; subst self'.
    + destruct (IH w') as (cs2 & ls2 & Hc2 & Hl2 & Hn2 & Hk2 & Hq2).
      exists (cs1 ++ cs2)%list, (ls1 ++ ls2)%list.
      rewrite Hc2, Hl2, Hc1, Hl1, <- !app_assoc, !length_app.
      cbn [List.length].
      repeat split; try lia. apply Forall_app. now split.
    + exists cs1, ls1. cbn [List.length].
      repeat split; try assumption; lia.
Qed.

(** On an object whose actions are all digital, a call makes exactly one
    runtime call. *)
Lemma room_invoke_one_call (f : Room.Method) (self : Room.SteamIVRInput)
    (w : World RT) :
  all_digital (Room.actions self) = true ->
  exists c ls,
    calls (snd (snd (Room.invoke f (self, w)))) = (calls w ++ [c])%list
    /\ logged (snd (snd (Room.invoke f (self, w)))) = (logged w ++ ls)%list
    /\ (is_error (match Room.member f with
                   | Some m => digital_error (m self) w
                   | None => update_error (Room.m_activeActionSet self) w
                   end) = false -> ls = []).
Proof.
  intros H. rewrite room_invoke_state. cbn [snd].
  destruct (Room.member f) as [m|] eqn:Hm.
  - unfold query_world.
    rewrite (proj2 (is_digital_true (m self))
               (room_member_digital f self H Hm)).
    do 2 eexists. cbn. repeat split.
    unfold on_error. now intros ->.
  - unfold update_world. do 2 eexists. cbn. repeat split.
    unfold on_error. now intros ->.
Qed.

End RoomCalls.

Section PlayspaceSequences.
Context {hdr : vr.Header} {RT : Type} {VRInput : vr.IVRInput RT}.

Lemma playspace_invoke_all_count (fs : list Playspace.Method)
    (self : Playspace.SteamIVRInput) (w : World RT) :
  all_digital (Playspace.actions self) = true ->
  exists rs cs,
    fst (Playspace.invoke_all fs (self, w)) = Returned rs
    /\ List.length rs = List.length fs
    /\ calls (snd (snd (Playspace.invoke_all fs (self, w)))) = (calls w ++ cs)%list
    /\ List.length cs = List.length fs.
Proof.
  intros H. revert w. induction fs as [|f fs IH]; intros w.
  - exists [], []. cbn. rewrite app_nil_r. repeat split.
  - destruct (playspace_invoke_one_call f self w H) as (c & ls & Hc & _).
    destruct (playspace_invoke_returns f self w H) as [r Hr].
    pose proof (playspace_invoke_frame f self w) as Hf.
    rewrite playspace_invoke_all_cons.
    destruct (Playspace.invoke f (self, w)) as [[r'|e] [self' w']];
      cbn [fst snd] in *; [subst self' | discriminate].
    destruct (IH w') as (rs & cs & Hrs & Hn & Hcs & Hm).
    destruct (Playspace.invoke_all fs (self, w')) as [[rs'|e] s''];
      cbn [fst snd] in *; [|discriminate].
    injection Hrs as ->.
    exists (r' :: rs), (c :: cs). cbn [fst snd List.length].
    rewrite Hcs, Hc, <- app_assoc. repeat split; auto.
Qed.

Lemma playspace_invoke_all_quiet (fs : list Playspace.Method)
    (self : Playspace.SteamIVRInput) (w : World RT) :
  (forall h buf sz dev rt,
     fst (fst (vr.GetDigitalActionData h buf sz dev rt))
     = vr.VRInputError_None) ->
  (forall sets sz n rt,
     fst (vr.UpdateActionState sets sz n rt) = vr.VRInputError_None) ->
  all_digital (Playspace.actions self) = true ->
  logged (snd (snd (Playspace.invoke_all fs (self, w)))) = logged w.
Proof.
  intros Hq Hu H. revert w. induction fs as [|f fs IH]; intros w;
    [reflexivity|].
  rewrite playspace_invoke_all_state.
  destruct (playspace_invoke_one_call f self w H) as (c & ls & _ & Hl & Hs).
  destruct (playspace_invoke_returns f self w H) as [r Hr].
  pose proof (playspace_invoke_frame f self w) as Hf.
  destruct (Playspace.invoke f (self, w)) as [[r'|e] [self' w']];
    cbn [fst snd] in *; [subst self' | discriminate].
  rewrite IH, Hl, Hs; [apply app_nil_r|].
  destruct (Playspace.member f) as [m|].
  - unfold digital_error, digital_report. now rewrite Hq.
  - unfold update_error, update_report. now rewrite Hu.
Qed.

End PlayspaceSequences.


Section RoomSequences.
Context {hdr : vr.Header} {RT : Type} {VRInput : vr.IVRInput RT}.

Lemma room_invoke_all_count (fs : list Room.Method)
    (self : Room.SteamIVRInput) (w : World RT) :
  all_digital (Room.actions self) = true ->
  exists rs cs,
    fst (Room.invoke_all fs (self, w)) = Returned rs
    /\ List.length rs = List.length fs
    /\ calls (snd (snd (Room.invoke_all fs (self, w)))) = (calls w ++ cs)%list
    /\ List.length cs = List.length fs.
Proof.
  intros H. revert w. induction fs as [|f fs IH]; intros w.
  - exists [], []. cbn. rewrite app_nil_r. repeat split.
  - destruct (room_invoke_one_call f self w H) as (c & ls & Hc & _).
    destruct (room_invoke_returns f self w H) as [r Hr].
    pose proof (room_invoke_frame f self w) as Hf.
    rewrite room_invoke_all_cons.
    destruct (Room.invoke f (self, w)) as [[r'|e] [self' w']];
      cbn [fst snd] in *; [subst self' | discriminate].
    destruct (IH w') as (rs & cs & Hrs & Hn & Hcs & Hm).
    destruct (Room.invoke_all fs (self, w')) as [[rs'|e] s''];
      cbn [fst snd] in *; [|discriminate].
    injection Hrs as ->.
    exists (r' :: rs), (c :: cs). cbn [fst snd List.length].
    rewrite Hcs, Hc, <- app_assoc. repeat split; auto.
Qed.

Lemma room_invoke_all_quiet (fs : list Room.Method)
    (self : Room.SteamIVRInput) (w : World RT) :
  (forall h buf sz dev rt,
     fst (fst (vr.GetDigitalActionData h buf sz dev rt))
     = vr.VRInputError_None) ->
  (forall sets sz n rt,
     fst (vr.UpdateActionState sets sz n rt) = vr.VRInputError_None) ->
  all_digital (Room.actions self) = true ->
  logged (snd (snd (Room.invoke_all fs (self, w)))) = logged w.
Proof.
  intros Hq Hu H. revert w. induction fs as [|f fs IH]; intros w;
    [reflexivity|].
  rewrite room_invoke_all_state.
  destruct (room_invoke_one_call f self w H) as (c & ls & _ & Hl & Hs).
  destruct (room_invoke_returns f self w H) as [r Hr].
  pose proof (room_invoke_frame f self w) as Hf.
  destruct (Room.invoke f (self, w)) as [[r'|e] [self' w']];
    cbn [fst snd] in *; [subst self' | discriminate].
  rewrite IH, Hl, Hs; [apply app_nil_r|].
  destruct (Room.member f) as [m|].
  - unfold digital_error, digital_report. now rewrite Hq.
  - unfold update_error, update_report. now rewrite Hu.
Qed.

End RoomSequences.


Ltac build_object :=
  cbv [bind Monad_SE se_bind];
  match goal with
  | |- context [Manifest_ctor (tt, ?w)] =>
      let w' := fresh "w" in
      let E := fresh "E" in
      let Hrt := fresh "Hrt" in
      destruct (Manifest_ctor_ok w) as (w' & E & Hrt);
      rewrite E; clear E; cbv beta iota;
      match goal with
      | |- context [ActionSet_ctor ?n (tt, w')] =>
          let w'' := fresh "w" in
          destruct (ActionSet_ctor_ok n w') as (w'' & E);
          rewrite E; clear E; cbv beta iota
      end
  end;
  repeat match goal with
  | |- context [Action_ctor ?n ?t (tt, ?w)] =>
      let h := fresh "h" in
      let w' := fresh "w" in
      let E := fresh "E" in
      destruct (Action_ctor_ok n t w) as (h & w' & E);
      rewrite E; clear E; cbv beta iota
  end.

(** ** What a user of the module can rely on *)
Section Further.
Context {hdr : vr.Header} {RT : Type} {VRInput : vr.IVRInput RT}.

(** X1.  When the runtime answers the query of a digital action with
    [VRInputError_None], [getDigitalActionData] returns the buffer the
    runtime filled, has made that one call and has logged nothing; the
    action is as it was.  The same holds, on its own, of
    [getAnalogActionData] and an analog action. *)
Theorem successful_query_is_silent (a b : Action) (w : World RT) :
  (m_type a = Digital ->
   digital_error a w = vr.VRInputError_None ->
   Playspace.getDigitalActionData (a, w)
   = (Returned (digital_state a w),
      (a, {| runtime := digital_next a w;
             logged := logged w;
             calls := (calls w ++ [digital_call a])%list |}))
   /\ Room.getDigitalActionData (a, w)
      = (Returned (digital_state a w),
         (a, {| runtime := digital_next a w;
                logged := logged w;
                calls := (calls w ++ [digital_call a])%list |})))
  /\ (m_type b = Analog ->
      analog_error b w = vr.VRInputError_None ->
      Playspace.getAnalogActionData (b, w)
      = (Returned (analog_state b w),
         (b, {| runtime := analog_next b w;
                logged := logged w;
                calls := (calls w ++ [analog_call b])%list |}))
      /\ Room.getAnalogActionData (b, w)
         = (Returned (analog_state b w),
            (b, {| runtime := analog_next b w;
                   logged := logged w;
                   calls := (calls w ++ [analog_call b])%list |}))).
Proof.
  to_playspace. split.
  - intros Ha Hea.
    rewrite getDigitalActionData_digital by exact Ha.
    unfold on_error, after_call. rewrite Hea.
    cbv [is_error vr.VRInputError_None Z.eqb negb].
    rewrite !app_nil_r. split; reflexivity.
  - intros Hb Heb.
    rewrite getAnalogActionData_analog by exact Hb.
    unfold on_error, after_call. rewrite Heb.
    cbv [is_error vr.VRInputError_None Z.eqb negb].
    rewrite !app_nil_r. split; reflexivity.
Qed.

(** X2.  A query method whose member action is not digital throws the
    exception of [getDigitalActionData]: the object is as it was, the one
    mismatch line is logged, and the runtime has not been called. *)
Theorem query_on_other_type_throws
    (fp : Playspace.Method) (mp : Playspace.SteamIVRInput -> Action)
    (p : Playspace.SteamIVRInput)
    (fr : Room.Method) (mr : Room.SteamIVRInput -> Action)
    (r : Room.SteamIVRInput) (w : World RT)
    (Hmp : Playspace.member fp = Some mp) (Hp : m_type (mp p) <> Digital)
    (Hmr : Room.member fr = Some mr) (Hr : m_type (mr r) <> Digital) :
  Playspace.invoke fp (p, w)
  = (Thrown not_digital_error, (p, after_log w [not_digital (mp p)]))
  /\ Room.invoke fr (r, w)
     = (Thrown not_digital_error, (r, after_log w [not_digital (mr r)])).
Proof.
  pose proof (playspace_invoke_thrown fp p w Hmp Hp) as E1.
  pose proof (playspace_invoke_state fp p w) as S1.
  pose proof (room_invoke_thrown fr r w Hmr Hr) as E2.
  pose proof (room_invoke_state fr r w) as S2.
  rewrite Hmp in S1. rewrite Hmr in S2. unfold query_world in S1, S2.
  destruct (is_digital (mp p)) eqn:D1;
    [apply is_digital_true in D1; contradiction|].
  destruct (is_digital (mr r)) eqn:D2;
    [apply is_digital_true in D2; contradiction|].
  destruct (Playspace.invoke fp (p, w)) as [o1 s1].
  destruct (Room.invoke fr (r, w)) as [o2 s2].
  cbn [fst snd] in *. subst. split; reflexivity.
Qed.

(** X3.  Whatever public member functions are called on an object, of
    whatever types its actions are: calls and lines are only appended to
    what was there; there is at most one runtime call and at most one line
    per call made; and every runtime call is the digital query of a member
    action or the frame update with the object's descriptor.  Handles are
    not resolved again and no analog query is made. *)
Theorem public_calls_only_query_and_update
    (fsp : list Playspace.Method) (p : Playspace.SteamIVRInput)
    (fsr : list Room.Method) (r : Room.SteamIVRInput) (w : World RT) :
  (exists cs ls,
     calls (snd (snd (Playspace.invoke_all fsp (p, w)))) = (calls w ++ cs)%list
     /\ logged (snd (snd (Playspace.invoke_all fsp (p, w))))
        = (logged w ++ ls)%list
     /\ (List.length cs <= List.length fsp)%nat
     /\ (List.length ls <= List.length fsp)%nat
     /\ Forall (member_call (Playspace.actions p)
                  (Playspace.m_activeActionSet p)) cs)
  /\ (exists cs ls,
        calls (snd (snd (Room.invoke_all fsr (r, w)))) = (calls w ++ cs)%list
        /\ logged (snd (snd (Room.invoke_all fsr (r, w))))
           = (logged w ++ ls)%list
        /\ (List.length cs <= List.length fsr)%nat
        /\ (List.length ls <= List.length fsr)%nat
        /\ Forall (member_call (Room.actions r) (Room.m_activeActionSet r))
             cs).
Proof.
  split; [apply playspace_invoke_all_trace | apply room_invoke_all_trace].
Qed.

(** X4.  On an object whose actions are all digital, a sequence of public
    calls returns one result per call and makes exactly one runtime call per
    call. *)
Theorem one_runtime_call_per_public_call
    (fsp : list Playspace.Method) (p : Playspace.SteamIVRInput)
    (fsr : list Room.Method) (r : Room.SteamIVRInput) (w : World RT)
    (Hp : all_digital (Playspace.actions p) = true)
    (Hr : all_digital (Room.actions r) = true) :
  (exists rs cs,
     fst (Playspace.invoke_all fsp (p, w)) = Returned rs
     /\ List.length rs = List.length fsp
     /\ calls (snd (snd (Playspace.invoke_all fsp (p, w))))
        = (calls w ++ cs)%list
     /\ List.length cs = List.length fsp)
  /\ (exists rs cs,
        fst (Room.invoke_all fsr (r, w)) = Returned rs
        /\ List.length rs = List.length fsr
        /\ calls (snd (snd (Room.invoke_all fsr (r, w))))
           = (calls w ++ cs)%list
        /\ List.length cs = List.length fsr).
Proof.
  split; [now apply playspace_invoke_all_count
         | now apply room_invoke_all_count].
Qed.

(** X5.  With a runtime whose digital queries and frame updates always
    report [VRInputError_None], no sequence of public calls on an object
    whose actions are all digital writes to the log. *)
Theorem healthy_runtime_keeps_log_untouched
    (fsp : list Playspace.Method) (p : Playspace.SteamIVRInput)
    (fsr : list Room.Method) (r : Room.SteamIVRInput) (w : World RT)
    (Hq : forall h buf sz dev rt,
            fst (fst (vr.GetDigitalActionData h buf sz dev rt))
            = vr.VRInputError_None)
    (Hu : forall sets sz n rt,
            fst (vr.UpdateActionState sets sz n rt) = vr.VRInputError_None)
    (Hp : all_digital (Playspace.actions p) = true)
    (Hr : all_digital (Room.actions r) = true) :
  logged (snd (snd (Playspace.invoke_all fsp (p, w)))) = logged w
  /\ logged (snd (snd (Room.invoke_all fsr (r, w)))) = logged w.
Proof.
  split; [now apply playspace_invoke_all_quiet
         | now apply room_invoke_all_quiet].
Qed.

(** X6.  What a digital query returns, and the state it leaves the runtime
    in, depend on the handle of the action and on the state of the runtime
    only: not on the name of the action, the log or the calls made before. *)
Theorem query_depends_on_handle_and_runtime (a a' : Action) (w w' : World RT)
    (Ha : m_type a = Digital) (Ha' : m_type a' = Digital)
    (Hh : m_handle a = m_handle a') (Hrt : runtime w = runtime w') :
  fst (Playspace.getDigitalActionData (a, w))
  = fst (Playspace.getDigitalActionData (a', w'))
  /\ fst (Playspace.isDigitalActionActivatedOnce (a, w))
     = fst (Playspace.isDigitalActionActivatedOnce (a', w'))
  /\ fst (Playspace.isDigitalActionActivatedConstant (a, w))
     = fst (Playspace.isDigitalActionActivatedConstant (a', w'))
  /\ runtime (snd (snd (Playspace.getDigitalActionData (a, w))))
     = runtime (snd (snd (Playspace.getDigitalActionData (a', w')))).
Proof.
  rewrite !getDigitalActionData_digital, !once_digital, !constant_digital
    by assumption.
  cbn [fst snd after_call runtime].
  unfold digital_state, digital_next, digital_report. rewrite Hh, Hrt.
  repeat split.
Qed.

(** X7.  The module keeps no state of its own between queries: when the
    query leaves the runtime in the state it was in, asking again gives the
    same answer, also for the once-query. *)
Theorem repeated_query_repeats_answer (a : Action) (w : World RT)
    (Ha : m_type a = Digital) (Hro : digital_next a w = runtime w) :
  fst (Playspace.isDigitalActionActivatedOnce
         (snd (Playspace.isDigitalActionActivatedOnce (a, w))))
  = fst (Playspace.isDigitalActionActivatedOnce (a, w))
  /\ fst (Playspace.isDigitalActionActivatedConstant
            (snd (Playspace.isDigitalActionActivatedConstant (a, w))))
     = fst (Playspace.isDigitalActionActivatedConstant (a, w))
  /\ fst (Playspace.getDigitalActionData
            (snd (Playspace.getDigitalActionData (a, w))))
     = fst (Playspace.getDigitalActionData (a, w)).
Proof.
  rewrite !once_state, !constant_state, !getDigitalActionData_state.
  rewrite !getDigitalActionData_digital, !once_digital, !constant_digital
    by assumption.
  cbn [fst].
  assert (E : digital_state a (query_world a w) = digital_state a w).
  { unfold query_world. rewrite (proj2 (is_digital_true a) Ha).
    unfold digital_state, digital_report, after_call. cbn [runtime].
    now rewrite Hro. }
  rewrite E. repeat split.
Qed.

(** X8.  On objects of the two revisions with the same media actions and
    the same descriptor, the member functions the revisions share
    ([nextSong], [previousSong], [pausePlaySong], [stopSong],
    [UpdateStates]) give the same result and leave the same world. *)
Theorem revisions_agree_on_shared_methods
    (p : Playspace.SteamIVRInput) (r : Room.SteamIVRInput) (w : World RT)
    (Hm : [Playspace.m_nextTrack p; Playspace.m_previousTrack p;
            Playspace.m_pausePlayTrack p; Playspace.m_stopTrack p]
          = [Room.m_nextTrack r; Room.m_previousTrack r;
            Room.m_pausePlayTrack r; Room.m_stopTrack r])
    (Hd : Playspace.m_activeActionSet p = Room.m_activeActionSet r) :
  fst (Playspace.nextSong (p, w)) = fst (Room.nextSong (r, w))
  /\ snd (snd (Playspace.nextSong (p, w))) = snd (snd (Room.nextSong (r, w)))
  /\ fst (Playspace.previousSong (p, w)) = fst (Room.previousSong (r, w))
  /\ snd (snd (Playspace.previousSong (p, w)))
     = snd (snd (Room.previousSong (r, w)))
  /\ fst (Playspace.pausePlaySong (p, w)) = fst (Room.pausePlaySong (r, w))
  /\ snd (snd (Playspace.pausePlaySong (p, w)))
     = snd (snd (Room.pausePlaySong (r, w)))
  /\ fst (Playspace.stopSong (p, w)) = fst (Room.stopSong (r, w))
  /\ snd (snd (Playspace.stopSong (p, w))) = snd (snd (Room.stopSong (r, w)))
  /\ fst (Playspace.UpdateStates (p, w)) = fst (Room.UpdateStates (r, w))
  /\ snd (snd (Playspace.UpdateStates (p, w)))
     = snd (snd (Room.UpdateStates (r, w))).
Proof.
  injection Hm as H1 H2 H3 H4.
  rewrite playspace_nextSong_run, playspace_previousSong_run,
    playspace_pausePlaySong_run, playspace_stopSong_run,
    room_nextSong_run, room_previousSong_run,
    room_pausePlaySong_run, room_stopSong_run,
    playspace_UpdateStates_run, room_UpdateStates_run.
  cbn [fst snd]. rewrite H1, H2, H3, H4, Hd. repeat split.
Qed.

End Further.

Section Names.
Context {hdr : vr.Header} {RT : Type} {VRInput : vr.IVRInput RT}.
Context {manifestPath : ManifestPath}.
Context {playspace : Playspace.input_strings} {room : Room.input_strings}.

(** X9.  The constructor gives every member action the manifest string of
    its own name, in the order of the initializer list, and the main set the
    string [k_setMain]. *)
Theorem members_carry_their_manifest_names (w0 : World RT) :
  (exists self w1,
     Playspace.SteamIVRInput_ctor (tt, w0) = (Returned self, (tt, w1))
     /\ set_name (Playspace.m_mainSet self) = Playspace.k_setMain
     /\ map m_name (Playspace.actions self)
        = 
          [Playspace.k_actionNextTrack; Playspace.k_actionPreviousTrack;
           Playspace.k_actionPausePlayTrack; Playspace.k_actionStopTrack;
           Playspace.k_actionLeftHandPlayspaceRotate;
           Playspace.k_actionRightHandPlayspaceRotate;
           Playspace.k_actionLeftHandPlayspaceMove;
           Playspace.k_actionRightHandPlayspaceMove;
           Playspace.k_actionOptionalOverrideLeftHandPlayspaceRotate;
           Playspace.k_actionOptionalOverrideRightHandPlayspaceRotate;
           Playspace.k_actionOptionalOverrideLeftHandPlayspaceMove;
           Playspace.k_actionOptionalOverrideRightHandPlayspaceMove])
  /\ (exists self w1,
        Room.SteamIVRInput_ctor (tt, w0) = (Returned self, (tt, w1))
        /\ set_name (Room.m_mainSet self) = Room.k_setMain
        /\ map m_name (Room.actions self)
           =
          [Room.k_actionNextTrack; Room.k_actionPreviousTrack;
           Room.k_actionPausePlayTrack; Room.k_actionStopTrack;
           Room.k_actionLeftHandRoomTurn; Room.k_actionRightHandRoomTurn;
           Room.k_actionLeftHandRoomDrag; Room.k_actionRightHandRoomDrag;
           Room.k_actionOptionalOverrideLeftHandRoomTurn;
           Room.k_actionOptionalOverrideRightHandRoomTurn;
           Room.k_actionOptionalOverrideLeftHandRoomDrag;
           Room.k_actionOptionalOverrideRightHandRoomDrag;
           Room.k_actionPushToTalk]).
Proof.
  split.
  - unfold Playspace.SteamIVRInput_ctor, Playspace.SteamIVRInput_init.
    build_object. do 2 eexists. split; [reflexivity|]. split; reflexivity.
  - unfold Room.SteamIVRInput_ctor, Room.SteamIVRInput_init.
    build_object. do 2 eexists. split; [reflexivity|]. split; reflexivity.
Qed.

End Names.

(** ** The further properties at sample inputs *)

Lemma successful_query_sample :
  (m_type Bench.button = Digital
   /\ @digital_error Bench.header _ Bench.Buttons Bench.button
        (Bench.fresh (true, false)) = vr.VRInputError_None
   /\ logged (snd (snd (@Playspace.getDigitalActionData Bench.header _
                          Bench.Buttons
                          (Bench.button, Bench.fresh (true, false)))))
      = [])
  /\ (m_type Bench.stick = Analog
      /\ @analog_error Bench.header _ Bench.DigitalDown Bench.stick
           (Bench.fresh tt) = vr.VRInputError_None
      /\ @digital_error Bench.header _ Bench.DigitalDown Bench.button
           (Bench.fresh tt) <> vr.VRInputError_None
      /\ logged (snd (snd (@Playspace.getAnalogActionData Bench.header _
                             Bench.DigitalDown
                             (Bench.stick, Bench.fresh tt))))
         = []).
Proof.
  split.
  - split; [reflexivity|]. split; [reflexivity|].
    exact (f_equal (fun x => logged (snd (snd x)))
             (proj1 (proj1 (@successful_query_is_silent Bench.header _
                              Bench.Buttons Bench.button Bench.stick
                              (Bench.fresh (true, false)))
                       eq_refl eq_refl))).
  - split; [reflexivity|]. split; [reflexivity|].
    split; [vm_compute; discriminate|].
    exact (f_equal (fun x => logged (snd (snd x)))
             (proj1 (proj2 (@successful_query_is_silent Bench.header _
                              Bench.DigitalDown Bench.button Bench.stick
                              (Bench.fresh tt))
                       eq_refl eq_refl))).
Defined.

Lemma query_on_other_type_sample :
  m_type (Playspace.m_nextTrack Bench.miswired_playspace) <> Digital
  /\ m_type (Room.m_pushToTalk Bench.miswired_room) <> Digital
  /\ fst (@Room.invoke Bench.header _ Bench.Buttons Room.call_pushToTalk
            (Bench.miswired_room, Bench.fresh (true, true)))
     = Thrown not_digital_error.
Proof.
  assert (Hp : m_type (Playspace.m_nextTrack Bench.miswired_playspace)
               <> Digital) by (simpl; discriminate).
  assert (Hr : m_type (Room.m_pushToTalk Bench.miswired_room) <> Digital)
    by (simpl; discriminate).
  split; [exact Hp|]. split; [exact Hr|].
  exact (f_equal fst
           (proj2 (@query_on_other_type_throws Bench.header _ Bench.Buttons
                     Playspace.call_nextSong Playspace.m_nextTrack
                     Bench.miswired_playspace
                     Room.call_pushToTalk Room.m_pushToTalk
                     Bench.miswired_room (Bench.fresh (true, true))
                     eq_refl Hp eq_refl Hr))).
Defined.

Lemma one_runtime_call_sample :
  all_digital (Playspace.actions Bench.playspace_object) = true
  /\ all_digital (Room.actions Bench.room_object) = true
  /\ exists rs cs,
       fst (@Room.invoke_all Bench.header _ Bench.Failing
              [Room.call_pushToTalk; Room.call_UpdateStates; Room.call_stopSong]
              (Bench.room_object, Bench.fresh false))
       = Returned rs
       /\ List.length rs = 3%nat
       /\ calls (snd (snd (@Room.invoke_all Bench.header _ Bench.Failing
                             [Room.call_pushToTalk; Room.call_UpdateStates;
                              Room.call_stopSong]
                             (Bench.room_object, Bench.fresh false))))
          = ([] ++ cs)%list
       /\ List.length cs = 3%nat.
Proof.
  split; [reflexivity|]. split; [reflexivity|].
  exact (proj2 (@one_runtime_call_per_public_call Bench.header _ Bench.Failing
                  [Playspace.call_nextSong] Bench.playspace_object
                  [Room.call_pushToTalk; Room.call_UpdateStates;
                   Room.call_stopSong]
                  Bench.room_object (Bench.fresh false) eq_refl eq_refl)).
Defined.

Lemma healthy_runtime_sample :
  (forall h buf sz dev rt,
     fst (fst (@vr.GetDigitalActionData _ Bench.Buttons h buf sz dev rt))
     = vr.VRInputError_None)
  /\ (forall sets sz n rt,
        fst (@vr.UpdateActionState _ Bench.Buttons sets sz n rt)
        = vr.VRInputError_None)
  /\ logged (snd (snd (@Playspace.invoke_all Bench.header _ Bench.Buttons
                         [Playspace.call_nextSong; Playspace.call_UpdateStates;
                          Playspace.call_leftHandPlayspaceMove]
                         (Bench.playspace_object, Bench.used (true, true)))))
     = logged (Bench.used (true, true)).
Proof.
  split; [intros; reflexivity|]. split; [intros; reflexivity|].
  exact (proj1 (@healthy_runtime_keeps_log_untouched Bench.header _
                  Bench.Buttons
                  [Playspace.call_nextSong; Playspace.call_UpdateStates;
                   Playspace.call_leftHandPlayspaceMove]
                  Bench.playspace_object
                  [Room.call_pushToTalk] Bench.room_object
                  (Bench.used (true, true))
                  (fun _ _ _ _ _ => eq_refl) (fun _ _ _ _ => eq_refl)
                  eq_refl eq_refl)).
Defined.

(** Two actions of different names that the runtime resolved to one handle,
    asked in worlds of different histories. *)
Lemma query_depends_on_handle_sample :
  m_name Bench.button <> m_name (Bench.digital "/actions/main/in/StopTrack")
  /\ m_handle Bench.button
     = m_handle (Bench.digital "/actions/main/in/StopTrack")
  /\ runtime (Bench.fresh (true, true)) = runtime (Bench.used (true, true))
  /\ fst (@Playspace.isDigitalActionActivatedOnce Bench.header _ Bench.Buttons
            (Bench.button, Bench.fresh (true, true)))
     = fst (@Playspace.isDigitalActionActivatedOnce Bench.header _
              Bench.Buttons
              (Bench.digital "/actions/main/in/StopTrack",
               Bench.used (true, true))).
Proof.
  split; [simpl; discriminate|]. split; [reflexivity|].
  split; [reflexivity|].
  exact (proj1 (proj2 (@query_depends_on_handle_and_runtime Bench.header _
                         Bench.Buttons Bench.button
                         (Bench.digital "/actions/main/in/StopTrack")
                         (Bench.fresh (true, true)) (Bench.used (true, true))
                         eq_refl eq_refl eq_refl eq_refl))).
Defined.

Lemma repeated_query_sample :
  m_type Bench.button = Digital
  /\ @digital_next Bench.header _ Bench.Buttons Bench.button
       (Bench.fresh (true, true))
     = runtime (Bench.fresh (true, true))
  /\ fst (@Playspace.isDigitalActionActivatedOnce Bench.header _ Bench.Buttons
            (snd (@Playspace.isDigitalActionActivatedOnce Bench.header _
                    Bench.Buttons (Bench.button, Bench.fresh (true, true)))))
     = Returned true.
Proof.
  split; [reflexivity|]. split; [reflexivity|].
  exact (proj1 (@repeated_query_repeats_answer Bench.header _ Bench.Buttons
                  Bench.button (Bench.fresh (true, true)) eq_refl eq_refl)).
Defined.

Lemma revisions_agree_sample :
  Playspace.m_activeActionSet Bench.playspace_object
  = Room.m_activeActionSet Bench.room_object
  /\ fst (@Playspace.stopSong Bench.header _ Bench.Buttons
            (Bench.playspace_object, Bench.fresh (true, true)))
     = fst (@Room.stopSong Bench.header _ Bench.Buttons
              (Bench.room_object, Bench.fresh (true, true))).
Proof.
  split; [reflexivity|].
  exact (proj1 (proj2 (proj2 (proj2 (proj2 (proj2 (proj2
           (@revisions_agree_on_shared_methods Bench.header _ Bench.Buttons
              Bench.playspace_object Bench.room_object
              (Bench.fresh (true, true)) eq_refl eq_refl)))))))).
Defined.
